(** * NexusOptim IA sensor-node firmware: uplink engine, safety and leak tasks

    A shallow embedding of the parts of the firmware that decide the
    behaviour of the duty-cycled uplink pipeline:

    - [lorawan_handler.c]: the LoRaWAN engine (join, send, downlink
      processing, sleep, wake-up, reset) with its session, frame counter and
      duty-cycle gate;
    - [main_electrical.c]: the safety task, the power-factor computation and
      the safety checks of the electrical task, the power-quality grade, the
      acquisition interrupt and the CRC-8;
    - [main_water.c]: the leak-detection task with its circular pressure
      history, the water task with its alerts and adaptive sampling, the
      water-quality grade and the telemetry payload;
    - [main_lorawan_only.c]: the uplink task with its start-up, retries and
      sequence number, and the power task.

    Integers of the C code are values in [Z] with their wrap-around written
    out.  The C globals of [lorawan_handler.c] are gathered in one record that
    is passed explicitly.  Everything outside the firmware (timer, radio
    driver, sensors, RTOS queues of other tasks) enters through explicit
    environment records. *)

From Stdlib Require Import ZArith List Bool Lia.
From Stdlib Require Import QArith Qabs Qround.
From Stdlib Require Import Reals Lra Lqa.
Import ListNotations.

Local Open Scope Z_scope.

(** ** Fixed-width integers *)

Definition u8 (x : Z) : Z := x mod 256.
Definition u16 (x : Z) : Z := x mod 65536.
Definition u32 (x : Z) : Z := x mod 4294967296.

(** Conversion to [int8_t]: the low eight bits read as two's complement. *)
Definition i8 (x : Z) : Z :=
  let b := u8 x in if b <? 128 then b else b - 256.

(** Byte [k] (0 = least significant) of a 32-bit value: [(x >> 8k) & 0xFF]. *)
Definition byte_of (x : Z) (k : Z) : Z := Z.land (Z.shiftr x (8 * k)) 255.

(** ** The radio driver, as seen from the engine *)

Module Radio.

(** Modelled from the spec: the SX1262 driver ([sx1262_driver.h]) is not
    among the sources.  The engine only hands frames to it, polls it for
    completion and reads signal quality, so the driver is a transmit log
    plus an operating mode; what it answers comes from the environment. *)
Inductive mode := Standby | RxContinuous | Sleeping.

Record t := mk {
  sent : list (list Z);   (* frames given to [sx1262_send], newest first *)
  op_mode : mode
}.

Definition sx1262_send (frame : list Z) (r : t) : t :=
  mk (frame :: sent r) Standby.

Definition sx1262_receive_continuous (r : t) : t := mk (sent r) RxContinuous.
Definition sx1262_sleep (r : t) : t := mk (sent r) Sleeping.
Definition sx1262_wakeup (r : t) : t := mk (sent r) Standby.
Definition sx1262_reset (r : t) : t := mk (sent r) Standby.

(** [while (!sx1262_is_tx_done()) lorawan_delay_ms(1);] against the list of
    answers the driver gives to the successive polls.  The result is the
    number of one-millisecond delays spent, or [None] when the driver never
    reports completion within the answers supplied. *)
Fixpoint wait_tx_done (answers : list bool) : option nat :=
  match answers with
  | [] => None
  | true :: _ => Some O
  | false :: rest =>
      match wait_tx_done rest with
      | Some n => Some (S n)
      | None => None
      end
  end.

End Radio.

(** ** lorawan_handler.c *)

Module LoRaWAN.

Inductive lorawan_state_t :=
| LORAWAN_STATE_IDLE
| LORAWAN_STATE_JOINING
| LORAWAN_STATE_JOINED
| LORAWAN_STATE_SENDING
| LORAWAN_STATE_SLEEP.

Inductive lorawan_result_t :=
| LORAWAN_SUCCESS
| LORAWAN_ERROR_INIT
| LORAWAN_ERROR_JOIN
| LORAWAN_ERROR_SEND
| LORAWAN_ERROR_BUSY
| LORAWAN_ERROR_NO_NETWORK.

Definition state_eqb (a b : lorawan_state_t) : bool :=
  match a, b with
  | LORAWAN_STATE_IDLE, LORAWAN_STATE_IDLE
  | LORAWAN_STATE_JOINING, LORAWAN_STATE_JOINING
  | LORAWAN_STATE_JOINED, LORAWAN_STATE_JOINED
  | LORAWAN_STATE_SENDING, LORAWAN_STATE_SENDING
  | LORAWAN_STATE_SLEEP, LORAWAN_STATE_SLEEP => true
  | _, _ => false
  end.

Record lorawan_credentials_t := mk_credentials {
  dev_eui : list Z;
  app_eui : list Z;
  app_key : list Z
}.

Record lorawan_session_t := mk_session {
  dev_addr : Z;          (* uint32_t *)
  nwk_skey : list Z;     (* uint8_t[16] *)
  app_skey : list Z;     (* uint8_t[16] *)
  fcnt_up : Z;           (* uint16_t *)
  fcnt_down : Z;         (* uint16_t *)
  joined : bool
}.

(** The file-scope variables of the handler, and the radio behind it. *)
Record engine := mk_engine {
  lorawan_state : lorawan_state_t;
  session : lorawan_session_t;
  credentials : lorawan_credentials_t;
  last_tx_timestamp : Z;   (* uint32_t, milliseconds *)
  last_rssi : Z;           (* int8_t *)
  last_snr : Z;            (* int8_t *)
  radio : Radio.t
}.

Definition default_credentials : lorawan_credentials_t :=
  mk_credentials
    [0x70; 0xB3; 0xD5; 0x7E; 0xD0; 0x06; 0x12; 0x34]
    [0x70; 0xB3; 0xD5; 0x7E; 0xD0; 0x06; 0x00; 0x01]
    [0x2B; 0x7E; 0x15; 0x16; 0x28; 0xAE; 0xD2; 0xA6;
     0xAB; 0xF7; 0x15; 0x88; 0x09; 0xCF; 0x4F; 0x3C].

(** [memset(&session, 0, sizeof session)] *)
Definition zero_session : lorawan_session_t :=
  mk_session 0 (repeat 0 16) (repeat 0 16) 0 0 false.

(** The initial values of the globals. *)
Definition power_on : engine :=
  mk_engine LORAWAN_STATE_IDLE zero_session
            (mk_credentials (repeat 0 8) (repeat 0 8) (repeat 0 16))
            0 (-100) (-20) (Radio.mk [] Radio.Standby).

Definition with_state (st : lorawan_state_t) (e : engine) : engine :=
  mk_engine st (session e) (credentials e) (last_tx_timestamp e)
            (last_rssi e) (last_snr e) (radio e).

Definition with_session (s : lorawan_session_t) (e : engine) : engine :=
  mk_engine (lorawan_state e) s (credentials e) (last_tx_timestamp e)
            (last_rssi e) (last_snr e) (radio e).

Definition with_radio (r : Radio.t) (e : engine) : engine :=
  mk_engine (lorawan_state e) (session e) (credentials e)
            (last_tx_timestamp e) (last_rssi e) (last_snr e) r.

Definition set_joined (b : bool) (s : lorawan_session_t) : lorawan_session_t :=
  mk_session (dev_addr s) (nwk_skey s) (app_skey s) (fcnt_up s) (fcnt_down s) b.

(** [TIM_GetCounter(TIM2) / 1000]: the microsecond counter, a 32-bit
    register, read as milliseconds. *)
Definition lorawan_get_timestamp (tim2_counter : Z) : Z :=
  u32 tim2_counter / 1000.

(** *** lorawan_init *)

Definition lorawan_init (sx1262_init_ok : bool) (e : engine)
  : lorawan_result_t * engine :=
  let e1 := mk_engine (lorawan_state e) (session e) default_credentials
                      (last_tx_timestamp e) (last_rssi e) (last_snr e)
                      (radio e) in
  if negb sx1262_init_ok then (LORAWAN_ERROR_INIT, e1)
  else
    (LORAWAN_SUCCESS,
     with_state LORAWAN_STATE_IDLE
                (with_session (set_joined false zero_session) e1)).

(** *** lorawan_send *)

Record send_env := mk_send_env {
  send_counter : Z;              (* TIM2 when the duty cycle is checked *)
  tx_done_answers : list bool;   (* answers of [sx1262_is_tx_done] *)
  rssi_reading : Z;              (* [sx1262_get_rssi], int8_t *)
  snr_reading : Z                (* [sx1262_get_snr], int8_t *)
}.

(** The payload bytes of the frame: [data[i] ^ session.app_skey[i % 16]]
    for [i < length]. *)
Definition encrypt_payload (skey data : list Z) (length : Z) : list Z :=
  map (fun i => u8 (Z.lxor (nth i data 0) (nth (i mod 16)%nat skey 0)))
      (seq 0 (Z.to_nat length)).

Definition build_frame (s : lorawan_session_t) (data : list Z)
           (length port : Z) : list Z :=
  [0x40;
   byte_of (dev_addr s) 0; byte_of (dev_addr s) 1;
   byte_of (dev_addr s) 2; byte_of (dev_addr s) 3;
   0x00;
   byte_of (fcnt_up s) 0; byte_of (fcnt_up s) 1;
   port]
  ++ encrypt_payload (app_skey s) data length
  ++ [byte_of 0x12345678 0; byte_of 0x12345678 1;
      byte_of 0x12345678 2; byte_of 0x12345678 3].

Definition bump_fcnt_up (s : lorawan_session_t) : lorawan_session_t :=
  mk_session (dev_addr s) (nwk_skey s) (app_skey s)
             (u16 (fcnt_up s + 1)) (fcnt_down s) (joined s).

(** [lorawan_send(data, length, port)].  [None] stands for a call that
    never comes back because the radio never reports the end of the
    transmission. *)
Definition lorawan_send (env : send_env) (data : list Z) (length port : Z)
           (e : engine) : option (lorawan_result_t * engine) :=
  if negb (joined (session e))
     || negb (state_eqb (lorawan_state e) LORAWAN_STATE_JOINED)
  then Some (LORAWAN_ERROR_NO_NETWORK, e)
  else if 242 <? length then Some (LORAWAN_ERROR_SEND, e)
  else
    let current_time := lorawan_get_timestamp (send_counter env) in
    if u32 (current_time - last_tx_timestamp e) <? 99000
    then Some (LORAWAN_ERROR_BUSY, e)
    else
      let frame := build_frame (session e) data length port in
      let e1 := with_state LORAWAN_STATE_SENDING e in
      let e2 := with_radio (Radio.sx1262_send frame (radio e1)) e1 in
      match Radio.wait_tx_done (tx_done_answers env) with
      | None => None
      | Some _ =>
          Some (LORAWAN_SUCCESS,
                mk_engine LORAWAN_STATE_JOINED
                          (bump_fcnt_up (session e2))
                          (credentials e2)
                          current_time
                          (rssi_reading env)
                          (snr_reading env)
                          (radio e2))
      end.

(** *** lorawan_join *)

(** One turn of the wait loop of [lorawan_join]: the timer value read by the
    loop condition, whether the radio reports a received frame, and that
    frame. *)
Record join_poll := mk_join_poll {
  poll_counter : Z;
  rx_done : bool;
  rx_frame : list Z
}.

Record join_env := mk_join_env {
  request_tx_done : list bool;   (* answers of [sx1262_is_tx_done] *)
  join_counter : Z;              (* TIM2 when the timeout is computed *)
  join_polls : list join_poll
}.

Definition join_request_frame (c : lorawan_credentials_t) : list Z :=
  [0x00]
  ++ map (fun i => nth i (app_eui c) 0) [7; 6; 5; 4; 3; 2; 1; 0]%nat
  ++ map (fun i => nth i (dev_eui c) 0) [7; 6; 5; 4; 3; 2; 1; 0]%nat
  ++ [byte_of 0x1234 0; byte_of 0x1234 1]
  ++ [byte_of 0x87654321 0; byte_of 0x87654321 1;
      byte_of 0x87654321 2; byte_of 0x87654321 3].

(** [lorawan_send_join_request]: always [LORAWAN_SUCCESS] when it returns. *)
Definition lorawan_send_join_request (answers : list bool) (e : engine)
  : option (lorawan_result_t * engine) :=
  let r1 := Radio.sx1262_send (join_request_frame (credentials e)) (radio e) in
  match Radio.wait_tx_done answers with
  | None => None
  | Some _ =>
      Some (LORAWAN_SUCCESS, with_radio (Radio.sx1262_receive_continuous r1) e)
  end.

(** [lorawan_generate_keys]: the nonces are not used by the source. *)
Definition lorawan_generate_keys (c : lorawan_credentials_t)
           (s : lorawan_session_t) : lorawan_session_t :=
  mk_session (dev_addr s)
             (map (fun i => u8 (Z.lxor (nth i (app_key c) 0) (Z.of_nat i + 0x01)))
                  (seq 0 16))
             (map (fun i => u8 (Z.lxor (nth i (app_key c) 0) (Z.of_nat i + 0x02)))
                  (seq 0 16))
             (fcnt_up s) (fcnt_down s) (joined s).

Definition lorawan_process_join_accept (rx_buffer : list Z) (e : engine)
  : lorawan_result_t * engine :=
  let rx_length := Z.of_nat (length rx_buffer) in
  if rx_length <? 17 then (LORAWAN_ERROR_JOIN, e)
  else
    let b := fun i => nth i rx_buffer 0 in
    let addr :=
      u32 (Z.lor (Z.lor (Z.shiftl (b 4%nat) 0) (Z.shiftl (b 5%nat) 8))
                 (Z.lor (Z.shiftl (b 6%nat) 16) (Z.shiftl (b 7%nat) 24))) in
    let s := session e in
    let s1 := mk_session addr (nwk_skey s) (app_skey s)
                         (fcnt_up s) (fcnt_down s) (joined s) in
    let s2 := lorawan_generate_keys (credentials e) s1 in
    let s3 := mk_session (dev_addr s2) (nwk_skey s2) (app_skey s2) 0 0
                         (joined s2) in
    (LORAWAN_SUCCESS, with_session s3 e).

(** The loop [while (lorawan_get_timestamp() < timeout) { ... }] of
    [lorawan_join], one poll per turn; [None] when the polls supplied end
    before the loop does. *)
Fixpoint join_wait (timeout : Z) (polls : list join_poll) (e : engine)
  : option (lorawan_result_t * engine) :=
  match polls with
  | [] => None
  | p :: rest =>
      if lorawan_get_timestamp (poll_counter p) <? timeout then
        if rx_done p then
          match lorawan_process_join_accept (rx_frame p) e with
          | (LORAWAN_SUCCESS, e1) =>
              Some (LORAWAN_SUCCESS,
                    with_state LORAWAN_STATE_JOINED
                               (with_session (set_joined true (session e1)) e1))
          | (_, e1) => join_wait timeout rest e1
          end
        else join_wait timeout rest e
      else Some (LORAWAN_ERROR_JOIN, with_state LORAWAN_STATE_IDLE e)
  end.

Definition lorawan_join (env : join_env) (e : engine)
  : option (lorawan_result_t * engine) :=
  if negb (state_eqb (lorawan_state e) LORAWAN_STATE_IDLE)
  then Some (LORAWAN_ERROR_BUSY, e)
  else
    match lorawan_send_join_request (request_tx_done env) e with
    | None => None
    | Some (LORAWAN_SUCCESS, e1) =>
        let e2 := with_state LORAWAN_STATE_JOINING e1 in
        let timeout := u32 (lorawan_get_timestamp (join_counter env) + 5000) in
        join_wait timeout (join_polls env) e2
    | Some (err, e1) => Some (err, e1)
    end.

(** *** lorawan_sleep, lorawan_wakeup, lorawan_reset *)

Definition lorawan_sleep (e : engine) : engine :=
  with_state LORAWAN_STATE_SLEEP (with_radio (Radio.sx1262_sleep (radio e)) e).

Definition lorawan_wakeup (e : engine) : engine :=
  let e1 := with_radio (Radio.sx1262_wakeup (radio e)) e in
  if joined (session e1) then with_state LORAWAN_STATE_JOINED e1
  else with_state LORAWAN_STATE_IDLE e1.

Definition lorawan_reset (e : engine) : engine :=
  with_state LORAWAN_STATE_IDLE
    (with_session (set_joined false zero_session)
       (with_radio (Radio.sx1262_reset (radio e)) e)).

Definition lorawan_is_ready (e : engine) : bool :=
  joined (session e) && state_eqb (lorawan_state e) LORAWAN_STATE_JOINED.

(** *** Calls on the engine, and runs of them *)

(** What the tasks do with the engine during a session. *)
Inductive call :=
| Send (env : send_env) (data : list Z) (length port : Z)
| Sleep
| Wakeup.

Definition do_call (c : call) (e : engine) : option engine :=
  match c with
  | Send env data length port =>
      match lorawan_send env data length port e with
      | Some (_, e') => Some e'
      | None => None
      end
  | Sleep => Some (lorawan_sleep e)
  | Wakeup => Some (lorawan_wakeup e)
  end.

(** The engine states passed through by a list of calls, the starting state
    first; the run stops at a call that does not return. *)
Fixpoint trace (cs : list call) (e : engine) : list engine :=
  match cs with
  | [] => [e]
  | c :: rest =>
      match do_call c e with
      | Some e' => e :: trace rest e'
      | None => [e]
      end
  end.

(** *** lorawan_process and the getters *)

(** What [lorawan_process] finds at the radio: whether a frame has been
    received, its length as [sx1262_receive] returns it, and the signal
    readings. *)
Record process_env := mk_process_env {
  downlink_done : bool;
  downlink_length : Z;      (* uint8_t *)
  downlink_rssi : Z;
  downlink_snr : Z
}.

Definition lorawan_process (env : process_env) (e : engine) : engine :=
  if downlink_done env then
    if 0 <? downlink_length env then
      mk_engine (lorawan_state e) (session e) (credentials e)
                (last_tx_timestamp e) (downlink_rssi env) (downlink_snr env)
                (radio e)
    else e
  else e.

Definition lorawan_get_rssi (e : engine) : Z := last_rssi e.
Definition lorawan_get_snr (e : engine) : Z := last_snr e.
Definition lorawan_is_joined (e : engine) : bool := joined (session e).

End LoRaWAN.

(** ** Floating point

    The [float] quantities of the analysis code are read as exact numbers:
    rationals ([Q]) where the code only compares, adds, subtracts, multiplies
    and divides, and reals ([R]) where it takes a square root.  Rounding,
    infinities and NaN are outside this reading, with one exception: where
    the telemetry payloads of the water firmware and of the LoRaWAN-only
    firmware turn a [float] into an integer field, the product or sum that is
    converted is rounded to its format as the code rounds it ([f32_round],
    [f64_round]), because statements about those fields depend on it.  A
    value held in a [float] variable is a number of that format: the
    examples for these fields take [f32_round] of a decimal. *)

Definition Qltb (x y : Q) : bool := negb (Qle_bool y x).

(** Conversion of a [float] to an integer type: the fraction is dropped. *)
Definition Qtrunc (q : Q) : Z := Z.quot (Qnum q) (Zpos (Qden q)).

(** [2 ^ e] for an integer [e] of either sign. *)
Definition Qpow2 (e : Z) : Q :=
  if 0 <=? e then inject_Z (2 ^ e) else 1 # Z.to_pos (2 ^ (- e)).

(** The binary exponent of a positive number: the [k] with
    [2 ^ k <= q < 2 ^ (k + 1)]. *)
Definition Qlog2 (q : Q) : Z :=
  let k := Z.log2 (Qnum q) - Z.log2 (Zpos (Qden q)) in
  if Qle_bool (Qpow2 k) q then k else k - 1.

(** The nearest integer, the even one of two that are equally near. *)
Definition Qround_even (q : Q) : Z :=
  let f := Qfloor q in
  match (q - inject_Z f ?= 1 # 2)%Q with
  | Lt => f
  | Gt => f + 1
  | Eq => if Z.even f then f else f + 1
  end.

(** The result of an arithmetic operation whose exact value is [x], in the
    binary format with [prec] significant bits and least exponent [emin]:
    [x] rounded to the nearest number of the format, ties to even.  Overflow
    to infinity is not represented. *)
Definition fp_round (prec emin : Z) (x : Q) : Q :=
  if Qeq_bool x 0 then 0%Q
  else
    let e := Z.max emin (Qlog2 (Qabs x) - (prec - 1)) in
    (inject_Z (Qround_even (x / Qpow2 e)) * Qpow2 e)%Q.

(** [float] and [double]. *)
Definition f32_round : Q -> Q := fp_round 24 (-149).
Definition f64_round : Q -> Q := fp_round 53 (-1074).

(** ** main_electrical.c *)

Module Electrical.

Import LoRaWAN.

Record electrical_data_t := mk_electrical_data {
  timestamp : Z;
  voltage_rms : Q;
  current_rms : Q;
  power_active : Q;
  power_reactive : Q;
  power_apparent : Q;
  power_factor : Q;
  frequency : Q;
  thd_voltage : Q;
  thd_current : Q;
  safety_status : Z;
  quality_grade : Z
}.

Definition SAFETY_OVERVOLTAGE : Z := Z.shiftl 1 0.
Definition SAFETY_UNDERVOLTAGE : Z := Z.shiftl 1 1.
Definition SAFETY_OVERCURRENT : Z := Z.shiftl 1 2.
Definition SAFETY_OVERPOWER : Z := Z.shiftl 1 3.
Definition SAFETY_LOW_PF : Z := Z.shiftl 1 4.
Definition SAFETY_HIGH_THD : Z := Z.shiftl 1 5.
Definition SAFETY_FREQ_DEVIATION : Z := Z.shiftl 1 6.
Definition SAFETY_PHASE_IMBALANCE : Z := Z.shiftl 1 7.

(** [grade += 1] under a condition. *)
Definition penalty (c : bool) : Z := if c then 1 else 0.

Definition calculate_power_quality_grade (data : electrical_data_t) : Z :=
  let grade := 0 in
  let grade := grade + penalty (Qltb 3 (thd_voltage data) || Qltb 3 (thd_current data)) in
  let grade := grade + penalty (Qltb 5 (thd_voltage data) || Qltb 5 (thd_current data)) in
  let grade := grade + penalty (Qltb (power_factor data) 0.95) in
  let grade := grade + penalty (Qltb (power_factor data) 0.85) in
  let grade := grade + penalty (Qltb (frequency data) 49.5 || Qltb 50.5 (frequency data)) in
  let grade := grade + penalty (Qltb (frequency data) 49 || Qltb 51 (frequency data)) in
  if 5 <? grade then 5 else grade.

(** The power computations of [vElectricalTask], from the active and the
    reactive power that [calculate_active_power] and
    [calculate_reactive_power] return. *)
Definition apparent_power (active reactive : R) : R :=
  sqrt (active * active + reactive * reactive).

Definition power_factor_of (active reactive : R) : R :=
  let apparent := apparent_power active reactive in
  if Rgt_dec apparent (1 / 10) then (active / apparent)%R else 1%R.

(** The queues and the engine the tasks of this firmware share. *)
Record system := mk_system {
  engine_of : engine;
  xElectricalDataQueue : list electrical_data_t;   (* capacity 10 *)
  xSafetyAlertQueue : list Z                        (* capacity 5 *)
}.

Record safety_env := mk_safety_env {
  tick_count : Z;              (* [xTaskGetTickCount] *)
  safety_send : send_env
}.

Definition critical_mask : Z :=
  Z.lor (Z.lor SAFETY_OVERVOLTAGE SAFETY_OVERCURRENT) SAFETY_OVERPOWER.

Definition emergency_payload (safety_alert tick : Z) : list Z :=
  let timestamp := u32 tick in
  [0xFF; 0x01; safety_alert; 0xAA;
   byte_of timestamp 3; byte_of timestamp 2;
   byte_of timestamp 1; byte_of timestamp 0].

(** One turn of the loop of [vSafetyTask].  The alert comes from the head of
    [xSafetyAlertQueue]; an empty queue is the time-out of [xQueueReceive].
    The second component is the result of [lorawan_send] when the emergency
    branch was taken. *)
Definition vSafetyTask_step (env : safety_env) (sys : system)
  : option (system * option lorawan_result_t) :=
  match xSafetyAlertQueue sys with
  | [] => Some (sys, None)
  | safety_alert :: rest =>
      let sys1 := mk_system (engine_of sys) (xElectricalDataQueue sys) rest in
      if negb (Z.land safety_alert critical_mask =? 0) then
        match lorawan_send (safety_send env)
                           (emergency_payload safety_alert (tick_count env))
                           8 99 (engine_of sys1) with
        | None => None
        | Some (r, e') =>
            Some (mk_system e' (xElectricalDataQueue sys1)
                            (xSafetyAlertQueue sys1), Some r)
        end
      else Some (sys1, None)
  end.

(** *** calculate_crc8 *)




(** *** The safety checks of vElectricalTask *)

Record electrical_config_t := mk_electrical_config {
  measurement_type : Z;
  voltage_range : Q;
  current_range : Q;
  sampling_frequency : Z;
  calibration_mode : Z;
  power_factor_limit : Q;
  thd_limit : Q;
  measurement_window : Z
}.

Definition electrical_config : electrical_config_t :=
  mk_electrical_config 2 250 100 2000 0 0.85 5 1000.

(** [flags |= flag] under a condition. *)
Definition raise (c : bool) (flag flags : Z) : Z :=
  if c then Z.lor flags flag else flags.

Definition safety_checks (cfg : electrical_config_t) (d : electrical_data_t) : Z :=
  let safety_flags := 0 in
  let safety_flags :=
    raise (Qltb (voltage_range cfg * 1.1) (voltage_rms d))
          SAFETY_OVERVOLTAGE safety_flags in
  let safety_flags :=
    raise (Qltb (voltage_rms d) (voltage_range cfg * 0.85))
          SAFETY_UNDERVOLTAGE safety_flags in
  let safety_flags :=
    raise (Qltb (current_range cfg * 0.9) (current_rms d))
          SAFETY_OVERCURRENT safety_flags in
  let safety_flags :=
    raise (Qltb (power_factor d) (power_factor_limit cfg))
          SAFETY_LOW_PF safety_flags in
  let safety_flags :=
    raise (Qltb (thd_limit cfg) (thd_voltage d)
           || Qltb (thd_limit cfg) (thd_current d))
          SAFETY_HIGH_THD safety_flags in
  let safety_flags :=
    raise (Qltb (frequency d) 48 || Qltb 52 (frequency d))
          SAFETY_FREQ_DEVIATION safety_flags in
  safety_flags.

(** [xQueueSend]: the item is appended unless the queue is full, in which
    case the call gives up and the item is dropped. *)
Definition queue_send {A : Type} (capacity : nat) (queue : list A) (item : A)
  : list A :=
  if (length queue <? capacity)%nat then queue ++ [item] else queue.

(** The end of a measurement cycle of [vElectricalTask], from the safety
    checks on: the measurement gets its flags and its grade, the flags go to
    the safety task when there are any, the measurement goes to the uplink
    task. *)
Definition vElectricalTask_publish (cfg : electrical_config_t)
           (d : electrical_data_t) (sys : system) : system :=
  let safety_flags := safety_checks cfg d in
  let d1 := mk_electrical_data (timestamp d) (voltage_rms d) (current_rms d)
              (power_active d) (power_reactive d) (power_apparent d)
              (power_factor d) (frequency d) (thd_voltage d) (thd_current d)
              safety_flags (quality_grade d) in
  let d2 := mk_electrical_data (timestamp d1) (voltage_rms d1) (current_rms d1)
              (power_active d1) (power_reactive d1) (power_apparent d1)
              (power_factor d1) (frequency d1) (thd_voltage d1) (thd_current d1)
              (safety_status d1) (calculate_power_quality_grade d1) in
  let alerts :=
    if negb (safety_flags =? 0)
    then queue_send 5 (xSafetyAlertQueue sys) safety_flags
    else xSafetyAlertQueue sys in
  mk_system (engine_of sys)
            (queue_send 10 (xElectricalDataQueue sys) d2)
            alerts.

(** *** ADC1_IRQHandler *)

Definition ADC_BUFFER_SIZE : Z := 4096.

Record adc_state := mk_adc_state {
  adc_buffer_voltage : list Z;   (* uint16_t[ADC_BUFFER_SIZE] *)
  adc_buffer_current : list Z;   (* uint16_t[ADC_BUFFER_SIZE] *)
  adc_buffer_index : Z;          (* uint16_t *)
  adc_buffer_ready : bool;
  adc_running : bool             (* the converter, as [ADC_Cmd] leaves it *)
}.

(** What the handler finds: the end-of-conversion flag and the two values it
    reads from the converter. *)
Record adc_irq := mk_adc_irq {
  eoc : bool;
  voltage_conversion : Z;
  current_conversion : Z
}.

(** [a[i] = v] *)
Fixpoint put (a : list Z) (i : nat) (v : Z) : list Z :=
  match a, i with
  | [], _ => []
  | _ :: rest, O => v :: rest
  | x :: rest, S j => x :: put rest j v
  end.

Definition ADC1_IRQHandler (irq : adc_irq) (s : adc_state) : adc_state :=
  if eoc irq then
    let voltage := put (adc_buffer_voltage s) (Z.to_nat (adc_buffer_index s))
                       (voltage_conversion irq) in
    let current := put (adc_buffer_current s) (Z.to_nat (adc_buffer_index s))
                       (current_conversion irq) in
    let index := u16 (adc_buffer_index s + 1) in
    if ADC_BUFFER_SIZE <=? index
    then mk_adc_state voltage current 0 true false
    else mk_adc_state voltage current index
                      (adc_buffer_ready s) (adc_running s)
  else s.

(** The handler run on a series of interrupts. *)
Definition adc_run (irqs : list adc_irq) (s : adc_state) : adc_state :=
  fold_left (fun s irq => ADC1_IRQHandler irq s) irqs s.

End Electrical.

(** ** main_water.c *)

Module Water.

Import LoRaWAN.

Record water_config_t := mk_water_config {
  sensor_type : Z;
  pressure_range : Q;
  flow_range : Q;
  ph_min : Q;
  ph_max : Q;
  measurement_interval : Z;
  leak_check_interval : Z;
  leak_threshold : Q;
  water_quality_mode : Z
}.

Definition water_config : water_config_t :=
  mk_water_config 3 10 100 6.5 8.5 60000 10000 0.5 1.

Definition WATER_ALERT_LEAK_DETECTED : Z := Z.shiftl 1 6.

(** The variables of the leak-detection task, with the queue it feeds and
    the engine it calls. *)
Record leak_state := mk_leak_state {
  pressure_history : list Q;   (* float[10] *)
  pressure_index : Z;          (* uint8_t *)
  leak_alert : Z;              (* uint8_t, local to the task *)
  config : water_config_t;
  xLeakAlertQueue : list Z;    (* capacity 3 *)
  engine_of : engine
}.


Record leak_env := mk_leak_env {
  mutex_taken : bool;          (* [xSemaphoreTake] returned [pdTRUE] *)
  current_pressure : Q;        (* [water_read_pressure] *)
  leak_tick : Z;               (* [xTaskGetTickCount] *)
  leak_send : send_env
}.

(** [a[i] = v] *)
Fixpoint store (a : list Q) (i : nat) (v : Q) : list Q :=
  match a, i with
  | [], _ => []
  | _ :: rest, O => v :: rest
  | x :: rest, S j => x :: store rest j v
  end.

Definition read (a : list Q) (i : Z) : Q := nth (Z.to_nat i) a 0%Q.

(** The trend computed from the history once the new reading is stored and
    the index advanced. *)
Definition pressure_trend_of (history : list Q) (index : Z) : Q :=
  if 3 <=? index then
    let idx1 := u8 ((index - 1 + 10) mod 10) in
    let idx3 := u8 ((index - 3 + 10) mod 10) in
    ((read history idx1 - read history idx3) / 2)%Q
  else 0%Q.

Definition leak_emergency_payload (pressure trend : Q) (tick : Z) : list Z :=
  let timestamp := u32 tick in
  let trend_encoded := i8 (Qtrunc (trend * 10)) in
  [0xFF; 0x02; WATER_ALERT_LEAK_DETECTED;
   u8 (Qtrunc (pressure * 10));
   u8 trend_encoded;
   0x01;
   byte_of timestamp 3; byte_of timestamp 2;
   byte_of timestamp 1; byte_of timestamp 0].

(** [xQueueSend(queue, item, 0)]: the item is dropped when the queue is full. *)
Definition xQueueSend (capacity : nat) (queue : list Z) (item : Z) : list Z :=
  if (length queue <? capacity)%nat then queue ++ [item] else queue.

(** What one turn of the task did: the trend it computed and, when it took
    the emergency branch, the result of [lorawan_send]. *)
Record leak_report := mk_leak_report {
  trend : Q;
  emergency : option lorawan_result_t
}.

(** [water_config.leak_check_interval = 5000;
    water_config.measurement_interval = 30000;] *)
Definition increase_monitoring (cfg : water_config_t) : water_config_t :=
  mk_water_config (sensor_type cfg) (pressure_range cfg) (flow_range cfg)
                  (ph_min cfg) (ph_max cfg)
                  30000 5000
                  (leak_threshold cfg) (water_quality_mode cfg).

(** One turn of the loop of [vLeakDetectionTask]. *)
Definition vLeakDetectionTask_step (env : leak_env) (s : leak_state)
  : option (leak_state * leak_report) :=
  if negb (mutex_taken env) then Some (s, mk_leak_report 0 None)
  else
    let history := store (pressure_history s) (Z.to_nat (pressure_index s))
                         (current_pressure env) in
    let index := u8 ((pressure_index s + 1) mod 10) in
    let pressure_trend := pressure_trend_of history index in
    if Qltb pressure_trend (- leak_threshold (config s)) then
      let alert := Z.lor (leak_alert s) WATER_ALERT_LEAK_DETECTED in
      match lorawan_send (leak_send env)
                         (leak_emergency_payload (current_pressure env)
                                                 pressure_trend (leak_tick env))
                         10 98 (engine_of s) with
      | None => None
      | Some (r, e') =>
          Some (mk_leak_state history index 0
                              (increase_monitoring (config s))
                              (xQueueSend 3 (xLeakAlertQueue s) alert) e',
                mk_leak_report pressure_trend (Some r))
      end
    else
      let queue := if negb (leak_alert s =? 0)
                   then xQueueSend 3 (xLeakAlertQueue s) (leak_alert s)
                   else xLeakAlertQueue s in
      Some (mk_leak_state history index 0 (config s) queue (engine_of s),
            mk_leak_report pressure_trend None).

(** Successive turns of the task, one per environment; the reports come in
    the order of the turns. *)
Fixpoint leak_run (envs : list leak_env) (s : leak_state)
  : option (leak_state * list leak_report) :=
  match envs with
  | [] => Some (s, [])
  | env :: rest =>
      match vLeakDetectionTask_step env s with
      | None => None
      | Some (s1, r) =>
          match leak_run rest s1 with
          | None => None
          | Some (s2, rs) => Some (s2, r :: rs)
          end
      end
  end.

(** *** calculate_water_quality_grade, vWaterTask and the water uplink *)

Definition WATER_ALERT_LOW_PRESSURE : Z := Z.shiftl 1 0.
Definition WATER_ALERT_HIGH_PRESSURE : Z := Z.shiftl 1 1.
Definition WATER_ALERT_NO_FLOW : Z := Z.shiftl 1 2.
Definition WATER_ALERT_HIGH_FLOW : Z := Z.shiftl 1 3.
Definition WATER_ALERT_LOW_PH : Z := Z.shiftl 1 4.
Definition WATER_ALERT_HIGH_PH : Z := Z.shiftl 1 5.
Definition WATER_ALERT_SENSOR_FAULT : Z := Z.shiftl 1 7.

Record water_data_t := mk_water_data {
  timestamp : Z;             (* uint32_t *)
  pressure : Q;
  flow_rate : Q;
  ph_value : Q;
  temperature : Q;
  turbidity : Q;
  leak_detected : Z;         (* uint8_t *)
  water_quality_grade : Z;   (* uint8_t *)
  total_flow : Q;
  sensor_status : Z          (* uint8_t *)
}.

Definition calculate_water_quality_grade (data : water_data_t) : Z :=
  let grade := 0 in
  let grade :=
    grade + Electrical.penalty (Qltb (ph_value data) 6.8 || Qltb 8.2 (ph_value data)) in
  let grade :=
    grade + Electrical.penalty (Qltb (ph_value data) 6.5 || Qltb 8.5 (ph_value data)) in
  let grade := grade + Electrical.penalty (Qltb 1 (turbidity data)) in
  let grade := grade + Electrical.penalty (Qltb 4 (turbidity data)) in
  let grade := grade + Electrical.penalty (Qltb 10 (turbidity data)) in
  let grade :=
    grade + Electrical.penalty (Qltb (temperature data) 5 || Qltb 30 (temperature data)) in
  if 5 <? grade then 5 else grade.

(** The variables of [vWaterTask]: the flow accumulator, the queue to the
    uplink task, and what it shares with the leak-detection task (the
    configuration and the alert queue). *)
Record water_state := mk_water_state {
  cumulative_flow : Q;
  last_flow_timestamp : Z;              (* uint32_t *)
  xWaterDataQueue : list water_data_t;  (* capacity 8 *)
  shared : leak_state
}.

Record water_env := mk_water_env {
  water_mutex_taken : bool;   (* [xSemaphoreTake] returned [pdTRUE] *)
  pressure_reading : Q;       (* [water_read_pressure] *)
  flow_reading : Q;           (* [water_read_flow] *)
  ph_reading : Q;             (* [water_read_ph] *)
  temperature_reading : Q;    (* [water_read_temperature] *)
  turbidity_reading : Q;      (* [water_read_turbidity] *)
  tick_at_reading : Z;        (* [xTaskGetTickCount], for the timestamp *)
  tick_at_flow : Z;           (* [xTaskGetTickCount], for the accumulator *)
  sensor_health : Z           (* [water_check_sensor_health], uint8_t *)
}.

(** The alert checks of [vWaterTask] on the readings, before the sensor
    health and the leak queue are looked at. *)
Definition water_checks (cfg : water_config_t) (d : water_data_t) : Z :=
  let sensor_alerts := 0 in
  let sensor_alerts :=
    Electrical.raise (Qltb (pressure d) 1)
                     WATER_ALERT_LOW_PRESSURE sensor_alerts in
  let sensor_alerts :=
    Electrical.raise (Qltb (pressure_range cfg * 0.9) (pressure d))
                     WATER_ALERT_HIGH_PRESSURE sensor_alerts in
  let sensor_alerts :=
    Electrical.raise (Qltb (flow_rate d) 0.1 && Qltb 2 (pressure d))
                     WATER_ALERT_NO_FLOW sensor_alerts in
  let sensor_alerts :=
    Electrical.raise (Qltb (flow_range cfg * 0.8) (flow_rate d))
                     WATER_ALERT_HIGH_FLOW sensor_alerts in
  let sensor_alerts :=
    Electrical.raise (Qltb (ph_value d) (ph_min cfg))
                     WATER_ALERT_LOW_PH sensor_alerts in
  let sensor_alerts :=
    Electrical.raise (Qltb (ph_max cfg) (ph_value d))
                     WATER_ALERT_HIGH_PH sensor_alerts in
  sensor_alerts.

(** The adaptive sampling at the end of a turn of [vWaterTask]. *)
Definition adaptive_interval (sensor_alerts : Z) (flow : Q) : Z :=
  if negb (sensor_alerts =? 0) then 30000
  else if Qltb flow 0.1 then 300000
  else 60000.

Definition with_measurement_interval (ms : Z) (cfg : water_config_t)
  : water_config_t :=
  mk_water_config (sensor_type cfg) (pressure_range cfg) (flow_range cfg)
                  (ph_min cfg) (ph_max cfg)
                  ms (leak_check_interval cfg)
                  (leak_threshold cfg) (water_quality_mode cfg).

(** One turn of the loop of [vWaterTask].  The result carries the alerts
    of the turn, which the task keeps to itself. *)
Definition vWaterTask_step (env : water_env) (s : water_state)
  : water_state * Z :=
  if negb (water_mutex_taken env) then (s, 0)
  else
    let cfg := config (shared s) in
    let turbidity :=
      if negb (water_quality_mode cfg =? 0) then turbidity_reading env
      else 0%Q in
    let timestamp := u32 (tick_at_reading env / 1000) in
    let current_time := u32 (tick_at_flow env) in
    let time_diff :=
      (inject_Z (u32 (current_time - last_flow_timestamp s)) / 1000)%Q in
    let cumulative :=
      (cumulative_flow s + flow_reading env * (time_diff / 60))%Q in
    let d := mk_water_data timestamp (pressure_reading env) (flow_reading env)
                           (ph_reading env) (temperature_reading env)
                           turbidity 0 0 cumulative 0 in
    let sensor_alerts := water_checks cfg d in
    let grade := calculate_water_quality_grade d in
    let sensor_alerts :=
      Electrical.raise (negb (sensor_health env =? 0))
                       WATER_ALERT_SENSOR_FAULT sensor_alerts in
    let '(sensor_alerts, leak, queue) :=
      match xLeakAlertQueue (shared s) with
      | leak_alert :: rest => (u8 (Z.lor sensor_alerts leak_alert), 1, rest)
      | [] => (sensor_alerts, 0, [])
      end in
    let d := mk_water_data timestamp (pressure_reading env) (flow_reading env)
                           (ph_reading env) (temperature_reading env)
                           turbidity leak grade cumulative
                           (sensor_health env) in
    let cfg :=
      with_measurement_interval
        (adaptive_interval sensor_alerts (flow_reading env)) cfg in
    (mk_water_state cumulative current_time
                    (Electrical.queue_send 8 (xWaterDataQueue s) d)
                    (mk_leak_state (pressure_history (shared s))
                                   (pressure_index (shared s))
                                   (leak_alert (shared s))
                                   cfg queue (engine_of (shared s))),
     sensor_alerts).

(** The 18-byte payload that [vLoRaWANTask] builds from a measurement and
    the battery level read by [power_get_battery_level].  The products and
    the sum are computed in [float], the pH field in [double] because of the
    constant [5.0], and each is rounded before its fraction is dropped. *)
Definition water_payload (d : water_data_t) (battery : Z) : list Z :=
  let pressure_encoded := u16 (Qtrunc (f32_round (pressure d * 100))) in
  let flow_encoded := u16 (Qtrunc (f32_round (flow_rate d * 10))) in
  let ph_encoded :=
    u8 (Qtrunc (f64_round (f64_round (ph_value d - 5) * 10))) in
  let temp_encoded := u8 (Qtrunc (f32_round (temperature d + 20))) in
  let turbidity_encoded := u8 (Qtrunc (f32_round (turbidity d * 2))) in
  let total_flow_encoded := u32 (Qtrunc (total_flow d)) in
  [0x02; 0x01; 0x20; leak_detected d;
   byte_of pressure_encoded 1; byte_of pressure_encoded 0;
   byte_of flow_encoded 1; byte_of flow_encoded 0;
   ph_encoded; temp_encoded; turbidity_encoded;
   water_quality_grade d;
   byte_of total_flow_encoded 3; byte_of total_flow_encoded 2;
   byte_of total_flow_encoded 1; byte_of total_flow_encoded 0;
   battery; sensor_status d].

End Water.

(** ** main_lorawan_only.c *)

(** Conversion to [int16_t]: the low sixteen bits read as two's complement. *)
Definition i16 (x : Z) : Z :=
  let w := u16 x in if w <? 32768 then w else w - 65536.

Module LoRaOnly.

Import LoRaWAN.

Record lorawan_only_config_t := mk_config {
  sector_id : Z;        (* uint8_t *)
  node_id : Z;          (* uint8_t *)
  sampling_rate : Z;    (* uint32_t, ms *)
  lora_sf : Z;          (* uint8_t *)
  tx_power : Z;         (* uint8_t *)
  low_power_mode : Z    (* uint8_t *)
}.

Definition device_config : lorawan_only_config_t :=
  mk_config 2 0x01 300000 10 14 1.

Record sensor_packet_t := mk_sensor_packet {
  timestamp : Z;        (* uint32_t *)
  sensor_type : Z;      (* uint8_t *)
  value : Q;
  battery_level : Z;    (* uint8_t *)
  rssi : Z;             (* int8_t *)
  sequence : Z          (* uint16_t *)
}.

Definition with_sampling_rate (ms : Z) (cfg : lorawan_only_config_t)
  : lorawan_only_config_t :=
  mk_config (sector_id cfg) (node_id cfg) ms (lora_sf cfg) (tx_power cfg)
            (low_power_mode cfg).

(** *** vPowerTask *)

(** One turn of [vPowerTask] on the battery level it reads. *)
Definition vPowerTask_step (battery_level : Z) (cfg : lorawan_only_config_t)
  : lorawan_only_config_t :=
  if battery_level <? 20 then
    mk_config (sector_id cfg) (node_id cfg) 3600000 12 10 (low_power_mode cfg)
  else if battery_level <? 50 then
    mk_config (sector_id cfg) (node_id cfg) 1800000 11 12 (low_power_mode cfg)
  else
    mk_config (sector_id cfg) (node_id cfg) 300000 10 14 (low_power_mode cfg).

(** *** vLoRaWANTask *)

Definition is_success (r : lorawan_result_t) : bool :=
  match r with LORAWAN_SUCCESS => true | _ => false end.

(** [while (lorawan_init() != LORAWAN_SUCCESS && init_retries < 5)
       { vTaskDelay(...); init_retries++; }]
    against the successive answers of the radio initialisation.  The result
    is what the last call of [lorawan_init] returned, the number of retries
    counted, and the engine; [None] when the answers supplied run out while
    the loop is still going. *)
Fixpoint init_loop (answers : list bool) (init_retries : Z) (e : engine)
  : option (lorawan_result_t * Z * engine) :=
  match answers with
  | [] => None
  | sx1262_init_ok :: rest =>
      let '(r, e1) := lorawan_init sx1262_init_ok e in
      if negb (is_success r) && (init_retries <? 5)
      then init_loop rest (u8 (init_retries + 1)) e1
      else Some (r, init_retries, e1)
  end.

(** The variables of the task once its loop runs. *)
Record task_state := mk_task_state {
  config : lorawan_only_config_t;   (* [device_config] *)
  packet_sequence : Z;              (* uint16_t *)
  engine_of : engine
}.

Inductive startup_outcome :=
| SafeMode (last_init : lorawan_result_t) (e : engine)
    (* the endless error-LED loop *)
| Running (join_result : lorawan_result_t) (s : task_state).

(** [vLoRaWANTask] up to its main loop. *)
Definition vLoRaWANTask_startup (answers : list bool) (env : join_env)
           (cfg : lorawan_only_config_t) (e : engine)
  : option startup_outcome :=
  let packet_sequence := 0 in
  match init_loop answers 0 e with
  | None => None
  | Some (r, init_retries, e1) =>
      if 5 <=? init_retries then Some (SafeMode r e1)
      else
        match lorawan_join env e1 with
        | None => None
        | Some (j, e2) =>
            let cfg1 :=
              if negb (is_success j)
              then mk_config (sector_id cfg) (node_id cfg) 900000 12
                             (tx_power cfg) (low_power_mode cfg)
              else cfg in
            Some (Running j (mk_task_state cfg1 packet_sequence e2))
        end
  end.

(** The 11-byte payload of a reading.  The product [value * 100] is a
    [float] product, rounded before its fraction is dropped. *)
Definition build_payload (cfg : lorawan_only_config_t)
           (sensor_data : sensor_packet_t) (packet_sequence : Z) : list Z :=
  let value_fixed := i16 (Qtrunc (f32_round (value sensor_data * 100))) in
  [sector_id cfg; node_id cfg; sensor_type sensor_data;
   battery_level sensor_data;
   Z.land (Z.shiftr value_fixed 8) 0xFF; Z.land value_fixed 0xFF;
   byte_of (timestamp sensor_data) 3; byte_of (timestamp sensor_data) 2;
   byte_of (timestamp sensor_data) 1; byte_of (timestamp sensor_data) 0;
   Z.land packet_sequence 0xFF].

(** [while (retry_count < 3) { if (lorawan_send(payload, 11, 1) ==
    LORAWAN_SUCCESS) { ...; packet_sequence++; break; } else
    { retry_count++; vTaskDelay(...); } }],
    with one environment per attempt.  The result is the retry count, the
    sequence number and the engine when the loop is left; [None] when a send
    never returns or the environments supplied run out. *)
Fixpoint retry_loop (envs : list send_env) (payload : list Z)
         (retry_count packet_sequence : Z) (e : engine)
  : option (Z * Z * engine) :=
  if retry_count <? 3 then
    match envs with
    | [] => None
    | env :: rest =>
        match lorawan_send env payload 11 1 e with
        | None => None
        | Some (LORAWAN_SUCCESS, e1) =>
            Some (retry_count, u16 (packet_sequence + 1), e1)
        | Some (_, e1) =>
            retry_loop rest payload (u8 (retry_count + 1)) packet_sequence e1
        end
    end
  else Some (retry_count, packet_sequence, e).

(** One turn of the main loop of [vLoRaWANTask] on the reading taken from
    the queue: payload, sends with retries, then the sleep between
    transmissions. *)
Definition vLoRaWANTask_turn (sensor_data : sensor_packet_t)
           (envs : list send_env) (s : task_state) : option task_state :=
  let payload := build_payload (config s) sensor_data (packet_sequence s) in
  match retry_loop envs payload 0 (packet_sequence s) (engine_of s) with
  | None => None
  | Some (retry_count, packet_sequence', e1) =>
      let cfg1 :=
        if 3 <=? retry_count then with_sampling_rate 1800000 (config s)
        else config s in
      let e2 :=
        if negb (low_power_mode cfg1 =? 0)
        then lorawan_wakeup (lorawan_sleep e1)
        else e1 in
      Some (mk_task_state cfg1 packet_sequence' e2)
  end.

(** Successive turns of the main loop. *)
Fixpoint task_run (turns : list (sensor_packet_t * list send_env))
         (s : task_state) : option task_state :=
  match turns with
  | [] => Some s
  | (sensor_data, envs) :: rest =>
      match vLoRaWANTask_turn sensor_data envs s with
      | None => None
      | Some s1 => task_run rest s1
      end
  end.

End LoRaOnly.

(** ** Vocabulary of the statements *)

Import LoRaWAN.

(** The duty-cycle floor of [lorawan_send], in milliseconds. *)
Definition MIN_TX_GAP : Z := 99000.

(** The engine accepts sends: the session is joined and the protocol state
    is [LORAWAN_STATE_JOINED]. *)
Definition ready (e : engine) : Prop :=
  joined (session e) = true /\ lorawan_state e = LORAWAN_STATE_JOINED.

(** Milliseconds from the timestamp [t1] to the timestamp [t2] on the 32-bit
    clock of the engine. *)
Definition elapsed_ms (t1 t2 : Z) : Z := u32 (t2 - t1).

(** Time since the last successful transmission, as a send under [env] sees
    it. *)
Definition since_last_tx (env : send_env) (e : engine) : Z :=
  elapsed_ms (last_tx_timestamp e) (lorawan_get_timestamp (send_counter env)).

(** The radio reports the end of the transmission after finitely many
    polls. *)
Definition completes (env : send_env) : Prop :=
  Radio.wait_tx_done (tx_done_answers env) <> None.

(** The frames handed to the radio so far. *)
Definition transmitted (e : engine) : list (list Z) := Radio.sent (radio e).

(** The places that call [lorawan_send]: the uplink task with a telemetry
    payload, the safety task of the energy firmware and the leak-detection
    task of the water firmware with their emergency payloads. *)
Inductive uplink :=
| Telemetry (data : list Z) (length port : Z)
| EnergyEmergency (safety_alert tick : Z)
| LeakEmergency (pressure trend : Q) (tick : Z).

Definition uplink_send (env : send_env) (u : uplink) (e : engine)
  : option (lorawan_result_t * engine) :=
  match u with
  | Telemetry data length port => lorawan_send env data length port e
  | EnergyEmergency safety_alert tick =>
      lorawan_send env (Electrical.emergency_payload safety_alert tick) 8 99 e
  | LeakEmergency pressure trend tick =>
      lorawan_send env (Water.leak_emergency_payload pressure trend tick) 10 98 e
  end.

(** A run of uplinks, with the result of each. *)
Fixpoint uplink_run (us : list (send_env * uplink)) (e : engine)
  : option (list lorawan_result_t * engine) :=
  match us with
  | [] => Some ([], e)
  | (env, u) :: rest =>
      match uplink_send env u e with
      | None => None
      | Some (r, e1) =>
          match uplink_run rest e1 with
          | None => None
          | Some (rs, e2) => Some (r :: rs, e2)
          end
      end
  end.

Definition is_success (r : lorawan_result_t) : bool :=
  match r with LORAWAN_SUCCESS => true | _ => false end.

Fixpoint successes (rs : list lorawan_result_t) : Z :=
  match rs with
  | [] => 0
  | r :: rest => (if is_success r then 1 else 0) + successes rest
  end.

(** A relation that holds between each element of a list and the next. *)
Fixpoint stepwise {A : Type} (R : A -> A -> Prop) (l : list A) : Prop :=
  match l with
  | [] => True
  | a :: rest =>
      match rest with
      | [] => True
      | b :: _ => R a b /\ stepwise R rest
      end
  end.

Definition fcnt (e : engine) : Z := fcnt_up (session e).

(** The frame counter never goes down along a list of engine states. *)
Definition fcnt_nondecreasing (es : list engine) : Prop :=
  stepwise (fun a b => fcnt a <= fcnt b) es.

(** The same, but for the turn of the 16-bit counter from 65535 to 0. *)
Definition fcnt_nondecreasing_but_wrap (es : list engine) : Prop :=
  stepwise (fun a b => fcnt a <= fcnt b \/ (fcnt a = 65535 /\ fcnt b = 0)) es.

(** The engine after a send that went through. *)
Definition after_send (env : send_env) (data : list Z) (length port : Z)
           (e : engine) : engine :=
  mk_engine LORAWAN_STATE_JOINED
            (bump_fcnt_up (session e))
            (credentials e)
            (lorawan_get_timestamp (send_counter env))
            (rssi_reading env) (snr_reading env)
            (Radio.sx1262_send (build_frame (session e) data length port)
                               (radio e)).

(** ** Concrete engines and environments

    An engine brought up the way [vLoRaWANTask] does it: [lorawan_init], then
    [lorawan_join] answered by a 17-byte join-accept on the second poll. *)

Definition example_accept : list Z :=
  [0x20; 1; 2; 3; 0x34; 0x12; 0x01; 0x26; 9; 9; 9; 0; 0; 0; 0; 0; 0].

Definition example_join_env : join_env :=
  mk_join_env [false; true] 1000000
              [mk_join_poll 1000000 false [];
               mk_join_poll 1010000 true example_accept].

Definition example_joined : engine :=
  match lorawan_join example_join_env (snd (lorawan_init true power_on)) with
  | Some (_, e) => e
  | None => power_on
  end.

(** A send environment whose clock reads [ms] milliseconds and whose radio
    reports completion on the second poll. *)
Definition env_at (ms : Z) : send_env :=
  mk_send_env (ms * 1000) [false; true] (-80) 7.

(** The engine of [example_joined] after a first telemetry uplink at
    200 s. *)
Definition example_sent_once : engine :=
  after_send (env_at 200000) [1; 2; 3] 3 10 example_joined.

(** An engine in mid-session whose frame counter has reached the top of its
    16 bits. *)
Definition example_counter_full : engine :=
  with_session (mk_session (dev_addr (session example_joined))
                           (nwk_skey (session example_joined))
                           (app_skey (session example_joined))
                           65535 0 true)
               example_joined.

(** The trend a turn of the leak-detection task computes: the reading of
    [env] is stored, the index advanced, and the trend taken from there. *)
Definition leak_trend_after (env : Water.leak_env) (s : Water.leak_state) : Q :=
  Water.pressure_trend_of
    (Water.store (Water.pressure_history s)
                 (Z.to_nat (Water.pressure_index s))
                 (Water.current_pressure env))
    (u8 ((Water.pressure_index s + 1) mod 10)).

(** The energy firmware with an over-voltage alert waiting for the safety
    task, on the engine [e]; and the environment of a turn of that task at
    clock reading [ms]. *)
Definition overvoltage_pending (e : engine) : Electrical.system :=
  Electrical.mk_system e [] [Electrical.SAFETY_OVERVOLTAGE].

Definition safety_env_at (ms : Z) : Electrical.safety_env :=
  Electrical.mk_safety_env ms (env_at ms).

(** The grade in the words of the specification: one level down from the
    best grade for each threshold band crossed, by the distortion (either
    channel above 3 %, above 5 %), by the power factor (below 0.95, below
    0.85) and by the deviation of the frequency from the nominal 50 Hz (more
    than 0.5 Hz, more than 1 Hz), no further than the worst grade. *)
Definition NOMINAL_FREQUENCY : Q := 50.
Definition WORST_GRADE : Z := 5.

Definition frequency_deviation (d : Electrical.electrical_data_t) : Q :=
  Qabs (Electrical.frequency d - NOMINAL_FREQUENCY).

Definition above (x : Q) (thresholds : list Q) : Z :=
  Z.of_nat (length (filter (fun t => Qltb t x) thresholds)).

Definition below (x : Q) (thresholds : list Q) : Z :=
  Z.of_nat (length (filter (fun t => Qltb x t) thresholds)).

Definition bands_crossed (d : Electrical.electrical_data_t) : Z :=
  Z.max (above (Electrical.thd_voltage d) [3; 5]%Q)
        (above (Electrical.thd_current d) [3; 5]%Q)
  + below (Electrical.power_factor d) [0.95; 0.85]%Q
  + above (frequency_deviation d) [0.5; 1]%Q.

Definition grade_by_bands (d : Electrical.electrical_data_t) : Z :=
  Z.min WORST_GRADE (bands_crossed d).

(** Two measurements, the second worse than the first on every count. *)
Definition example_clean : Electrical.electrical_data_t :=
  Electrical.mk_electrical_data 0 230 10 2200 100 2202 0.97 50.1 2 2 0 0.

Definition example_dirty : Electrical.electrical_data_t :=
  Electrical.mk_electrical_data 0 230 10 2000 900 2193 0.9 49.2 4 6 0 0.

(** A turn of the leak-detection task that holds the mutex and reads the
    pressure [p]. *)
Definition leak_env_reading (p : Q) (tick : Z) (env : send_env) : Water.leak_env :=
  Water.mk_leak_env true p tick env.

(** The leak-detection task with a full history of 10 bar and the index on
    the last cell: the next reading is stored there and the index wraps
    around to 0. *)
Definition example_before_wrap : Water.leak_state :=
  Water.mk_leak_state (repeat 10%Q 10) 9 0 Water.water_config [] example_joined.

(** ** Reading frames back

    The fields of an uplink frame as a receiver reads them, by position. *)

Definition is_byte (b : Z) : Prop := 0 <= b < 256.
Definition bytes (l : list Z) : Prop := Forall is_byte l.

Definition le16 (b0 b1 : Z) : Z := b0 + 256 * b1.
Definition le32 (b0 b1 b2 b3 : Z) : Z :=
  b0 + 256 * b1 + 65536 * b2 + 16777216 * b3.
Definition be16 (hi lo : Z) : Z := 256 * hi + lo.
Definition be32 (b3 b2 b1 b0 : Z) : Z :=
  16777216 * b3 + 65536 * b2 + 256 * b1 + b0.

Definition frame_dev_addr (frame : list Z) : Z :=
  le32 (nth 1 frame 0) (nth 2 frame 0) (nth 3 frame 0) (nth 4 frame 0).
Definition frame_fcnt (frame : list Z) : Z :=
  le16 (nth 6 frame 0) (nth 7 frame 0).
Definition frame_port (frame : list Z) : Z := nth 8 frame 0.
Definition frame_payload (frame : list Z) : list Z :=
  firstn (length frame - 13) (skipn 9 frame).
Definition frame_mic (frame : list Z) : list Z :=
  skipn (length frame - 4) frame.

(** The clock readings of the sends of a run that went through. *)
Fixpoint success_times (us : list (send_env * uplink))
         (rs : list lorawan_result_t) : list Z :=
  match us, rs with
  | (env, _) :: us', r :: rs' =>
      if is_success r
      then lorawan_get_timestamp (send_counter env) :: success_times us' rs'
      else success_times us' rs'
  | _, _ => []
  end.

(** A turn of the wait loop of [lorawan_join] that brings no usable
    join-accept: nothing received, or fewer than 17 bytes. *)
Definition no_accept (p : join_poll) : Prop :=
  rx_done p = false \/ (length (rx_frame p) < 17)%nat.

(** The turn is taken inside the join window that closes at [timeout]. *)
Definition in_window (timeout : Z) (p : join_poll) : Prop :=
  lorawan_get_timestamp (poll_counter p) < timeout.

Definition join_timeout (env : join_env) : Z :=
  u32 (lorawan_get_timestamp (join_counter env) + 5000).

(** A second join-accept, with another address and other nonces. *)
Definition example_accept' : list Z :=
  [0x20; 7; 7; 7; 0x78; 0x56; 0x34; 0x12; 5; 5; 5; 1; 2; 3; 4; 5; 6].

(** A join whose window closes with nothing received. *)
Definition example_join_timeout : join_env :=
  mk_join_env [true] 1000000
              [mk_join_poll 1000000 false [];
               mk_join_poll 3000000 true [1; 2; 3];
               mk_join_poll 6000000 false []].

(** The engine of [example_sent_once] reset and joined again, on another
    join-accept. *)
Definition example_rejoined : engine :=
  match lorawan_join (mk_join_env [true] 7000000
                                  [mk_join_poll 7001000 true example_accept'])
                     (lorawan_reset example_sent_once) with
  | Some (_, e) => e
  | None => power_on
  end.


(** A measurement at 280 V on the 250 V range, with a power factor of 0.8. *)
Definition example_surge : Electrical.electrical_data_t :=
  Electrical.mk_electrical_data 0 280 10 2240 1680 2800 0.8 50 2 2 0 0.

(** The acquisition buffers as the start-up code leaves them: zeroed, index
    0, not ready, converter running. *)
Definition example_adc_idle : Electrical.adc_state :=
  Electrical.mk_adc_state (repeat 0 (Z.to_nat Electrical.ADC_BUFFER_SIZE))
                          (repeat 0 (Z.to_nat Electrical.ADC_BUFFER_SIZE))
                          0 false true.

(** ** The LoRaWAN-only firmware *)

(** Failed radio initialisations before the first one that succeeds. *)
Fixpoint leading_failures (answers : list bool) : nat :=
  match answers with
  | false :: rest => S (leading_failures rest)
  | _ => O
  end.

(** What [lorawan_init] returns on an answer of the radio. *)
Definition init_result (sx1262_init_ok : bool) : lorawan_result_t :=
  fst (lorawan_init sx1262_init_ok power_on).

(** The task after a start-up that joined, and after one whose join timed
    out. *)
Definition example_task : LoRaOnly.task_state :=
  LoRaOnly.mk_task_state LoRaOnly.device_config 0 example_joined.

Definition example_task_unjoined : LoRaOnly.task_state :=
  match LoRaOnly.vLoRaWANTask_startup [false; true] example_join_timeout
                                      LoRaOnly.device_config power_on with
  | Some (LoRaOnly.Running _ s) => s
  | _ => example_task
  end.

(** A pressure reading below zero, as a sensor with an offset error gives
    it. *)
Definition example_reading : LoRaOnly.sensor_packet_t :=
  LoRaOnly.mk_sensor_packet 200 0x03 (-1.5) 87 (-80) 0.

(** The value field of a payload of the LoRaWAN-only firmware as a receiver
    reads it: bytes 4 and 5, big-endian, two's complement. *)
Definition payload_value_fixed (payload : list Z) : Z :=
  i16 (be16 (nth 4 payload 0) (nth 5 payload 0)).

(** ** The water firmware *)

(** The water task's state once the leak-detection task, which shares the
    configuration and the alert queue with it, has brought these to [l]. *)
Definition with_shared (l : Water.leak_state) (s : Water.water_state)
  : Water.water_state :=
  Water.mk_water_state (Water.cumulative_flow s) (Water.last_flow_timestamp s)
                       (Water.xWaterDataQueue s) l.

(** The measurement interval a turn of the water task leaves behind. *)
Definition interval_after (env : Water.water_env) (s : Water.water_state) : Z :=
  Water.measurement_interval
    (Water.config (Water.shared (fst (Water.vWaterTask_step env s)))).

(** The pressure, flow and total-flow fields of a water payload as a
    receiver reads them. *)
Definition payload_pressure (payload : list Z) : Z :=
  be16 (nth 4 payload 0) (nth 5 payload 0).
Definition payload_flow (payload : list Z) : Z :=
  be16 (nth 6 payload 0) (nth 7 payload 0).
Definition payload_total_flow (payload : list Z) : Z :=
  be32 (nth 12 payload 0) (nth 13 payload 0) (nth 14 payload 0)
       (nth 15 payload 0).

(** A history of 10 bar three readings in, and the water task at start-up
    beside a leak-detection task in state [l]. *)
Definition example_three_readings : Water.leak_state :=
  Water.mk_leak_state (repeat 10%Q 10) 3 0 Water.water_config [] example_joined.

Definition example_water_start (l : Water.leak_state) : Water.water_state :=
  Water.mk_water_state 0 0 [] l.

(** A turn of the water task on an idle pipe at 1.5 bar with clean water,
    and one on a pipe at 3 bar with flow. *)
Definition example_idle_pipe : Water.water_env :=
  Water.mk_water_env true 1.5 0 7.2 20 0.5 120000 120000 0.

Definition example_flowing_pipe : Water.water_env :=
  Water.mk_water_env true 3 12 7.2 20 0.5 120000 120000 0.

Definition example_measurement : Water.water_data_t :=
  Water.mk_water_data 120 3.217 12.5 7.2 20 0.5 1 0 70000.6 0.

(** ** Clock readings and elapsed time *)

(** Milliseconds from one value of the microsecond counter to a later one,
    the values counted from power-on without wrapping.  TIM2 holds their low
    32 bits, and that is all [lorawan_get_timestamp] sees. *)
Definition ms_between (c1 c2 : Z) : Z := (c2 - c1) / 1000.

(** The clock readings of the calls of a run, in order. *)
Definition clock_readings (us : list (send_env * uplink)) : list Z :=
  map (fun eu => lorawan_get_timestamp (send_counter (fst eu))) us.

(** The clock reading at which the wait of a join begins. *)
Definition join_start (env : join_env) : Z :=
  lorawan_get_timestamp (join_counter env).

(** The last clock reading from which the end of the join window can still
    be read: readings stop at 4294967. *)
Definition LAST_JOIN_START : Z := 4289967.

(** The engine of [example_sent_once] reset and joined again, 10 s after
    its transmission. *)
Definition example_rejoined_later : engine :=
  match lorawan_join (mk_join_env [true] 210000000
                                  [mk_join_poll 210001000 true example_accept'])
                     (lorawan_reset example_sent_once) with
  | Some (_, e) => e
  | None => power_on
  end.

(** A join whose wait begins 2.9 s before the clock restarts and that
    receives nothing usable. *)
Definition example_join_near_restart : join_env :=
  mk_join_env [true] 4292000000
              [mk_join_poll 4292010000 false [];
               mk_join_poll 4294960000 true [1; 2; 3];
               mk_join_poll 5000000 false [];
               mk_join_poll 60000000 false []].

(** A reading of 0.29, and a water measurement at 0.29 bar, 0.7 L/min and
    pH 7.2, each the [float] nearest to the decimal. *)
Definition example_reading_rounded : LoRaOnly.sensor_packet_t :=
  LoRaOnly.mk_sensor_packet 200 0x03 (f32_round 0.29) 87 (-80) 0.

Definition example_measurement_rounded : Water.water_data_t :=
  Water.mk_water_data 120 (f32_round 0.29) (f32_round 0.7) (f32_round 7.2)
                      20 0.5 1 0 70000.5 0.

(** ** The engine: basic facts *)

Lemma state_eqb_eq a b : state_eqb a b = true <-> a = b.
Proof.
  split.
  - destruct a, b; simpl; intros H; try reflexivity; discriminate H.
  - intros ->. destruct b; reflexivity.
Qed.

Lemma ready_dec e :
  {ready e} + {joined (session e) = false \/ lorawan_state e <> LORAWAN_STATE_JOINED}.
Proof.
  unfold ready.
  destruct (joined (session e)) eqn:J.
  - destruct (state_eqb (lorawan_state e) LORAWAN_STATE_JOINED) eqn:S.
    + left. split; [reflexivity | now apply state_eqb_eq].
    + right. right. intros H. apply state_eqb_eq in H. congruence.
  - right. left. reflexivity.
Qed.

Lemma send_not_ready env data length port e :
  joined (session e) = false \/ lorawan_state e <> LORAWAN_STATE_JOINED ->
  lorawan_send env data length port e = Some (LORAWAN_ERROR_NO_NETWORK, e).
Proof.
  intros H. unfold lorawan_send.
  destruct (joined (session e)); simpl; [ | reflexivity].
  destruct H as [H | H]; [discriminate H | ].
  destruct (state_eqb (lorawan_state e) LORAWAN_STATE_JOINED) eqn:S; simpl.
  - apply state_eqb_eq in S. contradiction.
  - reflexivity.
Qed.

Lemma send_oversize env data length port e :
  ready e -> 242 < length ->
  lorawan_send env data length port e = Some (LORAWAN_ERROR_SEND, e).
Proof.
  intros [J S] L. unfold lorawan_send.
  rewrite J, S. simpl.
  apply Z.ltb_lt in L. rewrite L. reflexivity.
Qed.

Lemma send_inside_gap env data length port e :
  ready e -> length <= 242 -> since_last_tx env e < MIN_TX_GAP ->
  lorawan_send env data length port e = Some (LORAWAN_ERROR_BUSY, e).
Proof.
  intros [J S] L G. unfold lorawan_send.
  rewrite J, S. simpl.
  apply Z.ltb_ge in L. rewrite L.
  unfold since_last_tx, elapsed_ms, MIN_TX_GAP in G.
  apply Z.ltb_lt in G. rewrite G. reflexivity.
Qed.

Lemma send_after_gap env data length port e :
  ready e -> length <= 242 -> MIN_TX_GAP <= since_last_tx env e ->
  lorawan_send env data length port e =
    match Radio.wait_tx_done (tx_done_answers env) with
    | Some _ => Some (LORAWAN_SUCCESS, after_send env data length port e)
    | None => None
    end.
Proof.
  intros [J S] L G. unfold lorawan_send.
  rewrite J, S. simpl.
  apply Z.ltb_ge in L. rewrite L.
  unfold since_last_tx, elapsed_ms, MIN_TX_GAP in G.
  apply Z.ltb_ge in G. rewrite G.
  destruct (Radio.wait_tx_done (tx_done_answers env)); reflexivity.
Qed.

(** Every way [lorawan_send] can return. *)
Lemma send_cases env data length port e r e' :
  lorawan_send env data length port e = Some (r, e') ->
  (r = LORAWAN_ERROR_NO_NETWORK /\ e' = e /\
     (joined (session e) = false \/ lorawan_state e <> LORAWAN_STATE_JOINED))
  \/ (r = LORAWAN_ERROR_SEND /\ e' = e /\ ready e /\ 242 < length)
  \/ (r = LORAWAN_ERROR_BUSY /\ e' = e /\ ready e /\ length <= 242 /\
        since_last_tx env e < MIN_TX_GAP)
  \/ (r = LORAWAN_SUCCESS /\ e' = after_send env data length port e /\
        ready e /\ length <= 242 /\ MIN_TX_GAP <= since_last_tx env e /\
        completes env).
Proof.
  intros H.
  destruct (ready_dec e) as [R | N].
  - destruct (Z_lt_le_dec 242 length) as [L | L].
    + rewrite (send_oversize _ _ _ _ _ R L) in H. inversion H; subst.
      right; left. auto.
    + destruct (Z_lt_le_dec (since_last_tx env e) MIN_TX_GAP) as [G | G].
      * rewrite (send_inside_gap _ _ _ _ _ R L G) in H. inversion H; subst.
        right; right; left. auto.
      * rewrite (send_after_gap _ _ _ _ _ R L G) in H.
        destruct (Radio.wait_tx_done (tx_done_answers env)) eqn:W;
          [ | discriminate H].
        inversion H; subst.
        right; right; right. repeat split; try assumption; try apply R.
        unfold completes. rewrite W. discriminate.
  - rewrite (send_not_ready _ _ _ _ _ N) in H. inversion H; subst.
    left. auto.
Qed.



Lemma u16_range x : 0 <= u16 x < 65536.
Proof. unfold u16. apply Z.mod_pos_bound. lia. Qed.

Lemma u32_range x : 0 <= u32 x < 4294967296.
Proof. unfold u32. apply Z.mod_pos_bound. lia. Qed.

Lemma timestamp_range c : 0 <= lorawan_get_timestamp c <= 4294967.
Proof.
  unfold lorawan_get_timestamp.
  pose proof (u32_range c) as [H0 H1].
  split.
  - apply Z.div_pos; lia.
  - apply Z.lt_succ_r. apply Z.div_lt_upper_bound; lia.
Qed.

(** Without a turn of the clock between the two readings the elapsed time is
    their plain difference. *)
Lemma elapsed_ms_plain t1 t2 :
  0 <= t1 <= t2 -> t2 < 4294967296 -> elapsed_ms t1 t2 = t2 - t1.
Proof.
  intros H1 H2. unfold elapsed_ms, u32. apply Z.mod_small. lia.
Qed.

Lemma completes_env_at ms : completes (env_at ms).
Proof. unfold completes. simpl. discriminate. Qed.

(** The radio completes: the wait loop of the goal returns. *)
Ltac radio_done C :=
  unfold completes in C;
  match goal with
  | |- context [Radio.wait_tx_done ?a] =>
      destruct (Radio.wait_tx_done a); [ | contradiction]
  end.

(** ** The send primitive *)

(** C9 (failure atomicity of send).  When [lorawan_send] returns an error,
    the engine is exactly as before the call: session (device address, keys,
    both frame counters, joined flag), last-transmission timestamp, RSSI and
    SNR readings and protocol state are unchanged, and no frame has been
    handed to the radio.  The error has one of the four causes: not joined,
    wrong state, oversize payload, inside the duty-cycle gap. *)
Theorem C9_send_failure_atomic env data length port e r e' :
  lorawan_send env data length port e = Some (r, e') ->
  r <> LORAWAN_SUCCESS ->
  e' = e /\
  transmitted e' = transmitted e /\
  (joined (session e) = false \/
   lorawan_state e <> LORAWAN_STATE_JOINED \/
   242 < length \/
   since_last_tx env e < MIN_TX_GAP).
Proof.
  intros H N.
  destruct (send_cases _ _ _ _ _ _ _ H)
    as [(_ & E & C) | [(_ & E & _ & C) | [(_ & E & _ & _ & C) | (S & _)]]].
  - subst e'. repeat split. tauto.
  - subst e'. repeat split. tauto.
  - subst e'. repeat split. tauto.
  - contradiction.
Qed.

Lemma C9_send_failure_atomic_witness :
  lorawan_send (env_at 50000) [1; 2; 3] 3 10 example_joined
    = Some (LORAWAN_ERROR_BUSY, example_joined) /\
  LORAWAN_ERROR_BUSY <> LORAWAN_SUCCESS /\
  example_joined = example_joined /\
  transmitted example_joined = transmitted example_joined /\
  (joined (session example_joined) = false \/
   lorawan_state example_joined <> LORAWAN_STATE_JOINED \/
   242 < 3 \/
   since_last_tx (env_at 50000) example_joined < MIN_TX_GAP).
Proof.
  split; [reflexivity | ].
  split; [discriminate | ].
  apply (C9_send_failure_atomic (env_at 50000) [1; 2; 3] 3 10 example_joined
                                LORAWAN_ERROR_BUSY example_joined).
  - reflexivity.
  - discriminate.
Defined.

(** C4, as the code has it.  [lorawan_send] answers
    [LORAWAN_ERROR_NO_NETWORK] whenever the session is not joined or the
    protocol state is not [LORAWAN_STATE_JOINED]: a joined engine that is
    asleep or sending is refused as no-network too, never as busy, and the
    engine is left as it was. *)
Theorem C4_no_network_unless_ready env data length port e :
  joined (session e) = false \/ lorawan_state e <> LORAWAN_STATE_JOINED ->
  lorawan_send env data length port e = Some (LORAWAN_ERROR_NO_NETWORK, e) /\
  forall e', lorawan_send env data length port e <> Some (LORAWAN_ERROR_BUSY, e').
Proof.
  intros H. rewrite (send_not_ready _ _ _ _ _ H).
  split; [reflexivity | intros e' N; discriminate N].
Qed.

Lemma C4_no_network_unless_ready_witness :
  (joined (session (lorawan_sleep example_joined)) = false \/
   lorawan_state (lorawan_sleep example_joined) <> LORAWAN_STATE_JOINED) /\
  lorawan_send (env_at 200000) [1; 2; 3] 3 10 (lorawan_sleep example_joined)
    = Some (LORAWAN_ERROR_NO_NETWORK, lorawan_sleep example_joined) /\
  forall e',
    lorawan_send (env_at 200000) [1; 2; 3] 3 10 (lorawan_sleep example_joined)
    <> Some (LORAWAN_ERROR_BUSY, e').
Proof.
  assert (H : joined (session (lorawan_sleep example_joined)) = false \/
              lorawan_state (lorawan_sleep example_joined) <> LORAWAN_STATE_JOINED).
  { right. discriminate. }
  split; [exact H | ].
  exact (C4_no_network_unless_ready (env_at 200000) [1; 2; 3] 3 10
                                    (lorawan_sleep example_joined) H).
Defined.

(** C4 as stated fails: a joined engine put to sleep by [lorawan_sleep] has
    [joined = true] and a state other than Joined, and a send on it, with
    the duty-cycle gap long elapsed, is refused with
    [LORAWAN_ERROR_NO_NETWORK], not [LORAWAN_ERROR_BUSY]. *)
Lemma C4_joined_asleep_is_no_network :
  joined (session (lorawan_sleep example_joined)) = true /\
  lorawan_state (lorawan_sleep example_joined) = LORAWAN_STATE_SLEEP /\
  lorawan_send (env_at 200000) [1; 2; 3] 3 10 (lorawan_sleep example_joined)
    = Some (LORAWAN_ERROR_NO_NETWORK, lorawan_sleep example_joined) /\
  lorawan_send (env_at 200000) [1; 2; 3] 3 10 (lorawan_sleep example_joined)
    <> Some (LORAWAN_ERROR_BUSY, lorawan_sleep example_joined).
Proof.
  repeat split; vm_compute; discriminate.
Qed.

(** The duty-cycle gap while the clock runs on.  After a send that succeeded
    at clock reading [t1] the engine is joined and in state Joined.  A
    further send of an admissible payload at a reading [t2] that is not below
    [t1] returns [LORAWAN_ERROR_BUSY], with the engine untouched and nothing
    transmitted, when fewer than 99000 ms lie between the two readings; when
    99000 ms or more do, it returns [LORAWAN_SUCCESS] and its frame has been
    handed to the radio. *)
Lemma duty_cycle_gap_while_clock_runs_on env1 data1 length1 port1 e e1
        env2 data2 length2 port2 :
  lorawan_send env1 data1 length1 port1 e = Some (LORAWAN_SUCCESS, e1) ->
  length2 <= 242 ->
  let t1 := lorawan_get_timestamp (send_counter env1) in
  let t2 := lorawan_get_timestamp (send_counter env2) in
  t1 <= t2 ->
  ready e1 /\
  (t2 - t1 < MIN_TX_GAP ->
   lorawan_send env2 data2 length2 port2 e1 = Some (LORAWAN_ERROR_BUSY, e1)) /\
  (MIN_TX_GAP <= t2 - t1 -> completes env2 ->
   exists e2,
     lorawan_send env2 data2 length2 port2 e1 = Some (LORAWAN_SUCCESS, e2) /\
     transmitted e2 = build_frame (session e1) data2 length2 port2 :: transmitted e1).
Proof.
  intros H L t1 t2 O.
  destruct (send_cases _ _ _ _ _ _ _ H)
    as [(S & _) | [(S & _) | [(S & _) | (_ & E & R & _)]]];
    try discriminate S.
  assert (R1 : ready e1).
  { subst e1. destruct R as [J _]. split; [exact J | reflexivity]. }
  assert (T : since_last_tx env2 e1 = t2 - t1).
  { subst e1. unfold since_last_tx. simpl last_tx_timestamp. fold t1 t2.
    pose proof (timestamp_range (send_counter env1)).
    pose proof (timestamp_range (send_counter env2)).
    apply elapsed_ms_plain; unfold t1, t2 in *; lia. }
  split; [exact R1 | split].
  - intros G. apply send_inside_gap; [exact R1 | exact L | ].
    rewrite T. exact G.
  - intros G C.
    exists (after_send env2 data2 length2 port2 e1). split.
    + rewrite send_after_gap; [ | exact R1 | exact L | rewrite T; exact G].
      radio_done C. reflexivity.
    + reflexivity.
Qed.

Lemma duty_cycle_gap_while_clock_runs_on_witness :
  lorawan_send (env_at 200000) [1; 2; 3] 3 10 example_joined
    = Some (LORAWAN_SUCCESS, example_sent_once) /\
  3 <= 242 /\
  lorawan_get_timestamp (send_counter (env_at 200000))
    <= lorawan_get_timestamp (send_counter (env_at 250000)) /\
  lorawan_get_timestamp (send_counter (env_at 200000))
    <= lorawan_get_timestamp (send_counter (env_at 299000)) /\
  lorawan_send (env_at 250000) [4; 5; 6] 3 10 example_sent_once
    = Some (LORAWAN_ERROR_BUSY, example_sent_once) /\
  exists e2,
    lorawan_send (env_at 299000) [4; 5; 6] 3 10 example_sent_once
      = Some (LORAWAN_SUCCESS, e2) /\
    transmitted e2 = build_frame (session example_sent_once) [4; 5; 6] 3 10
                       :: transmitted example_sent_once.
Proof.
  assert (H : lorawan_send (env_at 200000) [1; 2; 3] 3 10 example_joined
              = Some (LORAWAN_SUCCESS, example_sent_once)) by reflexivity.
  assert (L : 3 <= 242) by lia.
  assert (O1 : lorawan_get_timestamp (send_counter (env_at 200000))
               <= lorawan_get_timestamp (send_counter (env_at 250000)))
    by (vm_compute; discriminate).
  assert (O2 : lorawan_get_timestamp (send_counter (env_at 200000))
               <= lorawan_get_timestamp (send_counter (env_at 299000)))
    by (vm_compute; discriminate).
  split; [exact H | split; [exact L | split; [exact O1 | split; [exact O2 | ]]]].
  split.
  - destruct (duty_cycle_gap_while_clock_runs_on (env_at 200000) [1; 2; 3] 3 10 example_joined
                example_sent_once (env_at 250000) [4; 5; 6] 3 10 H L O1)
      as (_ & B & _).
    apply B. reflexivity.
  - destruct (duty_cycle_gap_while_clock_runs_on (env_at 200000) [1; 2; 3] 3 10 example_joined
                example_sent_once (env_at 299000) [4; 5; 6] 3 10 H L O2)
      as (_ & _ & S).
    apply S.
    + intros C. discriminate C.
    + apply completes_env_at.
Defined.

(** After a success at reading [t1], a send at a reading below [t1] goes
    through: the clock has restarted, and the difference of the readings
    taken modulo 2^32 is at least 2^32 - 4294967. *)
Lemma send_after_clock_restart env1 data1 length1 port1 e e1
        env2 data2 length2 port2 :
  lorawan_send env1 data1 length1 port1 e = Some (LORAWAN_SUCCESS, e1) ->
  length2 <= 242 ->
  completes env2 ->
  lorawan_get_timestamp (send_counter env2)
    < lorawan_get_timestamp (send_counter env1) ->
  lorawan_send env2 data2 length2 port2 e1
    = Some (LORAWAN_SUCCESS, after_send env2 data2 length2 port2 e1).
Proof.
  intros H L C R.
  destruct (send_cases _ _ _ _ _ _ _ H)
    as [(S & _) | [(S & _) | [(S & _) | (_ & E & Rd & _)]]];
    try discriminate S.
  assert (R1 : ready e1).
  { subst e1. destruct Rd as [J _]. split; [exact J | reflexivity]. }
  rewrite send_after_gap; [radio_done C; reflexivity | exact R1 | exact L | ].
  subst e1. unfold since_last_tx, elapsed_ms, u32, MIN_TX_GAP.
  simpl last_tx_timestamp.
  pose proof (timestamp_range (send_counter env1)).
  pose proof (timestamp_range (send_counter env2)).
  Z.div_mod_to_equations. lia.
Qed.

(** C3 (duty-cycle gap across a restart of the clock).  The millisecond
    clock of the engine is the 32-bit microsecond counter divided by 1000:
    its readings run to 4294967 and start again at 0, while [lorawan_send]
    takes the difference of two readings modulo 2^32.  Across a restart the
    gap is therefore not kept.  A send at 4294.000 s goes through, and so
    does the next one 6 s later, when the clock reads 5032: two frames inside
    the gap.  The other way round, after a send at reading 200000 a send
    4345 s later, when the clock reads 250032, is refused as busy although
    the gap has long elapsed. *)
Theorem C3_gap_not_kept_across_clock_restart :
  (exists e1 e2,
     lorawan_send (env_at 4294000) [1; 2; 3] 3 10 example_joined
       = Some (LORAWAN_SUCCESS, e1) /\
     ready e1 /\
     ms_between (send_counter (env_at 4294000)) (send_counter (env_at 4300000))
       = 6000 /\
     6000 < MIN_TX_GAP /\
     lorawan_get_timestamp (send_counter (env_at 4294000)) = 4294000 /\
     lorawan_get_timestamp (send_counter (env_at 4300000)) = 5032 /\
     completes (env_at 4300000) /\
     lorawan_send (env_at 4300000) [4; 5; 6] 3 10 e1
       = Some (LORAWAN_SUCCESS, e2) /\
     transmitted e2
       = build_frame (session e1) [4; 5; 6] 3 10 :: transmitted e1) /\
  (lorawan_send (env_at 200000) [1; 2; 3] 3 10 example_joined
     = Some (LORAWAN_SUCCESS, example_sent_once) /\
   ready example_sent_once /\
   ms_between (send_counter (env_at 200000)) (send_counter (env_at 4545000))
     = 4345000 /\
   MIN_TX_GAP <= 4345000 /\
   lorawan_get_timestamp (send_counter (env_at 4545000)) = 250032 /\
   completes (env_at 4545000) /\
   lorawan_send (env_at 4545000) [4; 5; 6] 3 10 example_sent_once
     = Some (LORAWAN_ERROR_BUSY, example_sent_once)).
Proof.
  split.
  - exists (after_send (env_at 4294000) [1; 2; 3] 3 10 example_joined).
    exists (after_send (env_at 4300000) [4; 5; 6] 3 10
              (after_send (env_at 4294000) [1; 2; 3] 3 10 example_joined)).
    assert (H : lorawan_send (env_at 4294000) [1; 2; 3] 3 10 example_joined
                = Some (LORAWAN_SUCCESS,
                        after_send (env_at 4294000) [1; 2; 3] 3 10
                                   example_joined))
      by (vm_compute; reflexivity).
    assert (C : completes (env_at 4300000)) by apply completes_env_at.
    assert (L : 3 <= 242) by lia.
    assert (R : lorawan_get_timestamp (send_counter (env_at 4300000))
                < lorawan_get_timestamp (send_counter (env_at 4294000)))
      by (vm_compute; reflexivity).
    split; [exact H | ].
    split; [split; reflexivity | ].
    split; [reflexivity | ].
    split; [unfold MIN_TX_GAP; lia | ].
    split; [reflexivity | split; [reflexivity | split; [exact C | ]]].
    split; [ | reflexivity].
    exact (send_after_clock_restart _ _ _ _ _ _ _ [4; 5; 6] 3 10 H L C R).
  - split; [reflexivity | ].
    split; [split; reflexivity | ].
    split; [reflexivity | ].
    split; [unfold MIN_TX_GAP; lia | ].
    split; [reflexivity | split; [apply completes_env_at | ]].
    vm_compute. reflexivity.
Qed.

(** ** The emergency path *)






(** ** The uplink frame counter *)

Lemma process_join_accept_success rx e e' :
  lorawan_process_join_accept rx e = (LORAWAN_SUCCESS, e') ->
  fcnt e' = 0 /\ lorawan_state e' = lorawan_state e.
Proof.
  unfold lorawan_process_join_accept.
  destruct (Z.of_nat (length rx) <? 17); intros H; inversion H; subst.
  split; reflexivity.
Qed.

Lemma join_wait_success timeout polls :
  forall e e',
    join_wait timeout polls e = Some (LORAWAN_SUCCESS, e') ->
    fcnt e' = 0 /\ ready e'.
Proof.
  induction polls as [ | p rest IH]; intros e e' H; simpl in H.
  - discriminate H.
  - destruct (lorawan_get_timestamp (poll_counter p) <? timeout);
      [ | inversion H].
    destruct (rx_done p); [ | exact (IH _ _ H)].
    destruct (lorawan_process_join_accept (rx_frame p) e) as [r e1] eqn:P.
    destruct r;
      try (apply (IH e1 e'); exact H).
    inversion H; subst.
    destruct (process_join_accept_success _ _ _ P) as [F _].
    split; [exact F | split; reflexivity].
Qed.

Lemma join_success env e e' :
  lorawan_join env e = Some (LORAWAN_SUCCESS, e') ->
  fcnt e' = 0 /\ ready e'.
Proof.
  unfold lorawan_join, lorawan_send_join_request.
  destruct (negb (state_eqb (lorawan_state e) LORAWAN_STATE_IDLE));
    [intros H; inversion H | ].
  destruct (Radio.wait_tx_done (request_tx_done env)); [ | intros H; inversion H].
  apply join_wait_success.
Qed.

Lemma uplink_send_fcnt env u e r e' :
  uplink_send env u e = Some (r, e') ->
  fcnt e' = if is_success r then u16 (fcnt e + 1) else fcnt e.
Proof.
  intros H.
  assert (S : exists data length port,
             lorawan_send env data length port e = Some (r, e')).
  { destruct u; simpl in H; eauto. }
  destruct S as (data & length & port & S).
  destruct (send_cases _ _ _ _ _ _ _ S)
    as [(-> & -> & _) | [(-> & -> & _) | [(-> & -> & _) | (-> & -> & _)]]];
    reflexivity.
Qed.

Lemma u16_succ_u16 a n : u16 (u16 (a + 1) + n) = u16 (a + (1 + n)).
Proof.
  unfold u16. rewrite Zplus_mod_idemp_l. f_equal. lia.
Qed.

Lemma uplink_run_fcnt us :
  forall e rs e',
    0 <= fcnt e < 65536 ->
    uplink_run us e = Some (rs, e') ->
    fcnt e' = u16 (fcnt e + successes rs).
Proof.
  induction us as [ | [env u] rest IH]; intros e rs e' B H; simpl in H.
  - inversion H; subst. simpl. rewrite Z.add_0_r.
    unfold u16. symmetry. apply Z.mod_small. exact B.
  - destruct (uplink_send env u e) as [[r e1] | ] eqn:S; [ | discriminate H].
    destruct (uplink_run rest e1) as [[rs1 e2] | ] eqn:U; [ | discriminate H].
    inversion H; subst.
    pose proof (uplink_send_fcnt _ _ _ _ _ S) as F.
    simpl successes.
    destruct (is_success r).
    + rewrite (IH e1 rs1 e'); [ | rewrite F; apply u16_range | exact U].
      rewrite F. apply u16_succ_u16.
    + rewrite (IH e1 rs1 e'); [ | rewrite F; exact B | exact U].
      rewrite F. reflexivity.
Qed.

(** C2, as the code has it.  After a successful join the uplink frame
    counter is 0, and after any run of uplinks that follows it equals the
    number of successful sends, counted modulo 65536: each successful send
    raises it by one (from 65535 it turns to 0), each refused send leaves it
    as it is.  Emergency uplinks are sends like the others and are counted
    with them. *)
Theorem C2_fcnt_counts_successful_sends jenv e0 e1 us rs e2 :
  lorawan_join jenv e0 = Some (LORAWAN_SUCCESS, e1) ->
  uplink_run us e1 = Some (rs, e2) ->
  fcnt e1 = 0 /\ fcnt e2 = u16 (successes rs).
Proof.
  intros J U.
  destruct (join_success _ _ _ J) as [F _].
  split; [exact F | ].
  rewrite (uplink_run_fcnt us e1 rs e2); [ | rewrite F; lia | exact U].
  rewrite F. reflexivity.
Qed.

Lemma C2_fcnt_counts_successful_sends_witness :
  lorawan_join example_join_env (snd (lorawan_init true power_on))
    = Some (LORAWAN_SUCCESS, example_joined) /\
  uplink_run [(env_at 200000, Telemetry [1; 2; 3] 3 10);
              (env_at 200500, EnergyEmergency Electrical.SAFETY_OVERVOLTAGE 200500);
              (env_at 299000, EnergyEmergency Electrical.SAFETY_OVERVOLTAGE 299000)]
             example_joined
    = Some ([LORAWAN_SUCCESS; LORAWAN_ERROR_BUSY; LORAWAN_SUCCESS],
            after_send (env_at 299000)
                       (Electrical.emergency_payload
                          Electrical.SAFETY_OVERVOLTAGE 299000)
                       8 99 example_sent_once) /\
  fcnt example_joined = 0 /\
  fcnt (after_send (env_at 299000)
                   (Electrical.emergency_payload
                      Electrical.SAFETY_OVERVOLTAGE 299000)
                   8 99 example_sent_once) = u16 2.
Proof.
  assert (J : lorawan_join example_join_env (snd (lorawan_init true power_on))
              = Some (LORAWAN_SUCCESS, example_joined)) by reflexivity.
  assert (U : uplink_run
                [(env_at 200000, Telemetry [1; 2; 3] 3 10);
                 (env_at 200500, EnergyEmergency Electrical.SAFETY_OVERVOLTAGE 200500);
                 (env_at 299000, EnergyEmergency Electrical.SAFETY_OVERVOLTAGE 299000)]
                example_joined
              = Some ([LORAWAN_SUCCESS; LORAWAN_ERROR_BUSY; LORAWAN_SUCCESS],
                      after_send (env_at 299000)
                                 (Electrical.emergency_payload
                                    Electrical.SAFETY_OVERVOLTAGE 299000)
                                 8 99 example_sent_once)) by reflexivity.
  split; [exact J | split; [exact U | ]].
  exact (C2_fcnt_counts_successful_sends _ _ _ _ _ _ J U).
Defined.

(** C2 as stated fails on its last part: the over-voltage emergency that the
    safety task sends on the freshly joined engine, whose counter is 0,
    succeeds and leaves the counter at 1. *)
Lemma C2_emergency_send_moves_fcnt :
  fcnt example_joined = 0 /\
  Electrical.vSafetyTask_step (safety_env_at 200000)
                              (overvoltage_pending example_joined)
    = Some (Electrical.mk_system
              (after_send (env_at 200000)
                          (Electrical.emergency_payload
                             Electrical.SAFETY_OVERVOLTAGE 200000)
                          8 99 example_joined) [] [],
            Some LORAWAN_SUCCESS) /\
  fcnt (after_send (env_at 200000)
                   (Electrical.emergency_payload
                      Electrical.SAFETY_OVERVOLTAGE 200000)
                   8 99 example_joined) = 1.
Proof.
  repeat split.
Qed.

Lemma do_call_fcnt c e e' :
  do_call c e = Some e' ->
  fcnt e' = fcnt e \/ fcnt e' = u16 (fcnt e + 1).
Proof.
  destruct c as [env data length port | | ]; simpl; intros H.
  - destruct (lorawan_send env data length port e) as [[r e1] | ] eqn:S;
      [ | discriminate H].
    inversion H; subst.
    pose proof (uplink_send_fcnt env (Telemetry data length port) e r e' S) as F.
    destruct (is_success r); [right | left]; exact F.
  - inversion H; subst. left. reflexivity.
  - inversion H; subst. left. unfold lorawan_wakeup.
    destruct (joined _); reflexivity.
Qed.

Lemma u16_succ_cases a :
  0 <= a < 65536 ->
  (a < 65535 /\ u16 (a + 1) = a + 1) \/ (a = 65535 /\ u16 (a + 1) = 0).
Proof.
  intros B. unfold u16.
  destruct (Z.eq_dec a 65535) as [-> | N].
  - right. split; reflexivity.
  - left. split; [lia | apply Z.mod_small; lia].
Qed.

Lemma stepwise_cons {A : Type} (R : A -> A -> Prop) a b l :
  R a b -> stepwise R (b :: l) -> stepwise R (a :: b :: l).
Proof. intros H S. split; assumption. Qed.

Lemma trace_head cs e : exists l, trace cs e = e :: l.
Proof.
  destruct cs as [ | c rest]; simpl.
  - eauto.
  - destruct (do_call c e); eauto.
Qed.

(** C5, as the code has it.  Along any list of calls made during a session
    (sends, refused or not, sleep and wake-up) the uplink frame counter, a
    16-bit value, never goes down from one engine state to the next, except
    for the one turn from 65535 to 0 that the successful send at 65535
    makes. *)
Theorem C5_fcnt_monotone_up_to_wrap cs :
  forall e,
    0 <= fcnt e < 65536 ->
    fcnt_nondecreasing_but_wrap (trace cs e).
Proof.
  unfold fcnt_nondecreasing_but_wrap.
  induction cs as [ | c rest IH]; intros e B; simpl.
  - exact I.
  - destruct (do_call c e) as [e1 | ] eqn:D; [ | exact I].
    assert (S : (fcnt e <= fcnt e1 \/ (fcnt e = 65535 /\ fcnt e1 = 0))
                /\ 0 <= fcnt e1 < 65536).
    { destruct (do_call_fcnt _ _ _ D) as [F | F]; rewrite F.
      - split; [left; lia | exact B].
      - split; [ | apply u16_range].
        destruct (u16_succ_cases _ B) as [[_ E] | [E1 E2]]; rewrite ?E, ?E2.
        + left. lia.
        + right. split; [exact E1 | reflexivity]. }
    destruct S as [S B1].
    destruct (trace_head rest e1) as [l T].
    pose proof (IH e1 B1) as IH1. rewrite T in IH1 |- *.
    apply stepwise_cons; assumption.
Qed.

Lemma C5_fcnt_monotone_up_to_wrap_witness :
  0 <= fcnt example_joined < 65536 /\
  fcnt_nondecreasing_but_wrap
    (trace [Send (env_at 200000) [1; 2; 3] 3 10;
            Sleep;
            Send (env_at 250000) [1; 2; 3] 3 10;
            Wakeup;
            Send (env_at 299000) [1; 2; 3] 3 10]
           example_joined).
Proof.
  assert (B : 0 <= fcnt example_joined < 65536)
    by (change (0 <= 0 < 65536); lia).
  split; [exact B | ].
  exact (C5_fcnt_monotone_up_to_wrap _ example_joined B).
Defined.

Lemma uplink_run_app us1 us2 e :
  uplink_run (us1 ++ us2) e =
    match uplink_run us1 e with
    | None => None
    | Some (rs1, e1) =>
        match uplink_run us2 e1 with
        | None => None
        | Some (rs2, e2) => Some (rs1 ++ rs2, e2)
        end
    end.
Proof.
  revert e. induction us1 as [ | [env u] rest IH]; intros e; simpl.
  - destruct (uplink_run us2 e) as [[rs2 e2] | ]; reflexivity.
  - destruct (uplink_send env u e) as [[r e1] | ]; [ | reflexivity].
    rewrite IH.
    destruct (uplink_run rest e1) as [[rs1 e2] | ]; [ | reflexivity].
    destruct (uplink_run us2 e2) as [[rs2 e3] | ]; reflexivity.
Qed.

Lemma timestamp_env_at ms :
  0 <= ms <= 4294967 -> lorawan_get_timestamp (send_counter (env_at ms)) = ms.
Proof.
  intros H. unfold lorawan_get_timestamp, env_at, u32. simpl.
  rewrite Z.mod_small by lia. apply Z.div_mul. lia.
Qed.

(** From any ready engine some clock reading lets the next send through. *)
Lemma next_send_possible e :
  ready e -> 0 <= last_tx_timestamp e <= 4294967 ->
  exists ms,
    (0 <= ms <= 4294967) /\
    lorawan_send (env_at ms) [] 0 1 e
      = Some (LORAWAN_SUCCESS, after_send (env_at ms) [] 0 1 e).
Proof.
  intros R B.
  set (ms := if last_tx_timestamp e <=? 4000000
             then last_tx_timestamp e + MIN_TX_GAP else 0).
  assert (M : 0 <= ms <= 4294967).
  { unfold ms, MIN_TX_GAP.
    destruct (Z.leb_spec (last_tx_timestamp e) 4000000); lia. }
  exists ms. split; [exact M | ].
  rewrite send_after_gap; [reflexivity | exact R | lia | ].
  unfold since_last_tx. rewrite (timestamp_env_at ms M).
  unfold elapsed_ms, u32, ms, MIN_TX_GAP.
  destruct (Z.leb_spec (last_tx_timestamp e) 4000000).
  - rewrite Z.mod_small; lia.
  - replace (0 - last_tx_timestamp e)
      with (4294967296 - last_tx_timestamp e + (-1) * 4294967296) by lia.
    rewrite Z.mod_add by lia. rewrite Z.mod_small; lia.
Qed.

(** Every value of the 16-bit counter is reached in the session that
    [example_joined] opens. *)
Lemma fcnt_reachable (n : nat) :
  Z.of_nat n <= 65535 ->
  exists us rs e,
    uplink_run us example_joined = Some (rs, e) /\
    ready e /\ fcnt e = Z.of_nat n /\ 0 <= last_tx_timestamp e <= 4294967.
Proof.
  induction n as [ | n IH]; intros B.
  - exists [], [], example_joined.
    repeat split; try reflexivity; vm_compute; discriminate.
  - destruct IH as (us & rs & e & U & R & F & T); [lia | ].
    destruct (next_send_possible e R T) as (ms & M & S).
    exists (us ++ [(env_at ms, Telemetry [] 0 1)]),
           (rs ++ [LORAWAN_SUCCESS]),
           (after_send (env_at ms) [] 0 1 e).
    split; [ | split; [ | split]].
    + rewrite uplink_run_app, U. simpl. rewrite S. reflexivity.
    + destruct R as [J _]. split; [exact J | reflexivity].
    + unfold fcnt, after_send. simpl. fold (fcnt e). rewrite F.
      unfold u16. rewrite Z.mod_small; lia.
    + change (0 <= lorawan_get_timestamp (send_counter (env_at ms)) <= 4294967).
      rewrite (timestamp_env_at ms M). exact M.
Qed.

(** C5 as stated fails: in the session that [example_joined] opens, 65535
    successful sends bring the counter to 65535, and the next successful send
    turns it to 0, which is smaller.  The same on [example_counter_full], an
    engine in mid-session with the counter at 65535. *)
Lemma C5_fcnt_wraps_to_zero :
  (exists us rs e env e',
      uplink_run us example_joined = Some (rs, e) /\
      lorawan_send env [] 0 1 e = Some (LORAWAN_SUCCESS, e') /\
      fcnt e = 65535 /\ fcnt e' = 0 /\
      ~ fcnt_nondecreasing (trace [Send env [] 0 1] e)) /\
  ready example_counter_full /\
  fcnt example_counter_full = 65535 /\
  trace [Send (env_at 200000) [1; 2; 3] 3 10] example_counter_full
    = [example_counter_full;
       after_send (env_at 200000) [1; 2; 3] 3 10 example_counter_full] /\
  fcnt (after_send (env_at 200000) [1; 2; 3] 3 10 example_counter_full) = 0 /\
  ~ fcnt_nondecreasing
      (trace [Send (env_at 200000) [1; 2; 3] 3 10] example_counter_full).
Proof.
  split.
  - destruct (fcnt_reachable (Z.to_nat 65535))
      as (us & rs & e & U & R & F & T); [lia | ].
    rewrite Z2Nat.id in F by lia.
    destruct (next_send_possible e R T) as (ms & M & S).
    exists us, rs, e, (env_at ms), (after_send (env_at ms) [] 0 1 e).
    assert (F' : fcnt (after_send (env_at ms) [] 0 1 e) = 0).
    { unfold fcnt, after_send. simpl. fold (fcnt e). rewrite F. reflexivity. }
    repeat split; try assumption.
    unfold fcnt_nondecreasing. simpl. rewrite S. simpl.
    intros [H _]. rewrite F, F' in H. vm_compute in H. apply H. reflexivity.
  - repeat split.
    intros [H _]. vm_compute in H. apply H. reflexivity.
Qed.

(** ** The power-quality grade *)

Lemma Qltb_lt x y : Qltb x y = true <-> (x < y)%Q.
Proof.
  unfold Qltb. rewrite negb_true_iff. split.
  - intros H. apply Qnot_le_lt. intros L.
    apply Qle_bool_iff in L. congruence.
  - intros H. destruct (Qle_bool y x) eqn:L; [ | reflexivity].
    apply Qle_bool_iff in L. Lqa.lra.
Qed.

Lemma Qltb_ge x y : Qltb x y = false <-> (y <= x)%Q.
Proof.
  unfold Qltb. rewrite negb_false_iff. apply Qle_bool_iff.
Qed.

Lemma Qltb_mono_r t x x' : (x <= x')%Q -> Qltb t x = true -> Qltb t x' = true.
Proof. rewrite !Qltb_lt. intros. Lqa.lra. Qed.

Lemma Qltb_mono_l t x x' : (x' <= x)%Q -> Qltb x t = true -> Qltb x' t = true.
Proof. rewrite !Qltb_lt. intros. Lqa.lra. Qed.

(** The two comparisons of the frequency against a band around 50 Hz are one
    comparison of its deviation. *)
Lemma frequency_band d lo hi w :
  (lo == NOMINAL_FREQUENCY - w)%Q -> (hi == NOMINAL_FREQUENCY + w)%Q ->
  Qltb (Electrical.frequency d) lo || Qltb hi (Electrical.frequency d)
  = Qltb w (frequency_deviation d).
Proof.
  intros Hlo Hhi. unfold frequency_deviation, NOMINAL_FREQUENCY in *.
  apply eq_true_iff_eq. rewrite orb_true_iff, !Qltb_lt.
  apply Qabs_case; intros H; split; intros G; Lqa.lra.
Qed.

Lemma above_two x a b :
  above x [a; b] = Electrical.penalty (Qltb a x) + Electrical.penalty (Qltb b x).
Proof.
  unfold above. simpl. destruct (Qltb a x), (Qltb b x); reflexivity.
Qed.

Lemma below_two x a b :
  below x [a; b] = Electrical.penalty (Qltb x a) + Electrical.penalty (Qltb x b).
Proof.
  unfold below. simpl. destruct (Qltb x a), (Qltb x b); reflexivity.
Qed.

(** The code computes the grade of the specification. *)
Lemma grade_is_grade_by_bands d :
  Electrical.calculate_power_quality_grade d = grade_by_bands d.
Proof.
  unfold Electrical.calculate_power_quality_grade, grade_by_bands,
    bands_crossed, WORST_GRADE.
  rewrite (frequency_band d 49.5 50.5 0.5) by (unfold NOMINAL_FREQUENCY; Lqa.lra).
  rewrite (frequency_band d 49 51 1) by (unfold NOMINAL_FREQUENCY; Lqa.lra).
  rewrite !above_two, below_two.
  assert (T : Electrical.penalty
                (Qltb 3 (Electrical.thd_voltage d) || Qltb 3 (Electrical.thd_current d))
              + Electrical.penalty
                  (Qltb 5 (Electrical.thd_voltage d) || Qltb 5 (Electrical.thd_current d))
              = Z.max (Electrical.penalty (Qltb 3 (Electrical.thd_voltage d))
                       + Electrical.penalty (Qltb 5 (Electrical.thd_voltage d)))
                      (Electrical.penalty (Qltb 3 (Electrical.thd_current d))
                       + Electrical.penalty (Qltb 5 (Electrical.thd_current d)))).
  { destruct (Qltb 5 (Electrical.thd_voltage d)) eqn:V5.
    - rewrite (Qltb_mono_r 3 5 (Electrical.thd_voltage d)); simpl.
      + destruct (Qltb 3 (Electrical.thd_current d)),
          (Qltb 5 (Electrical.thd_current d)); reflexivity.
      + apply Qltb_lt in V5. Lqa.lra.
      + reflexivity.
    - destruct (Qltb 5 (Electrical.thd_current d)) eqn:I5.
      + rewrite (Qltb_mono_r 3 5 (Electrical.thd_current d)); simpl.
        * destruct (Qltb 3 (Electrical.thd_voltage d)); reflexivity.
        * apply Qltb_lt in I5. Lqa.lra.
        * reflexivity.
      + destruct (Qltb 3 (Electrical.thd_voltage d)),
          (Qltb 3 (Electrical.thd_current d)); reflexivity. }
  cbv zeta. rewrite Z.add_0_l, <- T.
  match goal with
  | |- (if 5 <? ?g then 5 else ?g) = Z.min 5 ?h =>
      replace h with g by lia; destruct (Z.ltb_spec 5 g); lia
  end.
Qed.

Lemma above_mono x x' thresholds :
  (x <= x')%Q -> above x thresholds <= above x' thresholds.
Proof.
  intros H. unfold above.
  induction thresholds as [ | t rest IH]; simpl; [lia | ].
  destruct (Qltb t x) eqn:C.
  - rewrite (Qltb_mono_r t x x' H C). simpl length. lia.
  - destruct (Qltb t x'); simpl length; lia.
Qed.

Lemma below_mono x x' thresholds :
  (x' <= x)%Q -> below x thresholds <= below x' thresholds.
Proof.
  intros H. unfold below.
  induction thresholds as [ | t rest IH]; simpl; [lia | ].
  destruct (Qltb x t) eqn:C.
  - rewrite (Qltb_mono_l t x x' H C). simpl length. lia.
  - destruct (Qltb x' t); simpl length; lia.
Qed.

Lemma above_nonneg x thresholds : 0 <= above x thresholds.
Proof. unfold above. lia. Qed.

Lemma below_nonneg x thresholds : 0 <= below x thresholds.
Proof. unfold below. lia. Qed.

(** C7 (monotone, capped grade).  The grade computed by
    [calculate_power_quality_grade] is the best grade stepped down once per
    threshold band crossed, capped at the worst grade 5; so it lies between
    0 and 5, and a measurement whose distortion on either channel is no
    smaller, whose power factor is no larger and whose frequency is no closer
    to the nominal 50 Hz gets a grade value that is no smaller. *)
Theorem C7_grade_monotone_and_capped d d' :
  (Electrical.thd_voltage d <= Electrical.thd_voltage d')%Q ->
  (Electrical.thd_current d <= Electrical.thd_current d')%Q ->
  (Electrical.power_factor d' <= Electrical.power_factor d)%Q ->
  (frequency_deviation d <= frequency_deviation d')%Q ->
  Electrical.calculate_power_quality_grade d
    <= Electrical.calculate_power_quality_grade d' /\
  0 <= Electrical.calculate_power_quality_grade d' <= WORST_GRADE /\
  Electrical.calculate_power_quality_grade d'
    = Z.min WORST_GRADE (bands_crossed d').
Proof.
  intros V I P F.
  rewrite !grade_is_grade_by_bands. unfold grade_by_bands.
  assert (M : bands_crossed d <= bands_crossed d').
  { unfold bands_crossed.
    pose proof (above_mono _ _ [3; 5]%Q V).
    pose proof (above_mono _ _ [3; 5]%Q I).
    pose proof (below_mono _ _ [0.95; 0.85]%Q P).
    pose proof (above_mono _ _ [0.5; 1]%Q F).
    lia. }
  assert (N : 0 <= bands_crossed d').
  { unfold bands_crossed.
    pose proof (above_nonneg (Electrical.thd_voltage d') [3; 5]%Q).
    pose proof (below_nonneg (Electrical.power_factor d') [0.95; 0.85]%Q).
    pose proof (above_nonneg (frequency_deviation d') [0.5; 1]%Q).
    lia. }
  unfold WORST_GRADE. repeat split; lia.
Qed.

Lemma C7_grade_monotone_and_capped_witness :
  (Electrical.thd_voltage example_clean <= Electrical.thd_voltage example_dirty)%Q /\
  (Electrical.thd_current example_clean <= Electrical.thd_current example_dirty)%Q /\
  (Electrical.power_factor example_dirty <= Electrical.power_factor example_clean)%Q /\
  (frequency_deviation example_clean <= frequency_deviation example_dirty)%Q /\
  Electrical.calculate_power_quality_grade example_clean
    <= Electrical.calculate_power_quality_grade example_dirty /\
  0 <= Electrical.calculate_power_quality_grade example_dirty <= WORST_GRADE /\
  Electrical.calculate_power_quality_grade example_dirty
    = Z.min WORST_GRADE (bands_crossed example_dirty).
Proof.
  assert (V : (Electrical.thd_voltage example_clean
               <= Electrical.thd_voltage example_dirty)%Q)
    by (vm_compute; discriminate).
  assert (I : (Electrical.thd_current example_clean
               <= Electrical.thd_current example_dirty)%Q)
    by (vm_compute; discriminate).
  assert (P : (Electrical.power_factor example_dirty
               <= Electrical.power_factor example_clean)%Q)
    by (vm_compute; discriminate).
  assert (F : (frequency_deviation example_clean
               <= frequency_deviation example_dirty)%Q)
    by (vm_compute; discriminate).
  split; [exact V | split; [exact I | split; [exact P | split; [exact F | ]]]].
  exact (C7_grade_monotone_and_capped example_clean example_dirty V I P F).
Defined.

(** ** The leak-detection task *)



Lemma trend_below_three history index :
  index < 3 -> Water.pressure_trend_of history index = 0%Q.
Proof.
  intros H. unfold Water.pressure_trend_of.
  apply Z.leb_gt in H. rewrite H. reflexivity.
Qed.



Lemma next_index_small i :
  (i + 1) mod 10 < 3 -> u8 ((i + 1) mod 10) < 3.
Proof.
  intros H. unfold u8.
  pose proof (Z.mod_pos_bound (i + 1) 10 ltac:(lia)).
  rewrite Z.mod_small; lia.
Qed.

Lemma leak_step_quiet env s :
  Water.mutex_taken env = true ->
  Qltb (leak_trend_after env s) (- Water.leak_threshold (Water.config s)) = false ->
  Water.vLeakDetectionTask_step env s =
    Some (Water.mk_leak_state
            (Water.store (Water.pressure_history s)
                         (Z.to_nat (Water.pressure_index s))
                         (Water.current_pressure env))
            (u8 ((Water.pressure_index s + 1) mod 10))
            0 (Water.config s)
            (if negb (Water.leak_alert s =? 0)
             then Water.xQueueSend 3 (Water.xLeakAlertQueue s) (Water.leak_alert s)
             else Water.xLeakAlertQueue s)
            (Water.engine_of s),
          Water.mk_leak_report (leak_trend_after env s) None).
Proof.
  intros M D. unfold Water.vLeakDetectionTask_step. rewrite M. simpl negb.
  cbv iota. fold (leak_trend_after env s). rewrite D. reflexivity.
Qed.

Lemma leak_step_no_mutex env s :
  Water.mutex_taken env = false ->
  Water.vLeakDetectionTask_step env s = Some (s, Water.mk_leak_report 0 None).
Proof.
  intros M. unfold Water.vLeakDetectionTask_step. rewrite M. reflexivity.
Qed.



(** No turn of the task writes the threshold: it stays the configured
    0.5 bar. *)
Lemma leak_threshold_kept env s s' rep :
  Water.vLeakDetectionTask_step env s = Some (s', rep) ->
  Water.leak_threshold (Water.config s') = Water.leak_threshold (Water.config s).
Proof.
  unfold Water.vLeakDetectionTask_step.
  destruct (negb (Water.mutex_taken env)); [intros H; inversion H; reflexivity | ].
  destruct (Qltb _ _).
  - destruct (lorawan_send _ _ _ _ _) as [[r e'] | ]; intros H; inversion H.
    reflexivity.
  - intros H; inversion H. reflexivity.
Qed.

Lemma leak_threshold_configured envs :
  forall s s' reps,
    Water.leak_run envs s = Some (s', reps) ->
    Water.leak_threshold (Water.config s') = Water.leak_threshold (Water.config s).
Proof.
  induction envs as [ | env rest IH]; intros s s' reps H; simpl in H.
  - inversion H. reflexivity.
  - destruct (Water.vLeakDetectionTask_step env s) as [[s1 r] | ] eqn:S;
      [ | discriminate H].
    destruct (Water.leak_run rest s1) as [[s2 rs] | ] eqn:R; [ | discriminate H].
    inversion H; subst.
    rewrite (IH _ _ _ R). exact (leak_threshold_kept _ _ _ _ S).
Qed.

(** C10 (blind turns of the trend).  The trend is computed only when the
    advanced index is at least 3.  In a turn that leaves the index at 0, 1 or
    2, the turn that wraps the ten-cell buffer around included, the trend is
    0.0 whatever the readings are; with a threshold that is not negative, as
    the configured 0.5, the turn raises no emergency: it returns without
    calling the engine. *)
Theorem C10_no_trend_below_index_three env s :
  (0 <= Water.leak_threshold (Water.config s))%Q ->
  (Water.pressure_index s + 1) mod 10 < 3 ->
  leak_trend_after env s = 0%Q /\
  exists s',
    Water.vLeakDetectionTask_step env s
      = Some (s', Water.mk_leak_report 0 None) /\
    Water.engine_of s' = Water.engine_of s.
Proof.
  intros T B.
  assert (Z0 : leak_trend_after env s = 0%Q).
  { unfold leak_trend_after. apply trend_below_three.
    apply next_index_small. exact B. }
  split; [exact Z0 | ].
  destruct (Water.mutex_taken env) eqn:M.
  - rewrite (leak_step_quiet env s M).
    + rewrite Z0. eexists. split; reflexivity.
    + rewrite Z0. apply Qltb_ge. Lqa.lra.
  - rewrite (leak_step_no_mutex env s M). eexists. split; reflexivity.
Qed.

Lemma C10_no_trend_below_index_three_witness :
  (0 <= Water.leak_threshold (Water.config example_before_wrap))%Q /\
  (Water.pressure_index example_before_wrap + 1) mod 10 < 3 /\
  leak_trend_after (leak_env_reading 1 1000 (env_at 200000)) example_before_wrap
    = 0%Q /\
  exists s',
    Water.vLeakDetectionTask_step (leak_env_reading 1 1000 (env_at 200000))
                                  example_before_wrap
      = Some (s', Water.mk_leak_report 0 None) /\
    Water.engine_of s' = Water.engine_of example_before_wrap.
Proof.
  assert (T : (0 <= Water.leak_threshold (Water.config example_before_wrap))%Q)
    by (vm_compute; discriminate).
  assert (B : (Water.pressure_index example_before_wrap + 1) mod 10 < 3)
    by reflexivity.
  split; [exact T | split; [exact B | ]].
  exact (C10_no_trend_below_index_three
           (leak_env_reading 1 1000 (env_at 200000)) example_before_wrap T B).
Defined.

(** ** The power factor *)

Local Open Scope R_scope.

Lemma apparent_power_ge_abs a r : Rabs a <= Electrical.apparent_power a r.
Proof.
  unfold Electrical.apparent_power.
  rewrite <- (sqrt_Rsqr_abs a). unfold Rsqr.
  apply sqrt_le_1_alt.
  pose proof (Rle_0_sqr r) as H. unfold Rsqr in H. Lra.lra.
Qed.

(** At or below 0.1 VA of apparent power the power factor is the constant
    1.0. *)
Lemma power_factor_saturates a r :
  Electrical.apparent_power a r <= 1 / 10 ->
  Electrical.power_factor_of a r = 1.
Proof.
  intros H. unfold Electrical.power_factor_of.
  destruct (Rgt_dec (Electrical.apparent_power a r) (1 / 10)) as [G | G].
  - Lra.lra.
  - reflexivity.
Qed.

(** The power factor never leaves [-1, 1]. *)
Lemma power_factor_within_unit a r :
  -1 <= Electrical.power_factor_of a r <= 1.
Proof.
  unfold Electrical.power_factor_of.
  destruct (Rgt_dec (Electrical.apparent_power a r) (1 / 10)) as [G | G];
    [ | Lra.lra].
  pose proof (apparent_power_ge_abs a r) as B.
  set (p := Electrical.apparent_power a r) in *.
  assert (P : 0 < p) by Lra.lra.
  assert (A : - p <= a <= p).
  { split.
    - pose proof (Rle_abs (- a)) as H. rewrite Rabs_Ropp in H. Lra.lra.
    - pose proof (Rle_abs a) as H. Lra.lra. }
  assert (I : 0 < / p) by (apply Rinv_0_lt_compat; exact P).
  assert (U : p * / p = 1) by (apply Rinv_r; Lra.lra).
  unfold Rdiv. split.
  - replace (-1) with (- p * / p) by Lra.lra.
    apply Rmult_le_compat_r; Lra.lra.
  - rewrite <- U. apply Rmult_le_compat_r; Lra.lra.
Qed.

(** With an active power that is not negative it stays in [0, 1]. *)
Lemma power_factor_of_nonneg_active a r :
  0 <= a -> 0 <= Electrical.power_factor_of a r <= 1.
Proof.
  intros N. split; [ | apply power_factor_within_unit].
  unfold Electrical.power_factor_of.
  destruct (Rgt_dec (Electrical.apparent_power a r) (1 / 10)) as [G | G];
    [ | Lra.lra].
  unfold Rdiv. apply Rmult_le_pos; [exact N | ].
  apply Rlt_le, Rinv_0_lt_compat. Lra.lra.
Qed.

(** C6 at an active power of -100 W with no reactive power, as a load that
    feeds power back or a reversed current clamp gives it: the apparent power
    is 100 VA, above 0.1, and the power factor computed is -1.0, outside
    [0.0, 1.0]. *)
Theorem C6_power_factor_of_reverse_flow :
  Electrical.apparent_power (-100) 0 = 100 /\
  Electrical.power_factor_of (-100) 0 = -1 /\
  ~ (0 <= Electrical.power_factor_of (-100) 0 <= 1).
Proof.
  assert (A : Electrical.apparent_power (-100) 0 = 100).
  { unfold Electrical.apparent_power.
    replace (-100 * -100 + 0 * 0) with (100 * 100) by Lra.lra.
    apply sqrt_square. Lra.lra. }
  assert (P : Electrical.power_factor_of (-100) 0 = -1).
  { unfold Electrical.power_factor_of. rewrite A.
    destruct (Rgt_dec 100 (1 / 10)) as [G | G]; Lra.lra. }
  split; [exact A | split; [exact P | ]].
  rewrite P. Lra.lra.
Qed.

Local Close Scope R_scope.

(** * Further properties of the firmware *)

(** ** Bytes and words *)

Lemma byte_of_mod x k :
  0 <= k -> byte_of x k = (x / 2 ^ (8 * k)) mod 256.
Proof.
  intros H. unfold byte_of.
  rewrite Z.shiftr_div_pow2 by lia.
  change 255 with (Z.ones 8). rewrite Z.land_ones by lia. reflexivity.
Qed.

Lemma byte_of_is_byte x k : 0 <= k -> is_byte (byte_of x k).
Proof.
  intros H. rewrite byte_of_mod by exact H.
  unfold is_byte. apply Z.mod_pos_bound. lia.
Qed.

Lemma le16_byte_of x :
  0 <= x < 65536 -> le16 (byte_of x 0) (byte_of x 1) = x.
Proof.
  intros H. unfold le16. rewrite !byte_of_mod by lia.
  change (2 ^ (8 * 0)) with 1. change (2 ^ (8 * 1)) with 256.
  rewrite Z.div_1_r.
  rewrite (Z.mod_small (x / 256) 256)
    by (split; [apply Z.div_pos; lia | apply Z.div_lt_upper_bound; lia]).
  pose proof (Z.div_mod x 256 ltac:(lia)). lia.
Qed.

Lemma le32_byte_of x :
  0 <= x < 4294967296 ->
  le32 (byte_of x 0) (byte_of x 1) (byte_of x 2) (byte_of x 3) = x.
Proof.
  intros H. unfold le32. rewrite !byte_of_mod by lia.
  change (2 ^ (8 * 0)) with 1. change (2 ^ (8 * 1)) with 256.
  change (2 ^ (8 * 2)) with 65536. change (2 ^ (8 * 3)) with 16777216.
  rewrite Z.div_1_r.
  Z.div_mod_to_equations. lia.
Qed.

Lemma be32_byte_of x :
  0 <= x < 4294967296 ->
  be32 (byte_of x 3) (byte_of x 2) (byte_of x 1) (byte_of x 0) = x.
Proof.
  intros H. rewrite <- (le32_byte_of x H) at 5. unfold be32, le32. lia.
Qed.

Lemma byte_of_le32 b0 b1 b2 b3 :
  is_byte b0 -> is_byte b1 -> is_byte b2 -> is_byte b3 ->
  byte_of (le32 b0 b1 b2 b3) 0 = b0 /\
  byte_of (le32 b0 b1 b2 b3) 1 = b1 /\
  byte_of (le32 b0 b1 b2 b3) 2 = b2 /\
  byte_of (le32 b0 b1 b2 b3) 3 = b3.
Proof.
  unfold is_byte, le32. intros H0 H1 H2 H3.
  rewrite !byte_of_mod by lia.
  change (2 ^ (8 * 0)) with 1. change (2 ^ (8 * 1)) with 256.
  change (2 ^ (8 * 2)) with 65536. change (2 ^ (8 * 3)) with 16777216.
  rewrite Z.div_1_r.
  repeat split; Z.div_mod_to_equations; lia.
Qed.

(** Bytes put side by side with shifts and ors make the little-endian
    word. *)
Lemma land_low_shifted a c n :
  0 <= n -> 0 <= a < 2 ^ n -> Z.land a (Z.shiftl c n) = 0.
Proof.
  intros Hn Ha. apply Z.bits_inj'. intros i Hi.
  rewrite Z.land_spec, Z.bits_0.
  destruct (Z.ltb_spec i n).
  - rewrite Z.shiftl_spec_low by lia. apply andb_false_r.
  - destruct (Z.eq_dec a 0) as [-> | N]; [rewrite Z.bits_0; reflexivity | ].
    assert (L : Z.log2 a < i).
    { apply Z.lt_le_trans with n; [ | lia].
      apply Z.log2_lt_pow2; lia. }
    rewrite (Z.bits_above_log2 a i) by lia. reflexivity.
Qed.

Lemma lor_low_shifted a c n :
  0 <= n -> 0 <= a < 2 ^ n -> Z.lor a (Z.shiftl c n) = a + c * 2 ^ n.
Proof.
  intros Hn Ha.
  rewrite <- Z.lxor_lor by (apply land_low_shifted; assumption).
  rewrite <- Z.add_nocarry_lxor by (apply land_low_shifted; assumption).
  rewrite Z.shiftl_mul_pow2 by lia. reflexivity.
Qed.

Lemma lor_bytes_le32 b0 b1 b2 b3 :
  is_byte b0 -> is_byte b1 -> is_byte b2 -> is_byte b3 ->
  u32 (Z.lor (Z.lor (Z.shiftl b0 0) (Z.shiftl b1 8))
             (Z.lor (Z.shiftl b2 16) (Z.shiftl b3 24)))
  = le32 b0 b1 b2 b3.
Proof.
  unfold is_byte. intros H0 H1 H2 H3.
  rewrite Z.shiftl_0_r.
  rewrite (lor_low_shifted b0 b1 8) by lia.
  replace (Z.shiftl b2 16) with (Z.shiftl b2 16 + 0) by lia.
  assert (E : Z.lor (Z.shiftl b2 16) (Z.shiftl b3 24)
              = Z.shiftl (Z.lor b2 (Z.shiftl b3 8)) 16).
  { rewrite Z.shiftl_lor, Z.shiftl_shiftl by lia. reflexivity. }
  rewrite Z.add_0_r, E.
  rewrite (lor_low_shifted b2 b3 8) by lia.
  rewrite (lor_low_shifted (b0 + b1 * 2 ^ 8) (b2 + b3 * 2 ^ 8) 16) by lia.
  unfold u32, le32. rewrite Z.mod_small; lia.
Qed.

Lemma lxor_bytes a b : is_byte a -> is_byte b -> is_byte (Z.lxor a b).
Proof.
  unfold is_byte. intros Ha Hb. split.
  - apply Z.lxor_nonneg. lia.
  - destruct (Z.eq_dec (Z.lxor a b) 0) as [-> | N]; [lia | ].
    change 256 with (2 ^ 8). apply Z.log2_lt_pow2.
    + assert (0 <= Z.lxor a b) by (apply Z.lxor_nonneg; lia). lia.
    + apply Z.le_lt_trans with (Z.max (Z.log2 a) (Z.log2 b)).
      * apply Z.log2_lxor; lia.
      * apply Z.max_lub_lt.
        -- destruct (Z.eq_dec a 0) as [-> | ]; [simpl; lia | ].
           apply Z.log2_lt_pow2; simpl; lia.
        -- destruct (Z.eq_dec b 0) as [-> | ]; [simpl; lia | ].
           apply Z.log2_lt_pow2; simpl; lia.
Qed.

Lemma u8_byte b : is_byte b -> u8 b = b.
Proof. unfold is_byte, u8. intros H. apply Z.mod_small. exact H. Qed.

Lemma nth_is_byte l i : bytes l -> is_byte (nth i l 0).
Proof.
  intros H. revert i. induction H as [ | b l Hb _ IH]; intros i.
  - destruct i; unfold is_byte; simpl; lia.
  - destruct i; simpl; [exact Hb | apply IH].
Qed.

(** ** Uplink frames read back *)

Lemma encrypt_payload_length skey data len :
  length (encrypt_payload skey data len) = Z.to_nat len.
Proof. unfold encrypt_payload. rewrite length_map, length_seq. reflexivity. Qed.

Lemma build_frame_dev_addr s data len port :
  0 <= dev_addr s < 4294967296 ->
  frame_dev_addr (build_frame s data len port) = dev_addr s.
Proof. intros A. apply (le32_byte_of _ A). Qed.

(** X1 (frame layout).  A data frame is 13 bytes longer than its payload and,
    for the payloads [lorawan_send] lets through, fits the 256-byte buffer and
    the 8-bit length; a receiver reads back the device address, the frame
    counter and the port from their positions, finds the payload between the
    port and the last four bytes, and those four bytes are the fixed code
    0x12345678. *)
Theorem frame_fields_read_back s data len port :
  0 <= dev_addr s < 4294967296 ->
  0 <= fcnt_up s < 65536 ->
  0 <= len <= 242 ->
  Z.of_nat (length (build_frame s data len port)) = 13 + len /\
  Z.of_nat (length (build_frame s data len port)) <= 255 /\
  nth 0 (build_frame s data len port) 0 = 0x40 /\
  frame_dev_addr (build_frame s data len port) = dev_addr s /\
  frame_fcnt (build_frame s data len port) = fcnt_up s /\
  frame_port (build_frame s data len port) = port /\
  frame_payload (build_frame s data len port)
    = encrypt_payload (app_skey s) data len /\
  frame_mic (build_frame s data len port) = [0x78; 0x56; 0x34; 0x12].
Proof.
  intros A F L.
  assert (N : length (build_frame s data len port) = (13 + Z.to_nat len)%nat).
  { unfold build_frame. rewrite !length_app, encrypt_payload_length.
    simpl length. lia. }
  split; [rewrite N; lia | ].
  split; [rewrite N; lia | ].
  split; [reflexivity | ].
  split; [apply build_frame_dev_addr; exact A | ].
  split; [apply (le16_byte_of _ F) | ].
  split; [reflexivity | ].
  split.
  - unfold frame_payload. rewrite N.
    replace (13 + Z.to_nat len - 13)%nat with (Z.to_nat len) by lia.
    unfold build_frame. cbn [app skipn].
    rewrite <- (encrypt_payload_length (app_skey s) data len) at 1.
    rewrite firstn_app, Nat.sub_diag, firstn_all. simpl. apply app_nil_r.
  - unfold frame_mic. rewrite N.
    replace (13 + Z.to_nat len - 4)%nat with (9 + Z.to_nat len)%nat by lia.
    unfold build_frame. cbn [app].
    rewrite <- (encrypt_payload_length (app_skey s) data len).
    change (skipn (9 + ?n) (?a :: ?b :: ?c :: ?d :: ?e :: ?f :: ?g :: ?h :: ?i :: ?l))
      with (skipn n l).
    rewrite skipn_app, Nat.sub_diag, skipn_all. reflexivity.
Qed.

Lemma frame_fields_read_back_witness :
  0 <= dev_addr (session example_joined) < 4294967296 /\
  0 <= fcnt_up (session example_joined) < 65536 /\
  0 <= 3 <= 242 /\
  Z.of_nat (length (build_frame (session example_joined) [1; 2; 3] 3 10)) = 16 /\
  frame_dev_addr (build_frame (session example_joined) [1; 2; 3] 3 10)
    = 0x26011234 /\
  frame_fcnt (build_frame (session example_joined) [1; 2; 3] 3 10) = 0.
Proof.
  assert (A : 0 <= dev_addr (session example_joined) < 4294967296)
    by (vm_compute; split; [discriminate | reflexivity]).
  assert (F : 0 <= fcnt_up (session example_joined) < 65536)
    by (vm_compute; split; [discriminate | reflexivity]).
  assert (L : 0 <= 3 <= 242) by lia.
  split; [exact A | split; [exact F | split; [exact L | ]]].
  destruct (frame_fields_read_back (session example_joined) [1; 2; 3] 3 10 A F L)
    as (H1 & _ & _ & H2 & H3 & _).
  split; [exact H1 | split; [exact H2 | exact H3]].
Defined.

Lemma nth_map_seq {A : Type} (f : nat -> A) n i d :
  (i < n)%nat -> nth i (map f (seq 0 n)) d = f i.
Proof.
  intros H.
  rewrite (nth_indep _ d (f 0%nat)) by (rewrite length_map, length_seq; exact H).
  rewrite map_nth, seq_nth by exact H. reflexivity.
Qed.

(** X2 (payload transformation).  The byte-wise exclusive-or with the
    application session key that [lorawan_send] applies to the payload is its
    own inverse: applied again with the same key it gives the payload
    back. *)
Theorem payload_xor_is_an_involution skey data :
  bytes skey -> bytes data ->
  encrypt_payload skey
    (encrypt_payload skey data (Z.of_nat (length data)))
    (Z.of_nat (length data))
  = data.
Proof.
  intros K D.
  apply nth_ext with (d := 0) (d' := 0).
  - rewrite encrypt_payload_length. lia.
  - intros i Hi. rewrite encrypt_payload_length, Nat2Z.id in Hi.
    unfold encrypt_payload. rewrite !Nat2Z.id.
    rewrite nth_map_seq by exact Hi.
    rewrite nth_map_seq by exact Hi.
    pose proof (nth_is_byte data i D) as Bd.
    pose proof (nth_is_byte skey (i mod 16) K) as Bk.
    rewrite (u8_byte (Z.lxor (nth i data 0) _)) by (apply lxor_bytes; assumption).
    rewrite Z.lxor_assoc, Z.lxor_nilpotent, Z.lxor_0_r.
    apply u8_byte. exact Bd.
Qed.

Lemma payload_xor_is_an_involution_witness :
  bytes (app_skey (session example_joined)) /\
  bytes [0xFF; 0x01; 0x05; 0xAA] /\
  encrypt_payload (app_skey (session example_joined))
    (encrypt_payload (app_skey (session example_joined))
                     [0xFF; 0x01; 0x05; 0xAA] 4) 4
  = [0xFF; 0x01; 0x05; 0xAA].
Proof.
  assert (K : bytes (app_skey (session example_joined))).
  { vm_compute. repeat constructor; discriminate. }
  assert (D : bytes [0xFF; 0x01; 0x05; 0xAA]).
  { repeat constructor; discriminate. }
  split; [exact K | split; [exact D | ]].
  exact (payload_xor_is_an_involution _ _ K D).
Defined.

(** ** Join *)

Lemma process_join_accept_short rx e :
  (length rx < 17)%nat -> lorawan_process_join_accept rx e = (LORAWAN_ERROR_JOIN, e).
Proof.
  intros H. unfold lorawan_process_join_accept.
  assert (C : (Z.of_nat (length rx) <? 17) = true) by (apply Z.ltb_lt; lia).
  rewrite C. reflexivity.
Qed.

Lemma process_join_accept_long rx e :
  (17 <= length rx)%nat ->
  exists e1,
    lorawan_process_join_accept rx e = (LORAWAN_SUCCESS, e1) /\
    dev_addr (session e1)
      = u32 (Z.lor (Z.lor (Z.shiftl (nth 4 rx 0) 0) (Z.shiftl (nth 5 rx 0) 8))
                   (Z.lor (Z.shiftl (nth 6 rx 0) 16) (Z.shiftl (nth 7 rx 0) 24))) /\
    nwk_skey (session e1)
      = nwk_skey (lorawan_generate_keys (credentials e) zero_session) /\
    app_skey (session e1)
      = app_skey (lorawan_generate_keys (credentials e) zero_session) /\
    fcnt_up (session e1) = 0 /\ fcnt_down (session e1) = 0 /\
    joined (session e1) = joined (session e) /\
    credentials e1 = credentials e /\
    last_tx_timestamp e1 = last_tx_timestamp e /\
    radio e1 = radio e.
Proof.
  intros H. unfold lorawan_process_join_accept.
  assert (C : (Z.of_nat (length rx) <? 17) = false) by (apply Z.ltb_ge; lia).
  rewrite C. eexists. split; [reflexivity | ]. repeat split.
Qed.

(** What the wait loop of [lorawan_join] does with its polls. *)
Lemma join_wait_cases timeout polls :
  forall e r e',
    join_wait timeout polls e = Some (r, e') ->
    exists quiet p rest,
      polls = quiet ++ p :: rest /\
      Forall (fun q => in_window timeout q /\ no_accept q) quiet /\
      ((r = LORAWAN_ERROR_JOIN /\
        timeout <= lorawan_get_timestamp (poll_counter p) /\
        e' = with_state LORAWAN_STATE_IDLE e)
       \/
       (r = LORAWAN_SUCCESS /\
        in_window timeout p /\ rx_done p = true /\
        (17 <= length (rx_frame p))%nat /\
        exists e1,
          lorawan_process_join_accept (rx_frame p) e = (LORAWAN_SUCCESS, e1) /\
          e' = with_state LORAWAN_STATE_JOINED
                 (with_session (set_joined true (session e1)) e1))).
Proof.
  induction polls as [ | p rest IH]; intros e r e' H; simpl in H.
  - discriminate H.
  - destruct (Z.ltb_spec (lorawan_get_timestamp (poll_counter p)) timeout)
      as [W | W].
    + destruct (rx_done p) eqn:D.
      * destruct (Nat.lt_ge_cases (length (rx_frame p)) 17) as [S | S].
        -- rewrite (process_join_accept_short _ e S) in H.
           destruct (IH _ _ _ H) as (quiet & p' & rest' & -> & Q & C).
           exists (p :: quiet), p', rest'. split; [reflexivity | ].
           split; [ | exact C].
           constructor; [ | exact Q]. split; [exact W | right; exact S].
        -- destruct (process_join_accept_long _ e S) as (e1 & P & _).
           rewrite P in H. inversion H; subst.
           exists [], p, rest. split; [reflexivity | ]. split; [constructor | ].
           right. repeat split; try assumption.
           exists e1. split; [exact P | reflexivity].
      * destruct (IH _ _ _ H) as (quiet & p' & rest' & -> & Q & C).
        exists (p :: quiet), p', rest'. split; [reflexivity | ].
        split; [ | exact C].
        constructor; [ | exact Q]. split; [exact W | left; exact D].
    + inversion H; subst.
      exists [], p, rest. split; [reflexivity | ]. split; [constructor | ].
      left. repeat split. exact W.
Qed.

Lemma join_wait_quiet timeout quiet :
  forall p rest e,
    Forall (fun q => in_window timeout q /\ no_accept q) quiet ->
    join_wait timeout (quiet ++ p :: rest) e = join_wait timeout (p :: rest) e.
Proof.
  induction quiet as [ | q quiet IH]; intros p rest e Q; [reflexivity | ].
  inversion Q as [ | q' l' [W N] Q']; subst.
  simpl app. simpl join_wait at 1.
  unfold in_window in W. apply Z.ltb_lt in W. rewrite W.
  destruct N as [N | N].
  - rewrite N. apply IH. exact Q'.
  - rewrite (process_join_accept_short _ e N).
    destruct (rx_done q); apply IH; exact Q'.
Qed.

Lemma join_into_wait env e :
  lorawan_state e = LORAWAN_STATE_IDLE ->
  Radio.wait_tx_done (request_tx_done env) <> None ->
  lorawan_join env e =
    join_wait (join_timeout env) (join_polls env)
      (with_state LORAWAN_STATE_JOINING
         (with_radio
            (Radio.sx1262_receive_continuous
               (Radio.sx1262_send (join_request_frame (credentials e)) (radio e)))
            e)).
Proof.
  intros S W. unfold lorawan_join, lorawan_send_join_request. rewrite S.
  simpl negb. cbv iota.
  destruct (Radio.wait_tx_done (request_tx_done env)); [reflexivity | contradiction].
Qed.

Lemma join_returns_inv env e r e' :
  lorawan_join env e = Some (r, e') ->
  (r = LORAWAN_ERROR_BUSY /\ e' = e /\ lorawan_state e <> LORAWAN_STATE_IDLE)
  \/
  (lorawan_state e = LORAWAN_STATE_IDLE /\
   Radio.wait_tx_done (request_tx_done env) <> None /\
   join_wait (join_timeout env) (join_polls env)
     (with_state LORAWAN_STATE_JOINING
        (with_radio
           (Radio.sx1262_receive_continuous
              (Radio.sx1262_send (join_request_frame (credentials e)) (radio e)))
           e)) = Some (r, e')).
Proof.
  intros H.
  destruct (state_eqb (lorawan_state e) LORAWAN_STATE_IDLE) eqn:S.
  - apply state_eqb_eq in S. right.
    destruct (Radio.wait_tx_done (request_tx_done env)) eqn:W.
    + rewrite join_into_wait in H; [ | exact S | rewrite W; discriminate].
      split; [exact S | split; [discriminate | exact H]].
    + unfold lorawan_join, lorawan_send_join_request in H.
      rewrite S, W in H. discriminate H.
  - left. unfold lorawan_join in H. rewrite S in H. simpl in H.
    inversion H; subst. repeat split.
    intros E. apply state_eqb_eq in E. congruence.
Qed.

Lemma join_timeout_plain env : join_timeout env = join_start env + 5000.
Proof.
  unfold join_timeout, join_start, u32.
  pose proof (timestamp_range (join_counter env)).
  apply Z.mod_small. lia.
Qed.

(** X3 (join-accept).  A join that succeeds took its accept from the first
    turn of the wait loop at which the radio had received at least 17 bytes;
    at that turn, and at every earlier one, which brought nothing usable, the
    clock read less than its reading at the start of the wait plus 5000.
    That is within 5000 ms of the start as long as the clock has not started
    again in between, its reading being no lower than at the start.  The
    device address of the session is bytes 4 to 7 of that frame, least
    significant first, and it is the address every data frame of the session
    carries; both frame counters are 0 and the time of the last transmission
    is not touched. *)
Theorem join_accept_is_first_usable_frame env e e' :
  lorawan_join env e = Some (LORAWAN_SUCCESS, e') ->
  exists quiet p rest,
    join_polls env = quiet ++ p :: rest /\
    Forall (fun q => lorawan_get_timestamp (poll_counter q) < join_start env + 5000
                     /\ no_accept q) quiet /\
    lorawan_get_timestamp (poll_counter p) < join_start env + 5000 /\
    (join_start env <= lorawan_get_timestamp (poll_counter p) ->
     0 <= lorawan_get_timestamp (poll_counter p) - join_start env < 5000) /\
    rx_done p = true /\
    (17 <= length (rx_frame p))%nat /\
    (bytes (rx_frame p) ->
     dev_addr (session e')
       = le32 (nth 4 (rx_frame p) 0) (nth 5 (rx_frame p) 0)
              (nth 6 (rx_frame p) 0) (nth 7 (rx_frame p) 0) /\
     forall data len port,
       0 <= len <= 242 ->
       frame_dev_addr (build_frame (session e') data len port)
         = dev_addr (session e')) /\
    fcnt_up (session e') = 0 /\ fcnt_down (session e') = 0 /\
    last_tx_timestamp e' = last_tx_timestamp e.
Proof.
  intros H.
  destruct (join_returns_inv _ _ _ _ H) as [(B & _) | (S & W & J)];
    [discriminate B | ].
  destruct (join_wait_cases _ _ _ _ _ J)
    as (quiet & p & rest & P & Q & [(B & _) | (_ & Wp & D & L & e1 & A & ->)]);
    [discriminate B | ].
  exists quiet, p, rest.
  destruct (process_join_accept_long (rx_frame p)
              (with_state LORAWAN_STATE_JOINING
                 (with_radio
                    (Radio.sx1262_receive_continuous
                       (Radio.sx1262_send (join_request_frame (credentials e))
                                          (radio e))) e)) L)
    as (e1' & A' & Ad & _ & _ & Fu & Fd & _ & _ & T & _).
  rewrite A in A'. inversion A'; subst e1'.
  unfold in_window in Wp, Q. rewrite join_timeout_plain in Wp, Q.
  split; [exact P | split; [exact Q | split; [exact Wp | ]]].
  split; [intros G; lia | ].
  split; [exact D | split; [exact L | ]].
  split; [ | repeat split; assumption].
  intros B.
  assert (E : dev_addr (session e1)
              = le32 (nth 4 (rx_frame p) 0) (nth 5 (rx_frame p) 0)
                     (nth 6 (rx_frame p) 0) (nth 7 (rx_frame p) 0)).
  { rewrite Ad. apply lor_bytes_le32; apply nth_is_byte; exact B. }
  split; [exact E | ].
  intros data len port Hl.
  apply build_frame_dev_addr.
  simpl. rewrite E. unfold le32.
  pose proof (nth_is_byte (rx_frame p) 4 B).
  pose proof (nth_is_byte (rx_frame p) 5 B).
  pose proof (nth_is_byte (rx_frame p) 6 B).
  pose proof (nth_is_byte (rx_frame p) 7 B).
  unfold is_byte in *. lia.
Qed.

Lemma join_accept_is_first_usable_frame_witness :
  lorawan_join example_join_env (snd (lorawan_init true power_on))
    = Some (LORAWAN_SUCCESS, example_joined) /\
  exists quiet p rest,
    join_polls example_join_env = quiet ++ p :: rest /\
    Forall (fun q => lorawan_get_timestamp (poll_counter q)
                       < join_start example_join_env + 5000
                     /\ no_accept q) quiet /\
    lorawan_get_timestamp (poll_counter p)
      < join_start example_join_env + 5000 /\
    (join_start example_join_env <= lorawan_get_timestamp (poll_counter p) ->
     0 <= lorawan_get_timestamp (poll_counter p) - join_start example_join_env
       < 5000) /\
    rx_done p = true /\
    (17 <= length (rx_frame p))%nat /\
    (bytes (rx_frame p) ->
     dev_addr (session example_joined)
       = le32 (nth 4 (rx_frame p) 0) (nth 5 (rx_frame p) 0)
              (nth 6 (rx_frame p) 0) (nth 7 (rx_frame p) 0) /\
     forall data len port,
       0 <= len <= 242 ->
       frame_dev_addr (build_frame (session example_joined) data len port)
         = dev_addr (session example_joined)) /\
    fcnt_up (session example_joined) = 0 /\
    fcnt_down (session example_joined) = 0 /\
    last_tx_timestamp example_joined
      = last_tx_timestamp (snd (lorawan_init true power_on)).
Proof.
  assert (J : lorawan_join example_join_env (snd (lorawan_init true power_on))
              = Some (LORAWAN_SUCCESS, example_joined)) by reflexivity.
  split; [exact J | ].
  exact (join_accept_is_first_usable_frame _ _ _ J).
Defined.

(** X4 (join time-out).  When the join request has gone out and the turns of
    the wait loop bring nothing usable until one of them reads the clock at
    or past its reading at the start of the wait plus 5000, [lorawan_join]
    returns [LORAWAN_ERROR_JOIN]: the engine is back in Idle with its session
    as before, so not joined, and the only frame handed to the radio is the
    join request.  Such a reading exists only when the wait started at a
    reading of at most 4289967, because readings stop at 4294967.  When the
    wait starts later the loop has no way out by time: [lorawan_join] then
    returns only with success, on an accept however late, and with nothing
    usable received it does not return. *)
Theorem join_times_out env e :
  lorawan_state e = LORAWAN_STATE_IDLE ->
  Radio.wait_tx_done (request_tx_done env) <> None ->
  (forall quiet late rest,
     join_polls env = quiet ++ late :: rest ->
     Forall (fun q => lorawan_get_timestamp (poll_counter q) < join_start env + 5000
                      /\ no_accept q) quiet ->
     join_start env + 5000 <= lorawan_get_timestamp (poll_counter late) ->
     join_start env <= LAST_JOIN_START /\
     exists e',
       lorawan_join env e = Some (LORAWAN_ERROR_JOIN, e') /\
       lorawan_state e' = LORAWAN_STATE_IDLE /\
       session e' = session e /\
       last_tx_timestamp e' = last_tx_timestamp e /\
       transmitted e' = join_request_frame (credentials e) :: transmitted e) /\
  (LAST_JOIN_START < join_start env ->
   (forall r e', lorawan_join env e = Some (r, e') -> r = LORAWAN_SUCCESS) /\
   (Forall no_accept (join_polls env) -> lorawan_join env e = None)).
Proof.
  intros S W.
  assert (N : LAST_JOIN_START < join_start env ->
              forall r e', lorawan_join env e = Some (r, e') ->
                           r = LORAWAN_SUCCESS /\
                           exists p, In p (join_polls env) /\
                                     rx_done p = true /\
                                     (17 <= length (rx_frame p))%nat).
  { intros G r e' H.
    destruct (join_returns_inv _ _ _ _ H) as [(_ & _ & B) | (_ & _ & J)];
      [contradiction | ].
    destruct (join_wait_cases _ _ _ _ _ J)
      as (quiet & p & rest & P & _ & [(_ & T & _) | (-> & _ & D & L & _)]).
    - exfalso. rewrite join_timeout_plain in T.
      pose proof (timestamp_range (poll_counter p)).
      unfold LAST_JOIN_START in G. lia.
    - split; [reflexivity | ].
      exists p. split; [ | split; assumption].
      rewrite P. apply in_or_app. right. left. reflexivity. }
  split.
  - intros quiet late rest P Q L.
    split.
    { pose proof (timestamp_range (poll_counter late)).
      unfold LAST_JOIN_START. lia. }
    assert (Q' : Forall (fun q => in_window (join_timeout env) q /\ no_accept q)
                        quiet).
    { unfold in_window. rewrite join_timeout_plain. exact Q. }
    rewrite (join_into_wait env e S W), P, (join_wait_quiet _ _ _ _ _ Q').
    simpl join_wait. rewrite join_timeout_plain.
    apply Z.ltb_ge in L. rewrite L.
    eexists. split; [reflexivity | repeat split].
  - intros G. split.
    + intros r e' H. exact (proj1 (N G r e' H)).
    + intros Q.
      destruct (lorawan_join env e) as [[r e'] | ] eqn:H; [ | reflexivity].
      exfalso.
      destruct (N G r e' eq_refl) as (_ & p & I & D & L).
      rewrite Forall_forall in Q.
      destruct (Q p I) as [Nd | Nl]; [congruence | lia].
Qed.

Lemma join_times_out_witness :
  lorawan_state (snd (lorawan_init true power_on)) = LORAWAN_STATE_IDLE /\
  Radio.wait_tx_done (request_tx_done example_join_timeout) <> None /\
  Radio.wait_tx_done (request_tx_done example_join_near_restart) <> None /\
  (exists e',
     lorawan_join example_join_timeout (snd (lorawan_init true power_on))
       = Some (LORAWAN_ERROR_JOIN, e') /\
     transmitted e'
       = join_request_frame (credentials (snd (lorawan_init true power_on)))
           :: transmitted (snd (lorawan_init true power_on))) /\
  LAST_JOIN_START < join_start example_join_near_restart /\
  Forall no_accept (join_polls example_join_near_restart) /\
  lorawan_join example_join_near_restart (snd (lorawan_init true power_on))
    = None.
Proof.
  assert (S : lorawan_state (snd (lorawan_init true power_on)) = LORAWAN_STATE_IDLE)
    by reflexivity.
  assert (W : Radio.wait_tx_done (request_tx_done example_join_timeout) <> None)
    by (simpl; discriminate).
  assert (W2 : Radio.wait_tx_done (request_tx_done example_join_near_restart)
               <> None)
    by (simpl; discriminate).
  assert (P : join_polls example_join_timeout
              = [mk_join_poll 1000000 false []; mk_join_poll 3000000 true [1; 2; 3]]
                ++ mk_join_poll 6000000 false [] :: []) by reflexivity.
  assert (Q : Forall (fun q => lorawan_get_timestamp (poll_counter q)
                                 < join_start example_join_timeout + 5000
                               /\ no_accept q)
                     [mk_join_poll 1000000 false [];
                      mk_join_poll 3000000 true [1; 2; 3]]).
  { constructor; [split; [reflexivity | left; reflexivity] | ].
    constructor; [split; [reflexivity | right; simpl; lia] | constructor]. }
  assert (L : join_start example_join_timeout + 5000
              <= lorawan_get_timestamp (poll_counter (mk_join_poll 6000000 false [])))
    by (vm_compute; discriminate).
  assert (G : LAST_JOIN_START < join_start example_join_near_restart)
    by (vm_compute; reflexivity).
  assert (A : Forall no_accept (join_polls example_join_near_restart)).
  { repeat constructor; unfold no_accept; simpl;
      first [left; reflexivity | right; lia]. }
  split; [exact S | split; [exact W | split; [exact W2 | ]]].
  split.
  - destruct (join_times_out example_join_timeout _ S W) as [T _].
    destruct (T _ _ _ P Q L) as (_ & e' & J & _ & _ & _ & X).
    exists e'. split; [exact J | exact X].
  - split; [exact G | split; [exact A | ]].
    destruct (join_times_out example_join_near_restart _ S W2) as [_ T].
    exact (proj2 (T G) A).
Defined.

Lemma generate_keys_distinct c s i :
  bytes (app_key c) -> (i < 16)%nat ->
  nth i (nwk_skey (lorawan_generate_keys c s)) 0
  <> nth i (app_skey (lorawan_generate_keys c s)) 0.
Proof.
  intros B H. unfold lorawan_generate_keys. cbn [nwk_skey app_skey].
  rewrite !nth_map_seq by exact H.
  pose proof (nth_is_byte (app_key c) i B) as K.
  assert (B1 : is_byte (Z.of_nat i + 1)) by (unfold is_byte; lia).
  assert (B2 : is_byte (Z.of_nat i + 2)) by (unfold is_byte; lia).
  rewrite !u8_byte by (apply lxor_bytes; assumption).
  intros E.
  assert (E' : Z.lxor (nth i (app_key c) 0)
                 (Z.lxor (nth i (app_key c) 0) (Z.of_nat i + 1))
               = Z.lxor (nth i (app_key c) 0)
                   (Z.lxor (nth i (app_key c) 0) (Z.of_nat i + 2)))
    by (rewrite E; reflexivity).
  rewrite <- !Z.lxor_assoc, Z.lxor_nilpotent, !Z.lxor_0_l in E'. lia.
Qed.

(** X5 (session keys).  The session keys a join installs are computed from
    the application key alone: two successful joins with the same
    credentials give the same network and application session keys,
    whatever join-accept frames the network sent.  Byte for byte, the two
    keys of a session differ. *)
Theorem session_keys_depend_on_app_key_only env1 e1 e1' env2 e2 e2' :
  lorawan_join env1 e1 = Some (LORAWAN_SUCCESS, e1') ->
  lorawan_join env2 e2 = Some (LORAWAN_SUCCESS, e2') ->
  credentials e1 = credentials e2 ->
  nwk_skey (session e1') = nwk_skey (session e2') /\
  app_skey (session e1') = app_skey (session e2') /\
  (bytes (app_key (credentials e1)) ->
   forall i, (i < 16)%nat ->
     nth i (nwk_skey (session e1')) 0 <> nth i (app_skey (session e1')) 0).
Proof.
  assert (K : forall env e e',
             lorawan_join env e = Some (LORAWAN_SUCCESS, e') ->
             nwk_skey (session e')
               = nwk_skey (lorawan_generate_keys (credentials e) zero_session) /\
             app_skey (session e')
               = app_skey (lorawan_generate_keys (credentials e) zero_session)).
  { intros env e e' H.
    destruct (join_returns_inv _ _ _ _ H) as [(B & _) | (S & W & J)];
      [discriminate B | ].
    destruct (join_wait_cases _ _ _ _ _ J)
      as (quiet & p & rest & P & Q & [(B & _) | (_ & Wp & D & L & e0 & A & ->)]);
      [discriminate B | ].
    destruct (process_join_accept_long (rx_frame p)
                (with_state LORAWAN_STATE_JOINING
                   (with_radio
                      (Radio.sx1262_receive_continuous
                         (Radio.sx1262_send (join_request_frame (credentials e))
                                            (radio e))) e)) L)
      as (e0' & A' & _ & N & Ap & _).
    rewrite A in A'. inversion A'; subst e0'.
    split; [exact N | exact Ap]. }
  intros J1 J2 C.
  destruct (K _ _ _ J1) as [N1 A1]. destruct (K _ _ _ J2) as [N2 A2].
  split; [rewrite N1, N2, C; reflexivity | ].
  split; [rewrite A1, A2, C; reflexivity | ].
  intros B i Hi. rewrite N1, A1. apply generate_keys_distinct; assumption.
Qed.

Lemma session_keys_depend_on_app_key_only_witness :
  lorawan_join example_join_env (snd (lorawan_init true power_on))
    = Some (LORAWAN_SUCCESS, example_joined) /\
  lorawan_join (mk_join_env [true] 7000000
                            [mk_join_poll 7001000 true example_accept'])
               (lorawan_reset example_sent_once)
    = Some (LORAWAN_SUCCESS, example_rejoined) /\
  credentials (snd (lorawan_init true power_on))
    = credentials (lorawan_reset example_sent_once) /\
  dev_addr (session example_joined) <> dev_addr (session example_rejoined) /\
  nwk_skey (session example_joined) = nwk_skey (session example_rejoined) /\
  app_skey (session example_joined) = app_skey (session example_rejoined).
Proof.
  assert (J1 : lorawan_join example_join_env (snd (lorawan_init true power_on))
               = Some (LORAWAN_SUCCESS, example_joined)) by reflexivity.
  assert (J2 : lorawan_join (mk_join_env [true] 7000000
                               [mk_join_poll 7001000 true example_accept'])
                            (lorawan_reset example_sent_once)
               = Some (LORAWAN_SUCCESS, example_rejoined)) by reflexivity.
  assert (C : credentials (snd (lorawan_init true power_on))
              = credentials (lorawan_reset example_sent_once)) by reflexivity.
  split; [exact J1 | split; [exact J2 | split; [exact C | ]]].
  split; [vm_compute; discriminate | ].
  destruct (session_keys_depend_on_app_key_only _ _ _ _ _ _ J1 J2 C)
    as (N & A & _).
  split; [exact N | exact A].
Defined.

(** ** Sessions: reset, sleep and wake-up *)

(** X6 (re-join).  A joined engine refuses a further join with
    [LORAWAN_ERROR_BUSY], awake or asleep, and keeps its session; after
    [lorawan_reset] the join request goes out again. *)
Theorem rejoin_only_after_reset env e e1 env2 :
  lorawan_join env e = Some (LORAWAN_SUCCESS, e1) ->
  lorawan_join env2 e1 = Some (LORAWAN_ERROR_BUSY, e1) /\
  lorawan_join env2 (lorawan_sleep e1)
    = Some (LORAWAN_ERROR_BUSY, lorawan_sleep e1) /\
  forall r e2,
    lorawan_join env2 (lorawan_reset e1) = Some (r, e2) ->
    r <> LORAWAN_ERROR_BUSY /\
    transmitted e2 = join_request_frame (credentials e1) :: transmitted e1.
Proof.
  intros J. destruct (join_success _ _ _ J) as [_ [_ S]].
  split; [unfold lorawan_join; rewrite S; reflexivity | ].
  split; [reflexivity | ].
  intros r e2 H.
  destruct (join_returns_inv _ _ _ _ H) as [(_ & _ & N) | (_ & W & Jw)].
  - exfalso. apply N. reflexivity.
  - destruct (join_wait_cases _ _ _ _ _ Jw)
      as (quiet & p & rest & P & Q & [(-> & _ & ->) | (-> & _ & _ & L & e0 & A & ->)]).
    + split; [discriminate | reflexivity].
    + split; [discriminate | ].
      destruct (process_join_accept_long (rx_frame p)
                  (with_state LORAWAN_STATE_JOINING
                     (with_radio
                        (Radio.sx1262_receive_continuous
                           (Radio.sx1262_send
                              (join_request_frame (credentials (lorawan_reset e1)))
                              (radio (lorawan_reset e1)))) (lorawan_reset e1))) L)
        as (e0' & A' & _ & _ & _ & _ & _ & _ & _ & _ & R).
      rewrite A in A'. inversion A'; subst e0'.
      unfold transmitted. simpl. rewrite R. reflexivity.
Qed.

Lemma rejoin_only_after_reset_witness :
  lorawan_join example_join_env (snd (lorawan_init true power_on))
    = Some (LORAWAN_SUCCESS, example_joined) /\
  lorawan_join example_join_env example_joined
    = Some (LORAWAN_ERROR_BUSY, example_joined) /\
  lorawan_join example_join_env (lorawan_sleep example_joined)
    = Some (LORAWAN_ERROR_BUSY, lorawan_sleep example_joined).
Proof.
  assert (J : lorawan_join example_join_env (snd (lorawan_init true power_on))
              = Some (LORAWAN_SUCCESS, example_joined)) by reflexivity.
  split; [exact J | ].
  destruct (rejoin_only_after_reset _ _ _ example_join_env J) as (B1 & B2 & _).
  split; [exact B1 | exact B2].
Defined.

Lemma join_keeps_last_tx env e r e' :
  lorawan_join env e = Some (r, e') ->
  last_tx_timestamp e' = last_tx_timestamp e.
Proof.
  intros H.
  destruct (join_returns_inv _ _ _ _ H) as [(_ & -> & _) | (_ & _ & J)];
    [reflexivity | ].
  destruct (join_wait_cases _ _ _ _ _ J)
    as (quiet & p & rest & P & Q & [(_ & _ & ->) | (_ & _ & _ & L & e0 & A & ->)]);
    [reflexivity | ].
  destruct (process_join_accept_long (rx_frame p)
              (with_state LORAWAN_STATE_JOINING
                 (with_radio
                    (Radio.sx1262_receive_continuous
                       (Radio.sx1262_send (join_request_frame (credentials e))
                                          (radio e))) e)) L)
    as (e0' & A' & _ & _ & _ & _ & _ & _ & _ & T & _).
  rewrite A in A'. inversion A'; subst e0'. exact T.
Qed.

(** X7 (reset and the duty cycle).  [lorawan_reset] and a new join do not
    touch the time of the last transmission.  As long as the clock has not
    started again since that transmission, its reading being no lower than
    the stored one, a send in the new session is refused as busy while fewer
    than 99000 ms lie between the last transmission of the old session and
    the send, and goes through from 99000 ms on.  The frame counter does
    start again: the first frame of the new session carries the counter 0. *)
Theorem reset_keeps_gap_restarts_counter e jenv e1 env data len port r e2 :
  lorawan_join jenv (lorawan_reset e) = Some (LORAWAN_SUCCESS, e1) ->
  lorawan_send env data len port e1 = Some (r, e2) ->
  0 <= len <= 242 ->
  0 <= last_tx_timestamp e <= lorawan_get_timestamp (send_counter env) ->
  (lorawan_get_timestamp (send_counter env) - last_tx_timestamp e < MIN_TX_GAP ->
   r = LORAWAN_ERROR_BUSY /\ e2 = e1) /\
  (MIN_TX_GAP <= lorawan_get_timestamp (send_counter env) - last_tx_timestamp e ->
   r = LORAWAN_SUCCESS /\
   exists frame,
     transmitted e2 = frame :: transmitted e1 /\ frame_fcnt frame = 0).
Proof.
  intros J S L O.
  pose proof (join_keeps_last_tx _ _ _ _ J) as T.
  destruct (join_success _ _ _ J) as [Fu R]. unfold fcnt in Fu.
  assert (G : since_last_tx env e1
              = lorawan_get_timestamp (send_counter env) - last_tx_timestamp e).
  { unfold since_last_tx. rewrite T.
    change (last_tx_timestamp (lorawan_reset e)) with (last_tx_timestamp e).
    pose proof (timestamp_range (send_counter env)).
    apply elapsed_ms_plain; lia. }
  split; intros C.
  - rewrite send_inside_gap in S; [ | exact R | lia | rewrite G; exact C].
    inversion S. split; reflexivity.
  - rewrite send_after_gap in S; [ | exact R | lia | rewrite G; exact C].
    destruct (Radio.wait_tx_done (tx_done_answers env)); [ | discriminate S].
    inversion S; subst. split; [reflexivity | ].
    eexists. split; [reflexivity | ].
    unfold frame_fcnt. simpl. rewrite Fu. reflexivity.
Qed.

Lemma reset_keeps_gap_restarts_counter_witness :
  lorawan_join (mk_join_env [true] 210000000
                            [mk_join_poll 210001000 true example_accept'])
               (lorawan_reset example_sent_once)
    = Some (LORAWAN_SUCCESS, example_rejoined_later) /\
  lorawan_send (env_at 250000) [1; 2; 3] 3 10 example_rejoined_later
    = Some (LORAWAN_ERROR_BUSY, example_rejoined_later) /\
  0 <= 3 <= 242 /\
  (0 <= last_tx_timestamp example_sent_once
     <= lorawan_get_timestamp (send_counter (env_at 250000))) /\
  lorawan_get_timestamp (send_counter (env_at 250000))
    - last_tx_timestamp example_sent_once < MIN_TX_GAP /\
  LORAWAN_ERROR_BUSY = LORAWAN_ERROR_BUSY /\
  example_rejoined_later = example_rejoined_later.
Proof.
  assert (J : lorawan_join (mk_join_env [true] 210000000
                              [mk_join_poll 210001000 true example_accept'])
                           (lorawan_reset example_sent_once)
              = Some (LORAWAN_SUCCESS, example_rejoined_later)) by reflexivity.
  assert (S : lorawan_send (env_at 250000) [1; 2; 3] 3 10 example_rejoined_later
              = Some (LORAWAN_ERROR_BUSY, example_rejoined_later)) by reflexivity.
  assert (L : 0 <= 3 <= 242) by lia.
  assert (O : 0 <= last_tx_timestamp example_sent_once
              <= lorawan_get_timestamp (send_counter (env_at 250000)))
    by (vm_compute; split; discriminate).
  assert (G : lorawan_get_timestamp (send_counter (env_at 250000))
              - last_tx_timestamp example_sent_once < MIN_TX_GAP)
    by reflexivity.
  split; [exact J | split; [exact S | split; [exact L | split; [exact O | ]]]].
  split; [exact G | ].
  destruct (reset_keeps_gap_restarts_counter _ _ _ _ _ _ _ _ _ J S L O) as [B _].
  exact (B G).
Defined.

(** X8 (sleep and wake-up).  [lorawan_wakeup] after [lorawan_sleep] leaves
    the session, the time of the last transmission and the frames sent as
    they were, and the engine is ready exactly when the session is joined: no
    new join is needed.  While asleep every send is refused; once awake, a
    send gives the result it would have given without the sleep. *)
Theorem sleep_then_wakeup_resumes_session e env data len port :
  session (lorawan_wakeup (lorawan_sleep e)) = session e /\
  last_tx_timestamp (lorawan_wakeup (lorawan_sleep e)) = last_tx_timestamp e /\
  transmitted (lorawan_wakeup (lorawan_sleep e)) = transmitted e /\
  lorawan_is_ready (lorawan_wakeup (lorawan_sleep e)) = joined (session e) /\
  lorawan_send env data len port (lorawan_sleep e)
    = Some (LORAWAN_ERROR_NO_NETWORK, lorawan_sleep e) /\
  (lorawan_is_ready e = true ->
   option_map fst (lorawan_send env data len port (lorawan_wakeup (lorawan_sleep e)))
   = option_map fst (lorawan_send env data len port e) /\
   option_map (fun re => session (snd re))
              (lorawan_send env data len port (lorawan_wakeup (lorawan_sleep e)))
   = option_map (fun re => session (snd re)) (lorawan_send env data len port e) /\
   option_map (fun re => transmitted (snd re))
              (lorawan_send env data len port (lorawan_wakeup (lorawan_sleep e)))
   = option_map (fun re => transmitted (snd re)) (lorawan_send env data len port e)).
Proof.
  assert (W : lorawan_wakeup (lorawan_sleep e)
              = if joined (session e)
                then with_state LORAWAN_STATE_JOINED
                       (with_radio (Radio.sx1262_wakeup (Radio.sx1262_sleep (radio e))) e)
                else with_state LORAWAN_STATE_IDLE
                       (with_radio (Radio.sx1262_wakeup (Radio.sx1262_sleep (radio e))) e)).
  { unfold lorawan_wakeup, lorawan_sleep. simpl.
    destruct (joined (session e)); reflexivity. }
  split; [rewrite W; destruct (joined (session e)); reflexivity | ].
  split; [rewrite W; destruct (joined (session e)); reflexivity | ].
  split; [rewrite W; destruct (joined (session e)); reflexivity | ].
  split.
  { rewrite W. unfold lorawan_is_ready.
    destruct (joined (session e)) eqn:J; simpl; rewrite J; reflexivity. }
  split.
  { apply send_not_ready. right. discriminate. }
  intros R. unfold lorawan_is_ready in R. apply andb_true_iff in R.
  destruct R as [J S]. apply state_eqb_eq in S.
  rewrite W, J.
  unfold lorawan_send. simpl. rewrite J, S. simpl.
  destruct (242 <? len); [repeat split | ].
  destruct (u32 (lorawan_get_timestamp (send_counter env) - last_tx_timestamp e)
            <? 99000); [repeat split; simpl; rewrite S; reflexivity | ].
  destruct (Radio.wait_tx_done (tx_done_answers env)); repeat split.
Qed.

Lemma sleep_then_wakeup_resumes_session_witness :
  lorawan_is_ready example_sent_once = true /\
  lorawan_is_ready (lorawan_wakeup (lorawan_sleep example_sent_once)) = true /\
  option_map fst (lorawan_send (env_at 250000) [1; 2; 3] 3 10
                               (lorawan_wakeup (lorawan_sleep example_sent_once)))
    = Some LORAWAN_ERROR_BUSY.
Proof.
  assert (R : lorawan_is_ready example_sent_once = true) by reflexivity.
  split; [exact R | ].
  destruct (sleep_then_wakeup_resumes_session example_sent_once (env_at 250000)
              [1; 2; 3] 3 10) as (_ & _ & _ & I & _ & S).
  split; [rewrite I; reflexivity | ].
  destruct (S R) as (F & _). rewrite F. reflexivity.
Defined.

(** ** The duty cycle over a run *)

(** X9 (silence after power-on).  The time of the last transmission starts at
    0 and neither [lorawan_init] nor [lorawan_join] writes it: whatever the
    outcome of the initialisation, after the first join every send made while
    the millisecond clock reads less than 99000 is refused as busy and
    nothing is transmitted. *)
Theorem no_uplink_before_clock_reaches_gap init_ok jenv e1 env data len port :
  lorawan_join jenv (snd (lorawan_init init_ok power_on))
    = Some (LORAWAN_SUCCESS, e1) ->
  len <= 242 ->
  lorawan_get_timestamp (send_counter env) < MIN_TX_GAP ->
  lorawan_send env data len port e1 = Some (LORAWAN_ERROR_BUSY, e1).
Proof.
  intros J L T.
  destruct (join_success _ _ _ J) as [_ R].
  apply send_inside_gap; [exact R | exact L | ].
  unfold since_last_tx. rewrite (join_keeps_last_tx _ _ _ _ J).
  replace (last_tx_timestamp (snd (lorawan_init init_ok power_on))) with 0
    by (destruct init_ok; reflexivity).
  pose proof (timestamp_range (send_counter env)).
  rewrite elapsed_ms_plain; unfold MIN_TX_GAP in *; lia.
Qed.

Lemma no_uplink_before_clock_reaches_gap_witness :
  lorawan_join example_join_env (snd (lorawan_init true power_on))
    = Some (LORAWAN_SUCCESS, example_joined) /\
  3 <= 242 /\
  lorawan_get_timestamp (send_counter (env_at 98999)) < MIN_TX_GAP /\
  lorawan_send (env_at 98999) [1; 2; 3] 3 10 example_joined
    = Some (LORAWAN_ERROR_BUSY, example_joined).
Proof.
  assert (J : lorawan_join example_join_env (snd (lorawan_init true power_on))
              = Some (LORAWAN_SUCCESS, example_joined)) by reflexivity.
  assert (L : 3 <= 242) by lia.
  assert (T : lorawan_get_timestamp (send_counter (env_at 98999)) < MIN_TX_GAP)
    by reflexivity.
  split; [exact J | split; [exact L | split; [exact T | ]]].
  exact (no_uplink_before_clock_reaches_gap true _ _ (env_at 98999) [1; 2; 3] 3 10
           J L T).
Defined.

Lemma uplink_send_cases env u e r e' :
  uplink_send env u e = Some (r, e') ->
  (is_success r = false /\ e' = e)
  \/
  (r = LORAWAN_SUCCESS /\
   MIN_TX_GAP <= since_last_tx env e /\
   last_tx_timestamp e' = lorawan_get_timestamp (send_counter env) /\
   fcnt e' = u16 (fcnt e + 1) /\
   exists frame,
     transmitted e' = frame :: transmitted e /\
     (0 <= fcnt e < 65536 -> frame_fcnt frame = fcnt e)).
Proof.
  intros H.
  assert (S : exists data length port,
             lorawan_send env data length port e = Some (r, e')).
  { destruct u; simpl in H; eauto. }
  destruct S as (data & length & port & S).
  destruct (send_cases _ _ _ _ _ _ _ S)
    as [(-> & -> & _) | [(-> & -> & _) | [(-> & -> & _) | (-> & -> & _ & _ & G & _)]]];
    try (left; split; reflexivity).
  right. split; [reflexivity | split; [exact G | split; [reflexivity | ]]].
  split; [reflexivity | ].
  eexists. split; [reflexivity | ].
  intros B. unfold frame_fcnt. simpl. apply le16_byte_of. exact B.
Qed.

Lemma last_cons_default {A : Type} (l : list A) :
  forall a d, last (a :: l) d = last l a.
Proof.
  induction l as [ | z l IH]; intros a d; [reflexivity | ].
  change (last (a :: z :: l) d) with (last (z :: l) d).
  rewrite (IH z d), (IH z a). reflexivity.
Qed.

Lemma stepwise_le_skip a b l :
  stepwise Z.le (a :: b :: l) -> stepwise Z.le (a :: l).
Proof.
  intros [H1 H2]. destruct l as [ | c l]; [exact I | ].
  destruct H2 as [H2 H3]. split; [lia | exact H3].
Qed.

(** X10 (duty cycle over a run).  Along a run of calls of [lorawan_send]
    made one after the other, telemetry and emergencies alike, during which
    the clock does not start again (its readings do not go down, from the
    time of the last transmission on), the sends that went through are at
    least 99000 ms apart, each from the one before and the first from the
    last transmission before the run; the engine ends with the reading of the
    last of them, and has handed the radio one frame for each. *)
Theorem transmissions_are_a_gap_apart us :
  forall e rs e',
    uplink_run us e = Some (rs, e') ->
    0 <= last_tx_timestamp e ->
    stepwise Z.le (last_tx_timestamp e :: clock_readings us) ->
    stepwise (fun t1 t2 => MIN_TX_GAP <= t2 - t1)
             (last_tx_timestamp e :: success_times us rs) /\
    last_tx_timestamp e' = last (success_times us rs) (last_tx_timestamp e) /\
    length (transmitted e')
      = (length (transmitted e) + length (success_times us rs))%nat.
Proof.
  induction us as [ | [env u] rest IH]; intros e rs e' H N O; simpl in H.
  - inversion H; subst. simpl. repeat split. lia.
  - destruct (uplink_send env u e) as [[r e1] | ] eqn:S; [ | discriminate H].
    destruct (uplink_run rest e1) as [[rs1 e2] | ] eqn:U; [ | discriminate H].
    inversion H; subst.
    change (clock_readings ((env, u) :: rest))
      with (lorawan_get_timestamp (send_counter env) :: clock_readings rest)
      in O.
    destruct (uplink_send_cases _ _ _ _ _ S)
      as [(F & ->) | (-> & G & T & _ & frame & X & _)].
    + destruct (IH _ _ _ U N (stepwise_le_skip _ _ _ O)) as (I1 & I2 & I3).
      simpl success_times. rewrite F. repeat split; assumption.
    + pose proof (timestamp_range (send_counter env)) as B.
      assert (O1 : stepwise Z.le (last_tx_timestamp e1 :: clock_readings rest)).
      { rewrite T. destruct O as [_ O]. exact O. }
      assert (N1 : 0 <= last_tx_timestamp e1) by (rewrite T; lia).
      destruct (IH _ _ _ U N1 O1) as (I1 & I2 & I3).
      simpl success_times. cbn [is_success].
      rewrite T in I1, I2.
      split; [ | split].
      * apply stepwise_cons; [ | exact I1].
        destruct O as [O _].
        unfold since_last_tx in G.
        rewrite elapsed_ms_plain in G by lia. exact G.
      * rewrite I2. symmetry. apply last_cons_default.
      * rewrite I3, X. simpl. lia.
Qed.

Lemma transmissions_are_a_gap_apart_witness :
  uplink_run [(env_at 200000, Telemetry [1; 2; 3] 3 10);
              (env_at 200500, EnergyEmergency Electrical.SAFETY_OVERVOLTAGE 200500);
              (env_at 299000, EnergyEmergency Electrical.SAFETY_OVERVOLTAGE 299000)]
             example_joined
    = Some ([LORAWAN_SUCCESS; LORAWAN_ERROR_BUSY; LORAWAN_SUCCESS],
            after_send (env_at 299000)
                       (Electrical.emergency_payload
                          Electrical.SAFETY_OVERVOLTAGE 299000)
                       8 99 example_sent_once) /\
  0 <= last_tx_timestamp example_joined /\
  stepwise Z.le [0; 200000; 200500; 299000] /\
  stepwise (fun t1 t2 => MIN_TX_GAP <= t2 - t1) [0; 200000; 299000].
Proof.
  assert (U : uplink_run
                [(env_at 200000, Telemetry [1; 2; 3] 3 10);
                 (env_at 200500, EnergyEmergency Electrical.SAFETY_OVERVOLTAGE 200500);
                 (env_at 299000, EnergyEmergency Electrical.SAFETY_OVERVOLTAGE 299000)]
                example_joined
              = Some ([LORAWAN_SUCCESS; LORAWAN_ERROR_BUSY; LORAWAN_SUCCESS],
                      after_send (env_at 299000)
                                 (Electrical.emergency_payload
                                    Electrical.SAFETY_OVERVOLTAGE 299000)
                                 8 99 example_sent_once)) by reflexivity.
  assert (N : 0 <= last_tx_timestamp example_joined)
    by (vm_compute; discriminate).
  assert (O : stepwise Z.le [0; 200000; 200500; 299000])
    by (simpl; lia).
  split; [exact U | split; [exact N | split; [exact O | ]]].
  destruct (transmissions_are_a_gap_apart _ _ _ _ U N O) as [G _].
  exact G.
Defined.

Lemma map_seq_succ {A : Type} (f : nat -> A) n :
  map f (seq 1 n) = map (fun k => f (S k)) (seq 0 n).
Proof. rewrite <- seq_shift, map_map. reflexivity. Qed.

(** X11 (counters in the frames).  The frames handed to the radio during a
    run are as many as the sends that went through, and they carry
    consecutive frame counters, starting from the counter the engine had and
    counting modulo 65536. *)
Theorem frames_carry_consecutive_counters us :
  forall e rs e',
    0 <= fcnt e < 65536 ->
    uplink_run us e = Some (rs, e') ->
    exists frames,
      transmitted e' = rev frames ++ transmitted e /\
      Z.of_nat (length frames) = successes rs /\
      map frame_fcnt frames
        = map (fun k => u16 (fcnt e + Z.of_nat k)) (seq 0 (length frames)).
Proof.
  induction us as [ | [env u] rest IH]; intros e rs e' B H; simpl in H.
  - inversion H; subst. exists []. repeat split.
  - destruct (uplink_send env u e) as [[r e1] | ] eqn:S; [ | discriminate H].
    destruct (uplink_run rest e1) as [[rs1 e2] | ] eqn:U; [ | discriminate H].
    inversion H; subst.
    destruct (uplink_send_cases _ _ _ _ _ S)
      as [(F & ->) | (-> & _ & _ & C & frame & X & N)].
    + destruct (IH _ _ _ B U) as (frames & T & L & M).
      exists frames. simpl successes. rewrite F.
      split; [exact T | split; [lia | exact M]].
    + destruct (IH e1 rs1 e') as (frames & T & L & M);
        [rewrite C; apply u16_range | exact U | ].
      exists (frame :: frames).
      change (successes (LORAWAN_SUCCESS :: rs1)) with (1 + successes rs1).
      split; [ | split].
      * rewrite T, X. simpl rev. rewrite <- app_assoc. reflexivity.
      * cbn [length]. lia.
      * cbn [length map seq]. rewrite (N B), Z.add_0_r.
        f_equal; [unfold u16; symmetry; apply Z.mod_small; exact B | ].
        rewrite M, map_seq_succ. apply map_ext. intros k.
        rewrite C, u16_succ_u16. f_equal. lia.
Qed.

Lemma frames_carry_consecutive_counters_witness :
  0 <= fcnt example_joined < 65536 /\
  uplink_run [(env_at 200000, Telemetry [1; 2; 3] 3 10);
              (env_at 200500, EnergyEmergency Electrical.SAFETY_OVERVOLTAGE 200500);
              (env_at 299000, EnergyEmergency Electrical.SAFETY_OVERVOLTAGE 299000)]
             example_joined
    = Some ([LORAWAN_SUCCESS; LORAWAN_ERROR_BUSY; LORAWAN_SUCCESS],
            after_send (env_at 299000)
                       (Electrical.emergency_payload
                          Electrical.SAFETY_OVERVOLTAGE 299000)
                       8 99 example_sent_once) /\
  exists frames,
    transmitted (after_send (env_at 299000)
                            (Electrical.emergency_payload
                               Electrical.SAFETY_OVERVOLTAGE 299000)
                            8 99 example_sent_once)
      = rev frames ++ transmitted example_joined /\
    Z.of_nat (length frames)
      = successes [LORAWAN_SUCCESS; LORAWAN_ERROR_BUSY; LORAWAN_SUCCESS] /\
    map frame_fcnt frames
      = map (fun k => u16 (fcnt example_joined + Z.of_nat k))
            (seq 0 (length frames)).
Proof.
  assert (B : 0 <= fcnt example_joined < 65536)
    by (change (0 <= 0 < 65536); lia).
  assert (U : uplink_run
                [(env_at 200000, Telemetry [1; 2; 3] 3 10);
                 (env_at 200500, EnergyEmergency Electrical.SAFETY_OVERVOLTAGE 200500);
                 (env_at 299000, EnergyEmergency Electrical.SAFETY_OVERVOLTAGE 299000)]
                example_joined
              = Some ([LORAWAN_SUCCESS; LORAWAN_ERROR_BUSY; LORAWAN_SUCCESS],
                      after_send (env_at 299000)
                                 (Electrical.emergency_payload
                                    Electrical.SAFETY_OVERVOLTAGE 299000)
                                 8 99 example_sent_once)) by reflexivity.
  split; [exact B | split; [exact U | ]].
  exact (frames_carry_consecutive_counters _ _ _ _ B U).
Defined.

(** ** The checksum of the telemetry payload *)















(** ** The safety checks of the electrical task *)

Lemma safety_checks_bits cfg d :
  exists ov uv oc pf thd fr : bool,
    ov = Qltb (Electrical.voltage_range cfg * 1.1) (Electrical.voltage_rms d) /\
    uv = Qltb (Electrical.voltage_rms d) (Electrical.voltage_range cfg * 0.85) /\
    oc = Qltb (Electrical.current_range cfg * 0.9) (Electrical.current_rms d) /\
    pf = Qltb (Electrical.power_factor d) (Electrical.power_factor_limit cfg) /\
    thd = (Qltb (Electrical.thd_limit cfg) (Electrical.thd_voltage d)
           || Qltb (Electrical.thd_limit cfg) (Electrical.thd_current d)) /\
    fr = (Qltb (Electrical.frequency d) 48 || Qltb 52 (Electrical.frequency d)) /\
    Electrical.safety_checks cfg d
    = (if ov then 1 else 0) + (if uv then 2 else 0) + (if oc then 4 else 0)
      + (if pf then 16 else 0) + (if thd then 32 else 0) + (if fr then 64 else 0).
Proof.
  do 6 eexists. do 6 (split; [reflexivity | ]).
  unfold Electrical.safety_checks.
  destruct (Qltb (Electrical.voltage_range cfg * 1.1) (Electrical.voltage_rms d)),
    (Qltb (Electrical.voltage_rms d) (Electrical.voltage_range cfg * 0.85)),
    (Qltb (Electrical.current_range cfg * 0.9) (Electrical.current_rms d)),
    (Qltb (Electrical.power_factor d) (Electrical.power_factor_limit cfg)),
    (Qltb (Electrical.thd_limit cfg) (Electrical.thd_voltage d)
     || Qltb (Electrical.thd_limit cfg) (Electrical.thd_current d)),
    (Qltb (Electrical.frequency d) 48 || Qltb 52 (Electrical.frequency d));
    reflexivity.
Qed.

Lemma safety_checks_critical cfg d :
  Z.land (Electrical.safety_checks cfg d) Electrical.critical_mask <> 0 <->
  (Electrical.voltage_range cfg * 1.1 < Electrical.voltage_rms d)%Q \/
  (Electrical.current_range cfg * 0.9 < Electrical.current_rms d)%Q.
Proof.
  destruct (safety_checks_bits cfg d)
    as (ov & uv & oc & pf & thd & fr & Eov & Euv & Eoc & _ & _ & _ & ->).
  rewrite <- !Qltb_lt, <- Eov, <- Eoc.
  destruct ov, uv, oc, pf, thd, fr; vm_compute; split;
    intros H; try discriminate; try tauto; try (exfalso; apply H; reflexivity);
    destruct H as [H | H]; discriminate H.
Qed.

(** X14 (what the safety checks raise).  The flags of a measurement never
    contain over-power or phase imbalance, so they stay below 128; they
    contain a critical flag, one that makes the safety task send an
    emergency, exactly when the voltage is above 1.1 times the voltage range
    or the current above 0.9 times the current range; and with a voltage
    range that is not negative, over-voltage and under-voltage are never
    raised together. *)
Theorem safety_checks_raise cfg d :
  0 <= Electrical.safety_checks cfg d < 128 /\
  Z.land (Electrical.safety_checks cfg d) Electrical.SAFETY_OVERPOWER = 0 /\
  Z.land (Electrical.safety_checks cfg d) Electrical.SAFETY_PHASE_IMBALANCE = 0 /\
  (Z.land (Electrical.safety_checks cfg d) Electrical.critical_mask <> 0 <->
   (Electrical.voltage_range cfg * 1.1 < Electrical.voltage_rms d)%Q \/
   (Electrical.current_range cfg * 0.9 < Electrical.current_rms d)%Q) /\
  ((0 <= Electrical.voltage_range cfg)%Q ->
   Z.land (Electrical.safety_checks cfg d) Electrical.SAFETY_OVERVOLTAGE = 0 \/
   Z.land (Electrical.safety_checks cfg d) Electrical.SAFETY_UNDERVOLTAGE = 0).
Proof.
  pose proof (safety_checks_critical cfg d) as C.
  destruct (safety_checks_bits cfg d)
    as (ov & uv & oc & pf & thd & fr & Eov & Euv & Eoc & _ & _ & _ & E).
  rewrite E in *. clear E.
  split; [destruct ov, uv, oc, pf, thd, fr; lia | ].
  split; [destruct ov, uv, oc, pf, thd, fr; reflexivity | ].
  split; [destruct ov, uv, oc, pf, thd, fr; reflexivity | ].
  split; [exact C | ].
  clear C. intros R.
    destruct ov eqn:Ov, uv eqn:Uv.
    + exfalso. symmetry in Eov, Euv.
      apply Qltb_lt in Eov. apply Qltb_lt in Euv. Lqa.lra.
    + right. destruct oc, pf, thd, fr; reflexivity.
    + left. destruct oc, pf, thd, fr; reflexivity.
    + left. destruct oc, pf, thd, fr; reflexivity.
Qed.

Lemma safety_checks_raise_witness :
  (0 <= Electrical.voltage_range Electrical.electrical_config)%Q /\
  Electrical.safety_checks Electrical.electrical_config example_surge
    = Z.lor Electrical.SAFETY_OVERVOLTAGE Electrical.SAFETY_LOW_PF /\
  (Z.land (Electrical.safety_checks Electrical.electrical_config example_surge)
          Electrical.SAFETY_OVERVOLTAGE = 0 \/
   Z.land (Electrical.safety_checks Electrical.electrical_config example_surge)
          Electrical.SAFETY_UNDERVOLTAGE = 0).
Proof.
  assert (R : (0 <= Electrical.voltage_range Electrical.electrical_config)%Q)
    by (vm_compute; discriminate).
  split; [exact R | split; [reflexivity | ]].
  destruct (safety_checks_raise Electrical.electrical_config example_surge)
    as (_ & _ & _ & _ & X).
  exact (X R).
Defined.

(** X15 (escalation).  A measurement published by the electrical task while
    no alert is waiting makes the next turn of the safety task call
    [lorawan_send] exactly when it is over-voltage or over-current:
    under-voltage, low power factor, distortion and frequency deviation
    alone are consumed without any uplink.  Either way the alert queue is
    empty again and the measurement waits in the telemetry queue. *)
Theorem emergency_only_for_overvoltage_or_overcurrent cfg d sys env sys' out :
  Electrical.xSafetyAlertQueue sys = [] ->
  Electrical.vSafetyTask_step env (Electrical.vElectricalTask_publish cfg d sys)
    = Some (sys', out) ->
  (out <> None <->
   (Electrical.voltage_range cfg * 1.1 < Electrical.voltage_rms d)%Q \/
   (Electrical.current_range cfg * 0.9 < Electrical.current_rms d)%Q) /\
  Electrical.xSafetyAlertQueue sys' = [] /\
  Electrical.xElectricalDataQueue sys'
    = Electrical.xElectricalDataQueue (Electrical.vElectricalTask_publish cfg d sys) /\
  (out = None -> Electrical.engine_of sys' = Electrical.engine_of sys).
Proof.
  intros Q H.
  pose proof (safety_checks_critical cfg d) as C.
  unfold Electrical.vElectricalTask_publish in H |- *.
  rewrite Q in H.
  unfold Electrical.vSafetyTask_step in H. cbn [Electrical.xSafetyAlertQueue] in H.
  destruct (Electrical.safety_checks cfg d =? 0) eqn:Z0.
  - cbn [negb] in H. inversion H; subst.
    apply Z.eqb_eq in Z0. rewrite Z0 in C.
    split; [ | repeat split].
    rewrite <- C. split; intros X; exfalso; apply X; reflexivity.
  - cbn [negb] in H. unfold Electrical.queue_send in H. cbn [length Nat.ltb Nat.leb app] in H.
    destruct (Z.land (Electrical.safety_checks cfg d) Electrical.critical_mask =? 0)
      eqn:K.
    + cbn [negb] in H. inversion H; subst.
      apply Z.eqb_eq in K.
      split; [ | repeat split].
      rewrite <- C. split; intros X; exfalso; apply X; [reflexivity | exact K].
    + cbn [negb] in H.
      destruct (lorawan_send _ _ _ _ _) as [[r e'] | ]; [ | discriminate H].
      inversion H; subst. apply Z.eqb_neq in K.
      split; [ | repeat split].
      * rewrite <- C. split; intros _; [exact K | discriminate].
      * intros X. discriminate X.
Qed.


Lemma emergency_only_for_overvoltage_or_overcurrent_witness :
  exists sys' out,
    Electrical.xSafetyAlertQueue (Electrical.mk_system example_joined [] []) = [] /\
    Electrical.vSafetyTask_step (safety_env_at 200000)
      (Electrical.vElectricalTask_publish Electrical.electrical_config
         example_surge (Electrical.mk_system example_joined [] []))
      = Some (sys', out) /\
    out = Some LORAWAN_SUCCESS /\
    (out <> None <->
     (Electrical.voltage_range Electrical.electrical_config * 1.1
      < Electrical.voltage_rms example_surge)%Q \/
     (Electrical.current_range Electrical.electrical_config * 0.9
      < Electrical.current_rms example_surge)%Q).
Proof.
  assert (Q : Electrical.xSafetyAlertQueue
                (Electrical.mk_system example_joined [] []) = []) by reflexivity.
  eexists. eexists.
  split; [exact Q | ].
  assert (H : Electrical.vSafetyTask_step (safety_env_at 200000)
                (Electrical.vElectricalTask_publish Electrical.electrical_config
                   example_surge (Electrical.mk_system example_joined [] []))
              = Some (Electrical.mk_system
                        (after_send (env_at 200000)
                           (Electrical.emergency_payload 17 200000) 8 99
                           example_joined)
                        (Electrical.xElectricalDataQueue
                           (Electrical.vElectricalTask_publish
                              Electrical.electrical_config example_surge
                              (Electrical.mk_system example_joined [] [])))
                        [],
                      Some LORAWAN_SUCCESS)) by reflexivity.
  split; [exact H | split; [reflexivity | ]].
  destruct (emergency_only_for_overvoltage_or_overcurrent _ _ _ _ _ _ Q H)
    as [E _].
  exact E.
Defined.

Lemma grade_at_least_two (a1 a2 a3 a4 a5 a6 : bool) :
  (a1 = true /\ a2 = true) \/ (a3 = true /\ a4 = true) \/ (a5 = true /\ a6 = true) ->
  let s := 0 + Electrical.penalty a1 + Electrical.penalty a2
           + Electrical.penalty a3 + Electrical.penalty a4
           + Electrical.penalty a5 + Electrical.penalty a6 in
  2 <= (if 5 <? s then 5 else s).
Proof.
  intros H.
  destruct a1, a2, a3, a4, a5, a6; simpl; try lia;
    destruct H as [[? ?] | [[? ?] | [? ?]]]; discriminate.
Qed.

(** X16 (flags and grade).  With the thresholds of the firmware's
    configuration, each of the three power-quality flags costs at least two
    grades: a measurement flagged for low power factor, for distortion or for
    frequency deviation is graded C (2) or worse, and a measurement graded A
    (0) carries none of them. *)
Theorem quality_flag_means_grade_c_or_worse d :
  Z.land (Electrical.safety_checks Electrical.electrical_config d)
         (Z.lor (Z.lor Electrical.SAFETY_LOW_PF Electrical.SAFETY_HIGH_THD)
                Electrical.SAFETY_FREQ_DEVIATION) <> 0 ->
  2 <= Electrical.calculate_power_quality_grade d.
Proof.
  destruct (safety_checks_bits Electrical.electrical_config d)
    as (ov & uv & oc & pf & thd & fr & _ & _ & _ & Epf & Ethd & Efr & ->).
  intros H.
  assert (K : pf = true \/ thd = true \/ fr = true).
  { destruct pf; [tauto | ]. destruct thd; [tauto | ]. destruct fr; [tauto | ].
    exfalso. apply H. destruct ov, uv, oc; reflexivity. }
  clear H.
  unfold Electrical.calculate_power_quality_grade.
  apply grade_at_least_two.
  simpl in Epf, Ethd, Efr.
  destruct K as [K | [K | K]].
  - rewrite Epf in K. right. left. split; [ | exact K].
    apply Qltb_lt in K. apply Qltb_lt. Lqa.lra.
  - rewrite Ethd in K. left. split; [ | exact K].
    apply orb_true_iff in K. apply orb_true_iff.
    destruct K as [K | K]; [left | right];
      apply Qltb_lt in K; apply Qltb_lt; Lqa.lra.
  - rewrite Efr in K. right. right.
    apply orb_true_iff in K.
    split; apply orb_true_iff; destruct K as [K | K]; [left | right | left | right];
      apply Qltb_lt in K; apply Qltb_lt; Lqa.lra.
Qed.

Lemma quality_flag_means_grade_c_or_worse_witness :
  Z.land (Electrical.safety_checks Electrical.electrical_config example_surge)
         (Z.lor (Z.lor Electrical.SAFETY_LOW_PF Electrical.SAFETY_HIGH_THD)
                Electrical.SAFETY_FREQ_DEVIATION) <> 0 /\
  2 <= Electrical.calculate_power_quality_grade example_surge.
Proof.
  assert (H : Z.land (Electrical.safety_checks Electrical.electrical_config
                        example_surge)
                     (Z.lor (Z.lor Electrical.SAFETY_LOW_PF
                                   Electrical.SAFETY_HIGH_THD)
                            Electrical.SAFETY_FREQ_DEVIATION) <> 0)
    by (vm_compute; discriminate).
  split; [exact H | ].
  exact (quality_flag_means_grade_c_or_worse example_surge H).
Defined.

(** ** The acquisition buffer *)

Lemma put_length a i v : length (Electrical.put a i v) = length a.
Proof.
  revert i. induction a as [ | x rest IH]; intros i; simpl.
  - destruct i; reflexivity.
  - destruct i; simpl; [reflexivity | f_equal; apply IH].
Qed.

Lemma put_split a i v :
  (i < length a)%nat ->
  Electrical.put a i v = firstn i a ++ v :: skipn (S i) a.
Proof.
  revert i. induction a as [ | x rest IH]; intros i H; simpl in H; [lia | ].
  destruct i as [ | j]; simpl; [reflexivity | ].
  f_equal. apply IH. lia.
Qed.

Lemma adc_step_inside irq s :
  Electrical.eoc irq = true ->
  0 <= Electrical.adc_buffer_index s ->
  Electrical.adc_buffer_index s + 1 < Electrical.ADC_BUFFER_SIZE ->
  Electrical.ADC1_IRQHandler irq s
  = Electrical.mk_adc_state
      (Electrical.put (Electrical.adc_buffer_voltage s)
                      (Z.to_nat (Electrical.adc_buffer_index s))
                      (Electrical.voltage_conversion irq))
      (Electrical.put (Electrical.adc_buffer_current s)
                      (Z.to_nat (Electrical.adc_buffer_index s))
                      (Electrical.current_conversion irq))
      (Electrical.adc_buffer_index s + 1)
      (Electrical.adc_buffer_ready s) (Electrical.adc_running s).
Proof.
  intros E L H. unfold Electrical.ADC1_IRQHandler, Electrical.ADC_BUFFER_SIZE in *.
  rewrite E.
  assert (U : u16 (Electrical.adc_buffer_index s + 1)
              = Electrical.adc_buffer_index s + 1)
    by (unfold u16; apply Z.mod_small; lia).
  rewrite U.
  assert (C : (4096 <=? Electrical.adc_buffer_index s + 1) = false)
    by (apply Z.leb_gt; lia).
  rewrite C. reflexivity.
Qed.

Lemma adc_step_last irq s :
  Electrical.eoc irq = true ->
  Electrical.adc_buffer_index s + 1 = Electrical.ADC_BUFFER_SIZE ->
  Electrical.ADC1_IRQHandler irq s
  = Electrical.mk_adc_state
      (Electrical.put (Electrical.adc_buffer_voltage s)
                      (Z.to_nat (Electrical.adc_buffer_index s))
                      (Electrical.voltage_conversion irq))
      (Electrical.put (Electrical.adc_buffer_current s)
                      (Z.to_nat (Electrical.adc_buffer_index s))
                      (Electrical.current_conversion irq))
      0 true false.
Proof.
  intros E H. unfold Electrical.ADC1_IRQHandler, Electrical.ADC_BUFFER_SIZE in *.
  rewrite E, H. reflexivity.
Qed.

Lemma fill_step (a : list Z) i v (samples : list Z) :
  (i + S (length samples) <= length a)%nat ->
  firstn (S i) (Electrical.put a i v) ++ samples
    ++ skipn (S i + length samples) (Electrical.put a i v)
  = firstn i a ++ (v :: samples) ++ skipn (i + S (length samples)) a.
Proof.
  intros H. rewrite put_split by lia.
  assert (L : length (firstn i a) = i) by (apply firstn_length_le; lia).
  rewrite firstn_app, L.
  replace (S i - i)%nat with 1%nat by lia.
  rewrite (firstn_all2 (n := S i)) by lia.
  cbn [firstn]. rewrite <- app_assoc. cbn [app]. f_equal. f_equal. f_equal.
  rewrite skipn_app, L.
  rewrite (skipn_all2 (n := S i + length samples)) by lia.
  replace (S i + length samples - i)%nat with (S (length samples)) by lia.
  cbn [app]. change (skipn (S (length samples)) (v :: skipn (S i) a))
    with (skipn (length samples) (skipn (S i) a)).
  rewrite skipn_skipn. f_equal. lia.
Qed.

Lemma adc_run_inside irqs :
  forall s,
    Forall (fun irq => Electrical.eoc irq = true) irqs ->
    0 <= Electrical.adc_buffer_index s ->
    Electrical.adc_buffer_index s + Z.of_nat (length irqs)
      < Electrical.ADC_BUFFER_SIZE ->
    Z.of_nat (length (Electrical.adc_buffer_voltage s)) = Electrical.ADC_BUFFER_SIZE ->
    Z.of_nat (length (Electrical.adc_buffer_current s)) = Electrical.ADC_BUFFER_SIZE ->
    Electrical.adc_buffer_voltage (Electrical.adc_run irqs s)
      = firstn (Z.to_nat (Electrical.adc_buffer_index s))
               (Electrical.adc_buffer_voltage s)
        ++ map Electrical.voltage_conversion irqs
        ++ skipn (Z.to_nat (Electrical.adc_buffer_index s) + length irqs)
                 (Electrical.adc_buffer_voltage s) /\
    Electrical.adc_buffer_current (Electrical.adc_run irqs s)
      = firstn (Z.to_nat (Electrical.adc_buffer_index s))
               (Electrical.adc_buffer_current s)
        ++ map Electrical.current_conversion irqs
        ++ skipn (Z.to_nat (Electrical.adc_buffer_index s) + length irqs)
                 (Electrical.adc_buffer_current s) /\
    Electrical.adc_buffer_index (Electrical.adc_run irqs s)
      = Electrical.adc_buffer_index s + Z.of_nat (length irqs) /\
    Electrical.adc_buffer_ready (Electrical.adc_run irqs s)
      = Electrical.adc_buffer_ready s /\
    Electrical.adc_running (Electrical.adc_run irqs s) = Electrical.adc_running s.
Proof.
  unfold Electrical.ADC_BUFFER_SIZE.
  induction irqs as [ | irq rest IH]; intros s E L B Lv Lc.
  - simpl. rewrite Nat.add_0_r, !firstn_skipn.
    repeat split. lia.
  - inversion E as [ | ? ? E1 E2]; subst.
    cbn [length] in B.
    unfold Electrical.adc_run. cbn [fold_left].
    fold (Electrical.adc_run rest (Electrical.ADC1_IRQHandler irq s)).
    rewrite (adc_step_inside irq s E1 L)
      by (unfold Electrical.ADC_BUFFER_SIZE; lia).
    set (i := Z.to_nat (Electrical.adc_buffer_index s)).
    match goal with
    | |- context [Electrical.adc_run rest ?s1] =>
        destruct (IH s1 E2) as (V & C & I & R & A);
          cbn [Electrical.adc_buffer_index Electrical.adc_buffer_voltage
               Electrical.adc_buffer_current]
    end; try (rewrite ?put_length; lia).
    cbn [Electrical.adc_buffer_index Electrical.adc_buffer_voltage
         Electrical.adc_buffer_current Electrical.adc_buffer_ready
         Electrical.adc_running] in V, C, I, R, A.
    replace (Z.to_nat (Electrical.adc_buffer_index s + 1)) with (S i) in V, C
      by (subst i; lia).
    rewrite V, C, I, R, A.
    split; [ | split; [ | repeat split; cbn [length]; lia]].
    + cbn [map length]. rewrite <- (length_map Electrical.voltage_conversion rest).
      apply fill_step. rewrite length_map. subst i. lia.
    + cbn [map length]. rewrite <- (length_map Electrical.current_conversion rest).
      apply fill_step. rewrite length_map. subst i. lia.
Qed.

Lemma adc_run_snoc irqs irq s :
  Electrical.adc_run (irqs ++ [irq]) s
  = Electrical.ADC1_IRQHandler irq (Electrical.adc_run irqs s).
Proof. unfold Electrical.adc_run. rewrite fold_left_app. reflexivity. Qed.

(** X17 (acquisition buffer).  Starting from index 0, the interrupt handler
    stores the pairs of conversions in the order they arrive, one pair per
    cell from cell 0 on.  Before the 4096th pair the ready flag and the
    converter are left alone; the 4096th pair fills the last cell, the ready
    flag is set, the index is back at 0 and the converter is stopped. *)
Theorem adc_buffer_fills_in_order_then_stops irqs s :
  Forall (fun irq => Electrical.eoc irq = true) irqs ->
  Electrical.adc_buffer_index s = 0 ->
  Z.of_nat (length (Electrical.adc_buffer_voltage s)) = Electrical.ADC_BUFFER_SIZE ->
  Z.of_nat (length (Electrical.adc_buffer_current s)) = Electrical.ADC_BUFFER_SIZE ->
  Z.of_nat (length irqs) <= Electrical.ADC_BUFFER_SIZE ->
  Electrical.adc_buffer_voltage (Electrical.adc_run irqs s)
    = map Electrical.voltage_conversion irqs
      ++ skipn (length irqs) (Electrical.adc_buffer_voltage s) /\
  Electrical.adc_buffer_current (Electrical.adc_run irqs s)
    = map Electrical.current_conversion irqs
      ++ skipn (length irqs) (Electrical.adc_buffer_current s) /\
  (Z.of_nat (length irqs) < Electrical.ADC_BUFFER_SIZE ->
   Electrical.adc_buffer_index (Electrical.adc_run irqs s) = Z.of_nat (length irqs) /\
   Electrical.adc_buffer_ready (Electrical.adc_run irqs s)
     = Electrical.adc_buffer_ready s /\
   Electrical.adc_running (Electrical.adc_run irqs s) = Electrical.adc_running s) /\
  (Z.of_nat (length irqs) = Electrical.ADC_BUFFER_SIZE ->
   Electrical.adc_buffer_index (Electrical.adc_run irqs s) = 0 /\
   Electrical.adc_buffer_ready (Electrical.adc_run irqs s) = true /\
   Electrical.adc_running (Electrical.adc_run irqs s) = false).
Proof.
  intros E I Lv Lc N.
  destruct (Z_lt_le_dec (Z.of_nat (length irqs)) Electrical.ADC_BUFFER_SIZE)
    as [Lt | Ge].
  - destruct (adc_run_inside irqs s E) as (V & C & X & R & A);
      try assumption; try lia.
    rewrite I in V, C, X. cbn [Z.to_nat firstn app Nat.add] in V, C.
    split; [exact V | split; [exact C | split]].
    + intros _. split; [rewrite X; lia | split; assumption].
    + intros H. lia.
  - assert (F : Z.of_nat (length irqs) = Electrical.ADC_BUFFER_SIZE) by lia.
    destruct (exists_last (l := irqs)) as (first & last & ->).
    { intros ->. unfold Electrical.ADC_BUFFER_SIZE in F. simpl in F. lia. }
    rewrite length_app in F. cbn [length] in F.
    apply Forall_app in E. destruct E as [E1 E2].
    inversion E2 as [ | ? ? El _]; subst.
    destruct (adc_run_inside first s E1) as (V & C & X & R & A);
      try assumption; try lia.
    rewrite I in V, C, X. cbn [Z.to_nat firstn app Nat.add] in V, C.
    rewrite adc_run_snoc.
    rewrite (adc_step_last last (Electrical.adc_run first s) El) by lia.
    cbn [Electrical.adc_buffer_voltage Electrical.adc_buffer_current
         Electrical.adc_buffer_index Electrical.adc_buffer_ready
         Electrical.adc_running].
    rewrite X, V, C.
    assert (P : forall (b : list Z) (samples : list Z) v,
               Z.of_nat (length b) = Electrical.ADC_BUFFER_SIZE ->
               Z.of_nat (length samples) + 1 = Electrical.ADC_BUFFER_SIZE ->
               Electrical.put (samples ++ skipn (length samples) b)
                              (Z.to_nat (0 + Z.of_nat (length samples))) v
               = (samples ++ [v]) ++ skipn (length (samples ++ [v])) b).
    { intros b samples v Hb Hs.
      rewrite put_split
        by (rewrite length_app, length_skipn; lia).
      replace (Z.to_nat (0 + Z.of_nat (length samples))) with (length samples)
        by lia.
      rewrite firstn_app, Nat.sub_diag, firstn_all. cbn [firstn].
      rewrite app_nil_r, <- app_assoc. cbn [app]. f_equal. f_equal.
      rewrite skipn_all2 by (rewrite length_app, length_skipn; lia).
      rewrite skipn_all2 by (rewrite length_app; cbn [length]; lia).
      reflexivity. }
    split; [ | split; [ | split]].
    + rewrite map_app. cbn [map].
      replace (length (first ++ [last]))
        with (length (map Electrical.voltage_conversion first
                        ++ [Electrical.voltage_conversion last]))
        by (rewrite !length_app, length_map; reflexivity).
      rewrite <- (length_map Electrical.voltage_conversion first).
      apply P; [exact Lv | rewrite length_map; lia].
    + rewrite map_app. cbn [map].
      replace (length (first ++ [last]))
        with (length (map Electrical.current_conversion first
                        ++ [Electrical.current_conversion last]))
        by (rewrite !length_app, length_map; reflexivity).
      rewrite <- (length_map Electrical.current_conversion first).
      apply P; [exact Lc | rewrite length_map; lia].
    + intros H. rewrite length_app in H. cbn [length] in H. lia.
    + intros _. repeat split.
Qed.

Lemma adc_buffer_fills_in_order_then_stops_witness :
  Forall (fun irq => Electrical.eoc irq = true)
         [Electrical.mk_adc_irq true 512 300; Electrical.mk_adc_irq true 530 310] /\
  Electrical.adc_buffer_index example_adc_idle = 0 /\
  Z.of_nat (length (Electrical.adc_buffer_voltage example_adc_idle))
    = Electrical.ADC_BUFFER_SIZE /\
  Z.of_nat (length (Electrical.adc_buffer_current example_adc_idle))
    = Electrical.ADC_BUFFER_SIZE /\
  Z.of_nat (length [Electrical.mk_adc_irq true 512 300;
                    Electrical.mk_adc_irq true 530 310])
    <= Electrical.ADC_BUFFER_SIZE /\
  Electrical.adc_buffer_voltage
    (Electrical.adc_run [Electrical.mk_adc_irq true 512 300;
                         Electrical.mk_adc_irq true 530 310] example_adc_idle)
    = [512; 530] ++ skipn 2 (Electrical.adc_buffer_voltage example_adc_idle).
Proof.
  assert (E : Forall (fun irq => Electrical.eoc irq = true)
                [Electrical.mk_adc_irq true 512 300;
                 Electrical.mk_adc_irq true 530 310])
    by (repeat constructor).
  assert (I : Electrical.adc_buffer_index example_adc_idle = 0) by reflexivity.
  assert (Lv : Z.of_nat (length (Electrical.adc_buffer_voltage example_adc_idle))
               = Electrical.ADC_BUFFER_SIZE)
    by (vm_compute; reflexivity).
  assert (Lc : Z.of_nat (length (Electrical.adc_buffer_current example_adc_idle))
               = Electrical.ADC_BUFFER_SIZE)
    by (vm_compute; reflexivity).
  assert (N : Z.of_nat (length [Electrical.mk_adc_irq true 512 300;
                                Electrical.mk_adc_irq true 530 310])
              <= Electrical.ADC_BUFFER_SIZE)
    by (vm_compute; discriminate).
  split; [exact E | split; [exact I | split; [exact Lv | split; [exact Lc | ]]]].
  split; [exact N | ].
  destruct (adc_buffer_fills_in_order_then_stops _ _ E I Lv Lc N) as [V _].
  exact V.
Defined.

(** ** The LoRaWAN-only firmware *)

Lemma init_loop_spec answers :
  forall n e,
    0 <= n <= 5 ->
    (Z.to_nat (5 - n) < length answers)%nat ->
    exists e',
      LoRaOnly.init_loop answers n e
      = Some (init_result
                (nth (Nat.min (leading_failures answers) (Z.to_nat (5 - n)))
                     answers false),
              n + Z.of_nat (Nat.min (leading_failures answers) (Z.to_nat (5 - n))),
              e') /\
      transmitted e' = transmitted e.
Proof.
  induction answers as [ | a rest IH]; intros n e N L.
  - simpl in L. lia.
  - destruct a.
    + simpl. eexists.
      split; [unfold init_result; simpl; rewrite Z.add_0_r; reflexivity | ].
      reflexivity.
    + cbn [LoRaOnly.init_loop leading_failures].
      change (lorawan_init false e)
        with (LORAWAN_ERROR_INIT,
              mk_engine (lorawan_state e) (session e) default_credentials
                        (last_tx_timestamp e) (last_rssi e) (last_snr e)
                        (radio e)).
      cbn [LoRaOnly.is_success negb andb].
      destruct (Z.ltb_spec n 5) as [Lt | Ge].
      * assert (U : u8 (n + 1) = n + 1)
          by (unfold u8; apply Z.mod_small; lia).
        rewrite U.
        destruct (IH (n + 1)
                     (mk_engine (lorawan_state e) (session e) default_credentials
                                (last_tx_timestamp e) (last_rssi e) (last_snr e)
                                (radio e)))
          as (e' & E & T); [lia | cbn [length] in L; lia | ].
        exists e'. split; [ | exact T].
        rewrite E.
        replace (Z.to_nat (5 - n)) with (S (Z.to_nat (5 - (n + 1)))) by lia.
        rewrite <- Nat.succ_min_distr. cbn [nth].
        do 3 f_equal. lia.
      * assert (n = 5) by lia. subst n.
        eexists.
        split; [change (Z.to_nat (5 - 5)) with 0%nat; rewrite Nat.min_0_r;
                reflexivity | ].
        reflexivity.
Qed.

(** X18 (start-up and safe mode).  The uplink task of the LoRaWAN-only
    firmware ends in its safe mode exactly when the first five radio
    initialisations fail.  A sixth initialisation is still made, and safe
    mode is entered whatever it returns, success included; with fewer than
    five failures the task goes on to the join. *)
Theorem safe_mode_iff_first_five_inits_fail answers env cfg e :
  (6 <= length answers)%nat ->
  ((5 <= leading_failures answers)%nat ->
   exists e',
     LoRaOnly.vLoRaWANTask_startup answers env cfg e
     = Some (LoRaOnly.SafeMode (init_result (nth 5 answers false)) e') /\
     transmitted e' = transmitted e) /\
  ((leading_failures answers < 5)%nat ->
   forall r e',
     LoRaOnly.vLoRaWANTask_startup answers env cfg e
     <> Some (LoRaOnly.SafeMode r e')).
Proof.
  intros L.
  destruct (init_loop_spec answers 0 e) as (e1 & E & T);
    [lia | change (Z.to_nat (5 - 0)) with 5%nat; lia | ].
  change (Z.to_nat (5 - 0)) with 5%nat in E.
  unfold LoRaOnly.vLoRaWANTask_startup. rewrite E.
  split.
  - intros F. rewrite Nat.min_r by exact F.
    exists e1. split; [reflexivity | exact T].
  - intros F r e'. rewrite Nat.min_l by lia.
    destruct (Z.leb_spec 5 (0 + Z.of_nat (leading_failures answers)));
      [lia | ].
    destruct (lorawan_join env e1) as [[j e2] | ]; discriminate.
Qed.

Lemma safe_mode_iff_first_five_inits_fail_witness :
  (6 <= length [false; false; false; false; false; true])%nat /\
  exists e',
    LoRaOnly.vLoRaWANTask_startup [false; false; false; false; false; true]
                                  example_join_env LoRaOnly.device_config
                                  power_on
    = Some (LoRaOnly.SafeMode LORAWAN_SUCCESS e').
Proof.
  assert (L : (6 <= length [false; false; false; false; false; true])%nat)
    by (simpl; lia).
  split; [exact L | ].
  destruct (safe_mode_iff_first_five_inits_fail
              [false; false; false; false; false; true]
              example_join_env LoRaOnly.device_config power_on L)
    as [S _].
  destruct S as (e' & S & _); [simpl; lia | ].
  exists e'. exact S.
Defined.

(** The retry loop of a turn: it is left after a send that went through,
    or after three that did not. *)
Lemma retry_loop_cases envs payload :
  forall c seq e c' seq' e',
    0 <= c <= 3 ->
    LoRaOnly.retry_loop envs payload c seq e = Some (c', seq', e') ->
    (c' = 3 /\ seq' = seq /\ e' = e)
    \/
    (c' < 3 /\ seq' = u16 (seq + 1) /\
     exists env,
       In env (firstn (Z.to_nat (3 - c)) envs) /\
       lorawan_send env payload 11 1 e = Some (LORAWAN_SUCCESS, e')).
Proof.
  induction envs as [ | env rest IH]; intros c seq e c' seq' e' C H.
  - simpl in H. destruct (Z.ltb_spec c 3); [discriminate H | ].
    inversion H; subst. left. repeat split. lia.
  - cbn [LoRaOnly.retry_loop] in H.
    destruct (Z.ltb_spec c 3) as [Lt | Ge].
    + destruct (lorawan_send env payload 11 1 e) as [[r e1] | ] eqn:S;
        [ | discriminate H].
      assert (F : Z.to_nat (3 - c) = Datatypes.S (Z.to_nat (3 - (c + 1))))
        by lia.
      assert (C1 : 0 <= c + 1 <= 3) by lia.
      destruct (send_cases _ _ _ _ _ _ _ S)
        as [(-> & -> & _) | [(-> & -> & _) | [(-> & -> & _) | (-> & _)]]].
      1-3: assert (U : u8 (c + 1) = c + 1)
             by (unfold u8; apply Z.mod_small; lia);
           rewrite U in H;
           destruct (IH _ _ _ _ _ _ C1 H)
             as [K | (K1 & K2 & env' & I & K3)];
           [ left; exact K
           | right; split; [exact K1 | split; [exact K2 | ]];
             exists env'; split; [rewrite F; right; exact I | exact K3] ].
      inversion H; subst. right.
      split; [lia | split; [reflexivity | ]].
      exists env. split; [rewrite F; left; reflexivity | exact S].
    + inversion H; subst. left. repeat split. lia.
Qed.

Lemma sleep_wakeup_keeps e :
  session (lorawan_wakeup (lorawan_sleep e)) = session e /\
  transmitted (lorawan_wakeup (lorawan_sleep e)) = transmitted e /\
  last_tx_timestamp (lorawan_wakeup (lorawan_sleep e)) = last_tx_timestamp e.
Proof.
  unfold lorawan_wakeup, lorawan_sleep, transmitted.
  destruct e as [st s c t r sn rd]. cbn.
  destruct (joined s); cbn; repeat split.
Qed.

Lemma turn_cases sensor_data envs s s' :
  LoRaOnly.vLoRaWANTask_turn sensor_data envs s = Some s' ->
  (transmitted (LoRaOnly.engine_of s') = transmitted (LoRaOnly.engine_of s) /\
   LoRaOnly.packet_sequence s' = LoRaOnly.packet_sequence s /\
   session (LoRaOnly.engine_of s') = session (LoRaOnly.engine_of s) /\
   last_tx_timestamp (LoRaOnly.engine_of s')
     = last_tx_timestamp (LoRaOnly.engine_of s) /\
   LoRaOnly.config s' = LoRaOnly.with_sampling_rate 1800000 (LoRaOnly.config s))
  \/
  (exists env,
     In env (firstn 3 envs) /\
     MIN_TX_GAP <= since_last_tx env (LoRaOnly.engine_of s) /\
     transmitted (LoRaOnly.engine_of s')
       = build_frame (session (LoRaOnly.engine_of s))
                     (LoRaOnly.build_payload (LoRaOnly.config s) sensor_data
                                             (LoRaOnly.packet_sequence s))
                     11 1
         :: transmitted (LoRaOnly.engine_of s) /\
     LoRaOnly.packet_sequence s' = u16 (LoRaOnly.packet_sequence s + 1) /\
     fcnt (LoRaOnly.engine_of s') = u16 (fcnt (LoRaOnly.engine_of s) + 1) /\
     last_tx_timestamp (LoRaOnly.engine_of s')
       = lorawan_get_timestamp (send_counter env) /\
     LoRaOnly.config s' = LoRaOnly.config s).
Proof.
  unfold LoRaOnly.vLoRaWANTask_turn. intros H.
  destruct (LoRaOnly.retry_loop envs _ 0 (LoRaOnly.packet_sequence s)
                                (LoRaOnly.engine_of s))
    as [[[c q] e1] | ] eqn:R; [ | discriminate H].
  inversion H; subst s'; clear H.
  cbn [LoRaOnly.engine_of LoRaOnly.packet_sequence LoRaOnly.config].
  assert (C0 : 0 <= 0 <= 3) by lia.
  destruct (retry_loop_cases _ _ _ _ _ _ _ _ C0 R)
    as [(-> & -> & ->) | (C & -> & env & I & S)].
  - left. change (3 <=? 3) with true. cbv iota.
    destruct (negb (LoRaOnly.low_power_mode _ =? 0)).
    + destruct (sleep_wakeup_keeps (LoRaOnly.engine_of s)) as (A & B & D).
      repeat split; assumption.
    + repeat split.
  - right. exists env.
    change (Z.to_nat (3 - 0)) with 3%nat in I.
    destruct (Z.leb_spec 3 c) as [ | _]; [lia | ].
    destruct (send_cases _ _ _ _ _ _ _ S)
      as [(D & _) | [(D & _) | [(D & _) | (_ & -> & _ & _ & G & _)]]];
      try discriminate D.
    assert (K : forall e2,
               session e2 = session (after_send env
                 (LoRaOnly.build_payload (LoRaOnly.config s) sensor_data
                                         (LoRaOnly.packet_sequence s))
                 11 1 (LoRaOnly.engine_of s)) ->
               transmitted e2 = transmitted (after_send env
                 (LoRaOnly.build_payload (LoRaOnly.config s) sensor_data
                                         (LoRaOnly.packet_sequence s))
                 11 1 (LoRaOnly.engine_of s)) ->
               last_tx_timestamp e2 = last_tx_timestamp (after_send env
                 (LoRaOnly.build_payload (LoRaOnly.config s) sensor_data
                                         (LoRaOnly.packet_sequence s))
                 11 1 (LoRaOnly.engine_of s)) ->
               transmitted e2
               = build_frame (session (LoRaOnly.engine_of s))
                   (LoRaOnly.build_payload (LoRaOnly.config s) sensor_data
                                           (LoRaOnly.packet_sequence s)) 11 1
                 :: transmitted (LoRaOnly.engine_of s) /\
               u16 (LoRaOnly.packet_sequence s + 1)
               = u16 (LoRaOnly.packet_sequence s + 1) /\
               fcnt e2 = u16 (fcnt (LoRaOnly.engine_of s) + 1) /\
               last_tx_timestamp e2 = lorawan_get_timestamp (send_counter env) /\
               LoRaOnly.config s = LoRaOnly.config s).
    { intros e2 A B D. unfold fcnt. rewrite A, B, D.
      repeat split. }
    split; [exact I | split; [exact G | ]].
    destruct (negb (LoRaOnly.low_power_mode _ =? 0)).
    + destruct (sleep_wakeup_keeps (after_send env
                 (LoRaOnly.build_payload (LoRaOnly.config s) sensor_data
                                         (LoRaOnly.packet_sequence s))
                 11 1 (LoRaOnly.engine_of s))) as (A & B & D).
      apply K; assumption.
    + apply K; reflexivity.
Qed.

(** X19 (one frame per turn).  A turn of the uplink task hands at most one
    frame to the radio, however many of its three attempts it uses.  When it
    sends, the frame is the one built from the reading and the sequence
    number of the turn, the sequence number and the frame counter both go up
    by one, and the configuration is untouched; when it does not, session,
    sequence number and duty-cycle clock are as before and the sampling
    interval is set to 30 minutes. *)
Theorem turn_sends_at_most_one_frame sensor_data envs s s' :
  LoRaOnly.vLoRaWANTask_turn sensor_data envs s = Some s' ->
  (transmitted (LoRaOnly.engine_of s') = transmitted (LoRaOnly.engine_of s) /\
   LoRaOnly.packet_sequence s' = LoRaOnly.packet_sequence s /\
   session (LoRaOnly.engine_of s') = session (LoRaOnly.engine_of s) /\
   last_tx_timestamp (LoRaOnly.engine_of s')
     = last_tx_timestamp (LoRaOnly.engine_of s) /\
   LoRaOnly.sampling_rate (LoRaOnly.config s') = 1800000)
  \/
  (exists env,
     In env (firstn 3 envs) /\
     MIN_TX_GAP <= since_last_tx env (LoRaOnly.engine_of s) /\
     transmitted (LoRaOnly.engine_of s')
       = build_frame (session (LoRaOnly.engine_of s))
                     (LoRaOnly.build_payload (LoRaOnly.config s) sensor_data
                                             (LoRaOnly.packet_sequence s))
                     11 1
         :: transmitted (LoRaOnly.engine_of s) /\
     LoRaOnly.packet_sequence s' = u16 (LoRaOnly.packet_sequence s + 1) /\
     fcnt (LoRaOnly.engine_of s') = u16 (fcnt (LoRaOnly.engine_of s) + 1) /\
     last_tx_timestamp (LoRaOnly.engine_of s')
       = lorawan_get_timestamp (send_counter env) /\
     LoRaOnly.config s' = LoRaOnly.config s).
Proof.
  intros H.
  destruct (turn_cases _ _ _ _ H) as [(A & B & C & D & E) | K].
  - left. rewrite E. repeat split; assumption.
  - right. exact K.
Qed.

Lemma turn_sends_at_most_one_frame_witness :
  exists s',
    LoRaOnly.vLoRaWANTask_turn example_reading [env_at 200000] example_task
    = Some s' /\
    ((transmitted (LoRaOnly.engine_of s')
        = transmitted (LoRaOnly.engine_of example_task) /\
      LoRaOnly.packet_sequence s' = LoRaOnly.packet_sequence example_task /\
      session (LoRaOnly.engine_of s')
        = session (LoRaOnly.engine_of example_task) /\
      last_tx_timestamp (LoRaOnly.engine_of s')
        = last_tx_timestamp (LoRaOnly.engine_of example_task) /\
      LoRaOnly.sampling_rate (LoRaOnly.config s') = 1800000)
     \/
     (exists env,
        In env (firstn 3 [env_at 200000]) /\
        MIN_TX_GAP <= since_last_tx env (LoRaOnly.engine_of example_task) /\
        transmitted (LoRaOnly.engine_of s')
          = build_frame (session (LoRaOnly.engine_of example_task))
                        (LoRaOnly.build_payload (LoRaOnly.config example_task)
                           example_reading
                           (LoRaOnly.packet_sequence example_task))
                        11 1
            :: transmitted (LoRaOnly.engine_of example_task) /\
        LoRaOnly.packet_sequence s'
          = u16 (LoRaOnly.packet_sequence example_task + 1) /\
        fcnt (LoRaOnly.engine_of s')
          = u16 (fcnt (LoRaOnly.engine_of example_task) + 1) /\
        last_tx_timestamp (LoRaOnly.engine_of s')
          = lorawan_get_timestamp (send_counter env) /\
        LoRaOnly.config s' = LoRaOnly.config example_task)).
Proof.
  destruct (LoRaOnly.vLoRaWANTask_turn example_reading [env_at 200000]
                                       example_task) as [s' | ] eqn:H.
  - exists s'. split; [reflexivity | ].
    exact (turn_sends_at_most_one_frame _ _ _ _ H).
  - vm_compute in H. discriminate H.
Defined.

(** The initialisation loop is left with fewer than five retries only on a
    success, which leaves the engine idle with an empty session. *)
Lemma init_loop_success answers :
  forall n e r n' e',
    0 <= n ->
    LoRaOnly.init_loop answers n e = Some (r, n', e') ->
    n' < 5 ->
    lorawan_state e' = LORAWAN_STATE_IDLE /\
    session e' = set_joined false zero_session.
Proof.
  induction answers as [ | a rest IH]; intros n e r n' e' N H L.
  - discriminate H.
  - cbn [LoRaOnly.init_loop] in H. destruct a.
    + simpl in H. inversion H; subst. split; reflexivity.
    + change (lorawan_init false e)
        with (LORAWAN_ERROR_INIT,
              mk_engine (lorawan_state e) (session e) default_credentials
                        (last_tx_timestamp e) (last_rssi e) (last_snr e)
                        (radio e)) in H.
      cbn [LoRaOnly.is_success negb andb] in H.
      destruct (Z.ltb_spec n 5) as [Lt | Ge].
      * assert (U : u8 (n + 1) = n + 1)
          by (unfold u8; apply Z.mod_small; lia).
        rewrite U in H.
        assert (N1 : 0 <= n + 1) by lia.
        apply (IH _ _ _ _ _ N1 H L).
      * inversion H; subst. lia.
Qed.

(** The task enters its main loop with sequence number and frame counter
    both at zero, and joined only if the join succeeded. *)
Lemma startup_running answers env cfg e j s :
  LoRaOnly.vLoRaWANTask_startup answers env cfg e = Some (LoRaOnly.Running j s) ->
  LoRaOnly.packet_sequence s = 0 /\
  fcnt (LoRaOnly.engine_of s) = 0 /\
  (j <> LORAWAN_SUCCESS -> joined (session (LoRaOnly.engine_of s)) = false).
Proof.
  unfold LoRaOnly.vLoRaWANTask_startup. intros H.
  destruct (LoRaOnly.init_loop answers 0 e) as [[[r n] e1] | ] eqn:I;
    [ | discriminate H].
  destruct (Z.leb_spec 5 n) as [ | Lt]; [discriminate H | ].
  destruct (lorawan_join env e1) as [[j' e2] | ] eqn:J; [ | discriminate H].
  inversion H; subst j' s; clear H.
  cbn [LoRaOnly.packet_sequence LoRaOnly.engine_of].
  destruct (init_loop_success _ _ _ _ _ _ (Z.le_refl 0) I Lt) as [St Se].
  split; [reflexivity | ].
  destruct (join_returns_inv _ _ _ _ J) as [(_ & _ & B) | (_ & _ & W)];
    [contradiction | ].
  destruct (join_wait_cases _ _ _ _ _ W)
    as (quiet & p & rest & _ & _ & [(-> & _ & ->) | (-> & _)]).
  - unfold fcnt. cbn. rewrite Se. split; [reflexivity | intros _; reflexivity].
  - destruct (join_success _ _ _ J) as [F _].
    split; [exact F | intros N; contradiction].
Qed.

Lemma task_run_keeps_sequence turns :
  forall s s',
    LoRaOnly.task_run turns s = Some s' ->
    LoRaOnly.packet_sequence s = fcnt (LoRaOnly.engine_of s) ->
    LoRaOnly.packet_sequence s' = fcnt (LoRaOnly.engine_of s').
Proof.
  induction turns as [ | [d envs] rest IH]; intros s s' H E.
  - inversion H; subst. exact E.
  - cbn [LoRaOnly.task_run] in H.
    destruct (LoRaOnly.vLoRaWANTask_turn d envs s) as [s1 | ] eqn:T;
      [ | discriminate H].
    apply (IH _ _ H).
    destruct (turn_cases _ _ _ _ T)
      as [(_ & B & C & _) | (env & _ & _ & _ & B & C & _)].
    + unfold fcnt. rewrite B, C. exact E.
    + rewrite B, C, E. reflexivity.
Qed.

(** X20 (sequence number and frame counter).  From start-up on, whatever the
    turns of the uplink task bring, the packet sequence number of the task
    equals the uplink frame counter of the session: the sequence byte of a
    payload is the low byte of the counter in the header of its frame. *)
Theorem sequence_number_is_the_frame_counter answers env cfg e j s turns s' :
  LoRaOnly.vLoRaWANTask_startup answers env cfg e = Some (LoRaOnly.Running j s) ->
  LoRaOnly.task_run turns s = Some s' ->
  LoRaOnly.packet_sequence s' = fcnt (LoRaOnly.engine_of s') /\
  forall sensor_data,
    nth 10 (LoRaOnly.build_payload (LoRaOnly.config s') sensor_data
                                   (LoRaOnly.packet_sequence s')) 0
    = Z.land (fcnt (LoRaOnly.engine_of s')) 0xFF.
Proof.
  intros S R.
  destruct (startup_running _ _ _ _ _ _ S) as (P & F & _).
  assert (E : LoRaOnly.packet_sequence s' = fcnt (LoRaOnly.engine_of s')).
  { apply (task_run_keeps_sequence _ _ _ R). rewrite P, F. reflexivity. }
  split; [exact E | ].
  intros d. cbn [LoRaOnly.build_payload nth]. rewrite E. reflexivity.
Qed.

Lemma sequence_number_is_the_frame_counter_witness :
  exists j s s',
    LoRaOnly.vLoRaWANTask_startup [false; true] example_join_env
                                  LoRaOnly.device_config power_on
    = Some (LoRaOnly.Running j s) /\
    LoRaOnly.task_run [(example_reading, [env_at 50000; env_at 55000; env_at 60000]);
                       (example_reading, [env_at 200000])] s
    = Some s' /\
    LoRaOnly.packet_sequence s' = fcnt (LoRaOnly.engine_of s').
Proof.
  destruct (LoRaOnly.vLoRaWANTask_startup [false; true] example_join_env
                                          LoRaOnly.device_config power_on)
    as [[r e | j s] | ] eqn:S;
    [vm_compute in S; discriminate S | | vm_compute in S; discriminate S].
  destruct (LoRaOnly.task_run
              [(example_reading, [env_at 50000; env_at 55000; env_at 60000]);
               (example_reading, [env_at 200000])] s) as [s' | ] eqn:R.
  - exists j, s, s'. split; [reflexivity | split; [exact R | ]].
    exact (proj1 (sequence_number_is_the_frame_counter _ _ _ _ _ _ _ _ S R)).
  - vm_compute in S. inversion S; subst. vm_compute in R. discriminate R.
Defined.

Lemma retry_loop_unjoined envs payload :
  forall c seq e,
    joined (session e) = false ->
    0 <= c <= 3 ->
    (Z.to_nat (3 - c) <= length envs)%nat ->
    LoRaOnly.retry_loop envs payload c seq e = Some (3, seq, e).
Proof.
  induction envs as [ | env rest IH]; intros c seq e J C L.
  - cbn [length] in L. assert (c = 3) by lia. subst. reflexivity.
  - cbn [LoRaOnly.retry_loop].
    destruct (Z.ltb_spec c 3) as [Lt | Ge].
    + rewrite (send_not_ready env payload 11 1 e (or_introl J)).
      assert (U : u8 (c + 1) = c + 1)
        by (unfold u8; apply Z.mod_small; lia).
      rewrite U. apply IH; [exact J | lia | cbn [length] in L; lia].
    + assert (c = 3) by lia. subst. reflexivity.
Qed.

Lemma turn_unjoined d envs s :
  joined (session (LoRaOnly.engine_of s)) = false ->
  (3 <= length envs)%nat ->
  exists s',
    LoRaOnly.vLoRaWANTask_turn d envs s = Some s' /\
    transmitted (LoRaOnly.engine_of s') = transmitted (LoRaOnly.engine_of s) /\
    joined (session (LoRaOnly.engine_of s')) = false /\
    LoRaOnly.sampling_rate (LoRaOnly.config s') = 1800000.
Proof.
  intros J L. unfold LoRaOnly.vLoRaWANTask_turn.
  rewrite retry_loop_unjoined;
    [ | exact J | lia | change (Z.to_nat (3 - 0)) with 3%nat; exact L].
  change (3 <=? 3) with true. cbv iota.
  eexists. split; [reflexivity | ].
  cbn [LoRaOnly.engine_of LoRaOnly.config].
  destruct (negb (LoRaOnly.low_power_mode _ =? 0)).
  - destruct (sleep_wakeup_keeps (LoRaOnly.engine_of s)) as (A & B & _).
    rewrite A, B. repeat split. exact J.
  - repeat split. exact J.
Qed.

Lemma task_run_unjoined turns :
  forall s,
    joined (session (LoRaOnly.engine_of s)) = false ->
    Forall (fun t => (3 <= length (snd t))%nat) turns ->
    exists s',
      LoRaOnly.task_run turns s = Some s' /\
      transmitted (LoRaOnly.engine_of s') = transmitted (LoRaOnly.engine_of s) /\
      joined (session (LoRaOnly.engine_of s')) = false /\
      (turns <> [] ->
       LoRaOnly.sampling_rate (LoRaOnly.config s') = 1800000).
Proof.
  induction turns as [ | [d envs] rest IH]; intros s J F.
  - exists s. repeat split; [exact J | intros N; contradiction].
  - inversion F as [ | t l L F']; subst. cbn [snd] in L.
    destruct (turn_unjoined d envs s J L) as (s1 & T & A & B & C).
    destruct (IH s1 B F') as (s' & R & A' & B' & C').
    exists s'. cbn [LoRaOnly.task_run]. rewrite T.
    split; [exact R | split; [rewrite A'; exact A | split; [exact B' | ]]].
    intros _. destruct rest as [ | t rest'].
    + inversion R; subst. exact C.
    + apply C'. discriminate.
Qed.

(** X21 (a failed join is final).  When the join at start-up fails, the task
    lowers its sampling and enters its main loop, but no turn joins again:
    every attempt of every turn is refused, nothing is ever handed to the
    radio, the engine stays unjoined, and from the first turn on the sampling
    interval is the 30 minutes of a failed transmission. *)
Theorem failed_join_is_never_retried answers env cfg e j s turns :
  LoRaOnly.vLoRaWANTask_startup answers env cfg e = Some (LoRaOnly.Running j s) ->
  j <> LORAWAN_SUCCESS ->
  Forall (fun t => (3 <= length (snd t))%nat) turns ->
  exists s',
    LoRaOnly.task_run turns s = Some s' /\
    transmitted (LoRaOnly.engine_of s') = transmitted (LoRaOnly.engine_of s) /\
    joined (session (LoRaOnly.engine_of s')) = false /\
    (turns <> [] -> LoRaOnly.sampling_rate (LoRaOnly.config s') = 1800000).
Proof.
  intros S N F.
  destruct (startup_running _ _ _ _ _ _ S) as (_ & _ & J).
  exact (task_run_unjoined turns s (J N) F).
Qed.

Lemma failed_join_is_never_retried_witness :
  exists s s',
    LoRaOnly.vLoRaWANTask_startup [false; true] example_join_timeout
                                  LoRaOnly.device_config power_on
    = Some (LoRaOnly.Running LORAWAN_ERROR_JOIN s) /\
    LoRaOnly.task_run [(example_reading, [env_at 200000; env_at 205000; env_at 210000])] s
    = Some s' /\
    transmitted (LoRaOnly.engine_of s') = transmitted (LoRaOnly.engine_of s).
Proof.
  exists example_task_unjoined.
  assert (S : LoRaOnly.vLoRaWANTask_startup [false; true] example_join_timeout
                                            LoRaOnly.device_config power_on
              = Some (LoRaOnly.Running LORAWAN_ERROR_JOIN example_task_unjoined))
    by (vm_compute; reflexivity).
  assert (N : LORAWAN_ERROR_JOIN <> LORAWAN_SUCCESS) by discriminate.
  assert (F : Forall (fun t : LoRaOnly.sensor_packet_t * list send_env =>
                        (3 <= length (snd t))%nat)
                [(example_reading, [env_at 200000; env_at 205000; env_at 210000])])
    by (repeat constructor).
  destruct (failed_join_is_never_retried _ _ _ _ _ _ _ S N F)
    as (s' & R & T & _).
  exists s'. split; [exact S | split; [exact R | exact T]].
Defined.

(** X22 (power plan).  [vPowerTask] replaces sampling interval, spreading
    factor and transmit power by values that depend on the battery level
    alone, whatever other tasks had set: a lower battery never gives a
    shorter sampling interval, a lower spreading factor or a higher transmit
    power.  Sector, node and the sleep mode are left alone. *)
Theorem power_plan_is_monotone_in_battery b1 b2 cfg1 cfg2 :
  b1 <= b2 ->
  LoRaOnly.sampling_rate (LoRaOnly.vPowerTask_step b2 cfg2)
    <= LoRaOnly.sampling_rate (LoRaOnly.vPowerTask_step b1 cfg1) /\
  LoRaOnly.lora_sf (LoRaOnly.vPowerTask_step b2 cfg2)
    <= LoRaOnly.lora_sf (LoRaOnly.vPowerTask_step b1 cfg1) /\
  LoRaOnly.tx_power (LoRaOnly.vPowerTask_step b1 cfg1)
    <= LoRaOnly.tx_power (LoRaOnly.vPowerTask_step b2 cfg2) /\
  LoRaOnly.sector_id (LoRaOnly.vPowerTask_step b1 cfg1) = LoRaOnly.sector_id cfg1 /\
  LoRaOnly.node_id (LoRaOnly.vPowerTask_step b1 cfg1) = LoRaOnly.node_id cfg1 /\
  LoRaOnly.low_power_mode (LoRaOnly.vPowerTask_step b1 cfg1)
    = LoRaOnly.low_power_mode cfg1.
Proof.
  intros L. unfold LoRaOnly.vPowerTask_step.
  destruct (Z.ltb_spec b1 20), (Z.ltb_spec b1 50),
           (Z.ltb_spec b2 20), (Z.ltb_spec b2 50);
    cbn; repeat split; lia.
Qed.

Lemma power_plan_is_monotone_in_battery_witness :
  19 <= 50 /\
  LoRaOnly.sampling_rate (LoRaOnly.vPowerTask_step 50 LoRaOnly.device_config)
    <= LoRaOnly.sampling_rate
         (LoRaOnly.vPowerTask_step 19
            (LoRaOnly.with_sampling_rate 60000 LoRaOnly.device_config)).
Proof.
  assert (L : 19 <= 50) by lia.
  split; [exact L | ].
  exact (proj1 (power_plan_is_monotone_in_battery
                  19 50
                  (LoRaOnly.with_sampling_rate 60000 LoRaOnly.device_config)
                  LoRaOnly.device_config L)).
Defined.

Lemma i16_small v : -32768 <= v <= 32767 -> i16 v = v.
Proof.
  intros H. unfold i16, u16.
  destruct (Z.ltb_spec (v mod 65536) 32768);
    Z.div_mod_to_equations; lia.
Qed.

Lemma hundredths_close (x : Q) (v : Z) :
  (-1 < inject_Z v - x * 100)%Q ->
  (inject_Z v - x * 100 < 1)%Q ->
  (- (1 # 100) < inject_Z v / 100 - x /\ inject_Z v / 100 - x < 1 # 100)%Q.
Proof.
  intros A B.
  assert (E : (inject_Z v / 100 - x == (inject_Z v - x * 100) / 100)%Q)
    by field.
  rewrite E. split.
  - apply Qlt_shift_div_l; [reflexivity | ]. Lqa.lra.
  - apply Qlt_shift_div_r; [reflexivity | ]. Lqa.lra.
Qed.

Lemma be16_of_fixed v :
  -32768 <= v <= 32767 ->
  i16 (be16 (Z.land (Z.shiftr v 8) 255) (Z.land v 255)) = v.
Proof.
  intros H. unfold i16, u16, be16.
  rewrite Z.shiftr_div_pow2 by lia.
  change 255 with (Z.ones 8). rewrite !Z.land_ones by lia.
  change (2 ^ 8) with 256.
  destruct (Z.ltb_spec ((256 * (v / 256 mod 256) + v mod 256) mod 65536) 32768);
    Z.div_mod_to_equations; lia.
Qed.

(** ** Rounding to a floating-point format *)

Lemma Qpow2_nonpos e :
  e <= 0 -> (Qpow2 e * inject_Z (2 ^ (- e)) == 1)%Q.
Proof.
  intros H. unfold Qpow2.
  assert (P : 0 < 2 ^ (- e)) by (apply Z.pow_pos_nonneg; lia).
  destruct (Z.leb_spec 0 e) as [E | E].
  - assert (e = 0) by lia. subst e. reflexivity.
  - unfold Qeq, Qmult, inject_Z. cbn [Qnum Qden].
    rewrite Pos.mul_1_r, Z2Pos.id by exact P. lia.
Qed.

Lemma Qlog2_lt n q :
  0 <= n -> (0 < q)%Q -> (q < inject_Z (2 ^ n))%Q -> Qlog2 q < n.
Proof.
  intros N P U. unfold Qlog2.
  destruct q as [a b]. cbn [Qnum Qden].
  assert (A : 0 < a) by (unfold Qlt in P; simpl in P; lia).
  unfold Qlt, inject_Z in U. cbn [Qnum Qden] in U.
  destruct (Z.log2_spec a A) as [A1 A2].
  destruct (Z.log2_spec (Z.pos b) (Pos2Z.is_pos b)) as [B1 B2].
  set (la := Z.log2 a) in *. set (lb := Z.log2 (Z.pos b)) in *.
  assert (La : 0 <= la) by apply Z.log2_nonneg.
  assert (Lb : 0 <= lb) by apply Z.log2_nonneg.
  assert (P2 : 0 < 2 ^ n) by (apply Z.pow_pos_nonneg; lia).
  destruct (Z_lt_le_dec (la - lb) n) as [K | K].
  - destruct (Qle_bool _ _); lia.
  - destruct (Z_lt_le_dec (la - lb) (n + 1)) as [K1 | K1].
    + destruct (Qle_bool (Qpow2 (la - lb)) (a # b)) eqn:Q; [ | lia].
      exfalso. apply Qle_bool_iff in Q. unfold Qpow2 in Q.
      destruct (Z.leb_spec 0 (la - lb)); [ | lia].
      unfold Qle, inject_Z in Q. cbn [Qnum Qden] in Q.
      replace (la - lb) with n in Q by lia. lia.
    + exfalso.
      assert (E2 : 2 ^ la = 2 ^ (la - lb - n - 1) * (2 ^ n * 2 ^ (lb + 1))).
      { rewrite <- !Z.pow_add_r by lia. f_equal. lia. }
      assert (G2 : 1 <= 2 ^ (la - lb - n - 1))
        by (apply (Z.pow_le_mono_r 2 0); lia).
      assert (M : 2 ^ n * Z.pos b < 2 ^ n * 2 ^ (lb + 1))
        by (apply Z.mul_lt_mono_pos_l; lia).
      assert (M2 : 2 ^ n * 2 ^ (lb + 1)
                   <= 2 ^ (la - lb - n - 1) * (2 ^ n * 2 ^ (lb + 1))).
      { rewrite <- (Z.mul_1_l (2 ^ n * 2 ^ (lb + 1))) at 1.
        apply Z.mul_le_mono_nonneg_r; lia. }
      lia.
Qed.

Lemma Qround_even_near z :
  Qfloor z <= Qround_even z <= Qfloor z + 1 /\
  (- (1 # 2) <= inject_Z (Qround_even z) - z <= 1 # 2)%Q.
Proof.
  unfold Qround_even.
  pose proof (Qfloor_le z) as L. pose proof (Qlt_floor z) as U.
  rewrite inject_Z_plus in U. change (inject_Z 1) with 1%Q in U.
  destruct (Qcompare_spec (z - inject_Z (Qfloor z)) (1 # 2)) as [E | E | E].
  - destruct (Z.even (Qfloor z)).
    + split; [lia | Lqa.lra].
    + split; [lia | ].
      rewrite inject_Z_plus. change (inject_Z 1) with 1%Q. Lqa.lra.
  - split; [lia | Lqa.lra].
  - split; [lia | ].
    rewrite inject_Z_plus. change (inject_Z 1) with 1%Q. Lqa.lra.
Qed.

Lemma Qround_even_Z z n : (z == inject_Z n)%Q -> Qround_even z = n.
Proof.
  intros E. destruct (Qround_even_near z) as [_ [A B]].
  set (r := Qround_even z) in *.
  assert (A' : n - 1 < r).
  { rewrite Zlt_Qlt. unfold Z.sub. rewrite inject_Z_plus, inject_Z_opp.
    change (inject_Z 1) with 1%Q. Lqa.lra. }
  assert (B' : r < n + 1).
  { rewrite Zlt_Qlt. rewrite inject_Z_plus. change (inject_Z 1) with 1%Q.
    Lqa.lra. }
  lia.
Qed.

Lemma Qround_even_comp a b : (a == b)%Q -> Qround_even a = Qround_even b.
Proof.
  intros E. unfold Qround_even.
  assert (F : Qfloor a = Qfloor b) by (apply Qfloor_comp; exact E).
  assert (C : (a - inject_Z (Qfloor a) ?= 1 # 2)%Q
              = (b - inject_Z (Qfloor b) ?= 1 # 2)%Q).
  { apply Qcompare_comp; [ | reflexivity]. rewrite F, E. reflexivity. }
  rewrite C, F. reflexivity.
Qed.

(** Below [2 ^ prec] the format has no gap wider than 1: the rounded value
    is a multiple of a power of two at most 1. *)
Lemma fp_round_scaled prec emin x :
  0 < prec -> emin <= 0 ->
  (Qabs x < inject_Z (2 ^ prec))%Q ->
  exists k,
    0 <= k /\
    (fp_round prec emin x * inject_Z (2 ^ k)
     == inject_Z (Qround_even (x * inject_Z (2 ^ k))))%Q.
Proof.
  intros P M B. unfold fp_round.
  destruct (Qeq_bool x 0) eqn:Z0.
  - exists 0. apply Qeq_bool_iff in Z0. split; [lia | ].
    rewrite (Qround_even_Z _ 0);
      [change (inject_Z 0) with 0%Q; Lqa.lra | ].
    rewrite Z0. change (inject_Z 0) with 0%Q. Lqa.lra.
  - assert (NZ : ~ (x == 0)%Q) by (apply Qeq_bool_neq; exact Z0).
    assert (A : (0 < Qabs x)%Q).
    { destruct (Qlt_le_dec 0 (Qabs x)) as [ | C]; [assumption | ].
      exfalso. apply NZ.
      pose proof (Qabs_nonneg x).
      assert (H0 : (Qabs x == 0)%Q) by Lqa.lra.
      revert H0. apply Qabs_case; intros; Lqa.lra. }
    pose proof (Qlog2_lt prec (Qabs x) (Z.lt_le_incl _ _ P) A B) as L.
    set (e := Z.max emin (Qlog2 (Qabs x) - (prec - 1))).
    assert (E : e <= 0) by (unfold e; lia).
    exists (- e). split; [lia | ].
    pose proof (Qpow2_nonpos e E) as S.
    assert (P2 : (0 < inject_Z (2 ^ (- e)))%Q).
    { change 0%Q with (inject_Z 0). rewrite <- Zlt_Qlt.
      apply Z.pow_pos_nonneg; lia. }
    assert (Qp : ~ (Qpow2 e == 0)%Q).
    { intros C. rewrite C in S. Lqa.lra. }
    assert (I : (/ Qpow2 e == inject_Z (2 ^ (- e)))%Q).
    { rewrite <- (Qmult_1_l (inject_Z (2 ^ (- e)))).
      rewrite <- (Qmult_inv_r _ Qp).
      rewrite (Qmult_comm (Qpow2 e)), <- Qmult_assoc, S. Lqa.lra. }
    assert (R : Qround_even (x / Qpow2 e)
                = Qround_even (x * inject_Z (2 ^ (- e)))).
    { apply Qround_even_comp. unfold Qdiv. rewrite I. reflexivity. }
    rewrite R, <- Qmult_assoc, S. Lqa.lra.
Qed.

Lemma fp_round_Z prec emin x n :
  0 < prec -> emin <= 0 ->
  (Qabs x < inject_Z (2 ^ prec))%Q ->
  (x == inject_Z n)%Q -> (fp_round prec emin x == inject_Z n)%Q.
Proof.
  intros P M B E.
  destruct (fp_round_scaled prec emin x P M B) as (k & K & Y).
  assert (S : (0 < inject_Z (2 ^ k))%Q).
  { change 0%Q with (inject_Z 0). rewrite <- Zlt_Qlt.
    apply Z.pow_pos_nonneg; lia. }
  rewrite (Qround_even_Z _ (n * 2 ^ k)) in Y
    by (rewrite E, inject_Z_mult; reflexivity).
  rewrite inject_Z_mult in Y.
  apply (Qmult_inj_r _ _ (inject_Z (2 ^ k))); [Lqa.lra | exact Y].
Qed.

Lemma fp_round_between prec emin x :
  0 < prec -> emin <= 0 ->
  (Qabs x < inject_Z (2 ^ prec))%Q ->
  (inject_Z (Qfloor x) <= fp_round prec emin x <= inject_Z (Qfloor x) + 1)%Q.
Proof.
  intros P M B.
  destruct (fp_round_scaled prec emin x P M B) as (k & K & Y).
  set (y := fp_round prec emin x) in *.
  set (s := 2 ^ k) in *.
  assert (S : (0 < inject_Z s)%Q).
  { change 0%Q with (inject_Z 0). rewrite <- Zlt_Qlt.
    apply Z.pow_pos_nonneg; lia. }
  set (n := Qfloor x).
  pose proof (Qfloor_le x) as L. pose proof (Qlt_floor x) as U. fold n in L, U.
  destruct (Qround_even_near (x * inject_Z s)) as [[R1 R2] _].
  set (r := Qround_even (x * inject_Z s)) in *.
  assert (F1 : n * s <= Qfloor (x * inject_Z s)).
  { rewrite <- (Qfloor_Z (n * s)). apply Qfloor_resp_le.
    rewrite inject_Z_mult. apply Qmult_le_compat_r; [exact L | Lqa.lra]. }
  assert (F2 : Qfloor (x * inject_Z s) < (n + 1) * s).
  { rewrite Zlt_Qlt. apply Qle_lt_trans with (x * inject_Z s)%Q;
      [apply Qfloor_le | ].
    rewrite inject_Z_mult. apply Qmult_lt_compat_r; [exact S | exact U]. }
  assert (G1 : (inject_Z n * inject_Z s <= y * inject_Z s)%Q).
  { rewrite Y, <- inject_Z_mult, <- Zle_Qle. lia. }
  assert (G2 : (y * inject_Z s <= (inject_Z n + 1) * inject_Z s)%Q).
  { rewrite Y. change 1%Q with (inject_Z 1).
    rewrite <- inject_Z_plus, <- inject_Z_mult, <- Zle_Qle. lia. }
  split.
  - apply (Qmult_le_r _ _ (inject_Z s)); assumption.
  - apply (Qmult_le_r _ _ (inject_Z s)); assumption.
Qed.

Lemma Qtrunc_between y a b :
  (inject_Z a <= y <= inject_Z b)%Q -> a <= Qtrunc y <= b.
Proof.
  destruct y as [p q]. unfold Qle, inject_Z, Qtrunc. cbn [Qnum Qden].
  intros [A B]. rewrite Z.mul_1_r in A, B.
  Z.quot_rem_to_equations. nia.
Qed.

(** Truncating the rounded value of [x] gives an integer less than 1 away
    from [x], and one inside any integer bounds of [x]. *)
Lemma Qtrunc_fp_round prec emin x :
  0 < prec -> emin <= 0 ->
  (Qabs x < inject_Z (2 ^ prec))%Q ->
  (-1 < inject_Z (Qtrunc (fp_round prec emin x)) - x)%Q /\
  (inject_Z (Qtrunc (fp_round prec emin x)) - x < 1)%Q /\
  forall a b,
    (inject_Z a <= x)%Q -> (x <= inject_Z b)%Q ->
    a <= Qtrunc (fp_round prec emin x) <= b.
Proof.
  intros P M B.
  destruct (fp_round_between prec emin x P M B) as [Y1 Y2].
  pose proof (Qfloor_le x) as L. pose proof (Qlt_floor x) as U.
  rewrite inject_Z_plus in U. change (inject_Z 1) with 1%Q in U.
  set (n := Qfloor x) in *. set (y := fp_round prec emin x) in *.
  assert (T : n <= Qtrunc y <= n + 1).
  { apply Qtrunc_between. rewrite inject_Z_plus.
    change (inject_Z 1) with 1%Q. split; assumption. }
  assert (I : (x == inject_Z n)%Q -> Qtrunc y = n).
  { intros E. pose proof (fp_round_Z prec emin x n P M B E) as Ey. fold y in Ey.
    assert (H : n <= Qtrunc y <= n)
      by (apply Qtrunc_between; split; Lqa.lra).
    lia. }
  assert (C : Qtrunc y = n \/ (Qtrunc y = n + 1 /\ (inject_Z n < x)%Q)).
  { destruct (Z.eq_dec (Qtrunc y) n) as [ | N]; [left; assumption | ].
    right. split; [lia | ].
    destruct (Qlt_le_dec (inject_Z n) x) as [ | G]; [assumption | ].
    exfalso. apply N, I. Lqa.lra. }
  split; [ | split].
  - destruct C as [-> | [-> G]]; [Lqa.lra | ].
    rewrite inject_Z_plus. change (inject_Z 1) with 1%Q. Lqa.lra.
  - destruct C as [-> | [-> G]]; [Lqa.lra | ].
    rewrite inject_Z_plus. change (inject_Z 1) with 1%Q. Lqa.lra.
  - intros a b A Bb.
    assert (An : a <= n).
    { rewrite <- (Qfloor_Z a). apply Qfloor_resp_le. exact A. }
    destruct C as [-> | [-> G]]; [split; [lia | ] | split; [lia | ]].
    + rewrite Zle_Qle. Lqa.lra.
    + assert (n < b) by (rewrite Zlt_Qlt; Lqa.lra). lia.
Qed.

Lemma below_two_to_24 (x : Q) (a b : Z) :
  -16777216 < a -> b < 16777216 ->
  (inject_Z a <= x)%Q -> (x <= inject_Z b)%Q ->
  (Qabs x < inject_Z (2 ^ 24))%Q.
Proof.
  intros A B L U.
  assert (A' : (inject_Z (-16777216) < inject_Z a)%Q)
    by (rewrite <- Zlt_Qlt; exact A).
  assert (B' : (inject_Z b < inject_Z 16777216)%Q)
    by (rewrite <- Zlt_Qlt; exact B).
  change (inject_Z (-16777216)) with (-16777216)%Q in A'.
  change (inject_Z 16777216) with 16777216%Q in B'.
  change (inject_Z (2 ^ 24)) with 16777216%Q.
  apply Qabs_Qlt_condition. split; Lqa.lra.
Qed.

(** What the conversion of a [float] result to an integer gives: an integer
    less than 1 away from the exact value, inside the integer bounds of the
    exact value. *)
Lemma Qtrunc_f32_round (x : Q) (a b : Z) :
  -16777216 < a -> b < 16777216 ->
  (inject_Z a <= x)%Q -> (x <= inject_Z b)%Q ->
  a <= Qtrunc (f32_round x) <= b /\
  (-1 < inject_Z (Qtrunc (f32_round x)) - x)%Q /\
  (inject_Z (Qtrunc (f32_round x)) - x < 1)%Q.
Proof.
  intros A B L U.
  pose proof (below_two_to_24 x a b A B L U) as M.
  assert (P : 0 < 24) by lia. assert (E : -149 <= 0) by lia.
  destruct (Qtrunc_fp_round 24 (-149) x P E M) as (C1 & C2 & R).
  split; [exact (R a b L U) | split; assumption].
Qed.

(** X23 (value field).  The 11-byte payload of the LoRaWAN-only firmware
    carries the reading as hundredths in two bytes: the [float] product of
    the reading and 100, rounded as [float] products are, with its fraction
    dropped.  For a reading between -327.68 and 327.67 a receiver that reads
    bytes 4 and 5 as a big-endian two's-complement number gets that integer
    back, and it is less than a hundredth away from the reading, negative
    readings included; bytes 6 to 9 give the timestamp and byte 10 the
    sequence number modulo 256. *)
Theorem payload_value_reads_back cfg d seq :
  (-32768 <= LoRaOnly.value d * 100)%Q ->
  (LoRaOnly.value d * 100 <= 32767)%Q ->
  0 <= LoRaOnly.timestamp d < 4294967296 ->
  length (LoRaOnly.build_payload cfg d seq) = 11%nat /\
  payload_value_fixed (LoRaOnly.build_payload cfg d seq)
    = Qtrunc (f32_round (LoRaOnly.value d * 100)) /\
  (Qabs (inject_Z (payload_value_fixed (LoRaOnly.build_payload cfg d seq)) / 100
         - LoRaOnly.value d) < 1 # 100)%Q /\
  be32 (nth 6 (LoRaOnly.build_payload cfg d seq) 0)
       (nth 7 (LoRaOnly.build_payload cfg d seq) 0)
       (nth 8 (LoRaOnly.build_payload cfg d seq) 0)
       (nth 9 (LoRaOnly.build_payload cfg d seq) 0)
    = LoRaOnly.timestamp d /\
  nth 10 (LoRaOnly.build_payload cfg d seq) 0 = seq mod 256.
Proof.
  intros Lo Hi T.
  change (-32768)%Q with (inject_Z (-32768)) in Lo.
  change 32767%Q with (inject_Z 32767) in Hi.
  destruct (Qtrunc_f32_round (LoRaOnly.value d * 100) (-32768) 32767)
    as (V & A & B); [lia | lia | exact Lo | exact Hi | ].
  assert (W : i16 (Qtrunc (f32_round (LoRaOnly.value d * 100)))
              = Qtrunc (f32_round (LoRaOnly.value d * 100)))
    by (apply i16_small; exact V).
  assert (F : payload_value_fixed (LoRaOnly.build_payload cfg d seq)
              = Qtrunc (f32_round (LoRaOnly.value d * 100))).
  { unfold payload_value_fixed, LoRaOnly.build_payload. cbn [nth].
    rewrite W. apply be16_of_fixed. exact V. }
  split; [reflexivity | split; [exact F | split; [ | split]]].
  - rewrite F. apply Qabs_Qlt_condition.
    apply hundredths_close; assumption.
  - unfold LoRaOnly.build_payload. cbn [nth]. apply be32_byte_of. exact T.
  - unfold LoRaOnly.build_payload. cbn [nth].
    change 255 with (Z.ones 8). rewrite Z.land_ones by lia. reflexivity.
Qed.

Lemma payload_value_reads_back_witness :
  (-32768 <= LoRaOnly.value example_reading_rounded * 100)%Q /\
  (LoRaOnly.value example_reading_rounded * 100 <= 32767)%Q /\
  (0 <= LoRaOnly.timestamp example_reading_rounded < 4294967296) /\
  Qtrunc (LoRaOnly.value example_reading_rounded * 100) = 28 /\
  payload_value_fixed
    (LoRaOnly.build_payload LoRaOnly.device_config example_reading_rounded 300)
  = 29.
Proof.
  assert (Lo : (-32768 <= LoRaOnly.value example_reading_rounded * 100)%Q)
    by (vm_compute; discriminate).
  assert (Hi : (LoRaOnly.value example_reading_rounded * 100 <= 32767)%Q)
    by (vm_compute; discriminate).
  assert (T : 0 <= LoRaOnly.timestamp example_reading_rounded < 4294967296)
    by (vm_compute; split; [discriminate | reflexivity]).
  split; [exact Lo | split; [exact Hi | split; [exact T | ]]].
  split; [reflexivity | ].
  destruct (payload_value_reads_back LoRaOnly.device_config
                                     example_reading_rounded 300 Lo Hi T)
    as (_ & F & _).
  rewrite F. reflexivity.
Defined.

(** ** The water firmware *)

Lemma penalty_range c : 0 <= Electrical.penalty c <= 1.
Proof. destruct c; simpl; lia. Qed.

Lemma penalty_zero c : Electrical.penalty c = 0 <-> c = false.
Proof. destruct c; simpl; split; intros H; try reflexivity; discriminate H. Qed.

Lemma penalty_above t x x' :
  (x <= x')%Q ->
  Electrical.penalty (Qltb t x) <= Electrical.penalty (Qltb t x').
Proof.
  intros L. destruct (Qltb t x) eqn:A.
  - rewrite (Qltb_mono_r _ _ _ L A). lia.
  - simpl. apply penalty_range.
Qed.

(** X24 (water quality grade).  The grade lies between 0 and 5 and does not
    go down when the turbidity goes up, pH and temperature being the same;
    it is 0, the best, exactly when the pH is within 6.8 to 8.2, the
    turbidity at most 1 NTU and the temperature within 5 to 30 degrees. *)
Theorem water_grade_range_and_turbidity d d' :
  Water.ph_value d' = Water.ph_value d ->
  Water.temperature d' = Water.temperature d ->
  (Water.turbidity d <= Water.turbidity d')%Q ->
  0 <= Water.calculate_water_quality_grade d
    <= Water.calculate_water_quality_grade d' /\
  Water.calculate_water_quality_grade d' <= 5 /\
  (Water.calculate_water_quality_grade d = 0 <->
   (6.8 <= Water.ph_value d)%Q /\ (Water.ph_value d <= 8.2)%Q /\
   (Water.turbidity d <= 1)%Q /\
   (5 <= Water.temperature d)%Q /\ (Water.temperature d <= 30)%Q).
Proof.
  intros P T U. unfold Water.calculate_water_quality_grade. rewrite P, T.
  pose proof (penalty_above 1 _ _ U) as U1.
  pose proof (penalty_above 4 _ _ U) as U4.
  pose proof (penalty_above 10 _ _ U) as U10.
  pose proof (penalty_range (Qltb (Water.ph_value d) 6.8
                             || Qltb 8.2 (Water.ph_value d))) as R1.
  pose proof (penalty_range (Qltb (Water.ph_value d) 6.5
                             || Qltb 8.5 (Water.ph_value d))) as R2.
  pose proof (penalty_range (Qltb 1 (Water.turbidity d))) as R3.
  pose proof (penalty_range (Qltb 4 (Water.turbidity d))) as R4.
  pose proof (penalty_range (Qltb 10 (Water.turbidity d))) as R5.
  pose proof (penalty_range (Qltb (Water.temperature d) 5
                             || Qltb 30 (Water.temperature d))) as R6.
  pose proof (penalty_range (Qltb 1 (Water.turbidity d'))) as R7.
  pose proof (penalty_range (Qltb 4 (Water.turbidity d'))) as R8.
  pose proof (penalty_range (Qltb 10 (Water.turbidity d'))) as R9.
  split; [ | split].
  - destruct (Z.ltb_spec 5 (0 + Electrical.penalty
                                  (Qltb (Water.ph_value d) 6.8
                                   || Qltb 8.2 (Water.ph_value d))
                            + Electrical.penalty
                                (Qltb (Water.ph_value d) 6.5
                                 || Qltb 8.5 (Water.ph_value d))
                            + Electrical.penalty (Qltb 1 (Water.turbidity d))
                            + Electrical.penalty (Qltb 4 (Water.turbidity d))
                            + Electrical.penalty (Qltb 10 (Water.turbidity d))
                            + Electrical.penalty
                                (Qltb (Water.temperature d) 5
                                 || Qltb 30 (Water.temperature d))));
      destruct (Z.ltb_spec 5 (0 + Electrical.penalty
                                  (Qltb (Water.ph_value d) 6.8
                                   || Qltb 8.2 (Water.ph_value d))
                            + Electrical.penalty
                                (Qltb (Water.ph_value d) 6.5
                                 || Qltb 8.5 (Water.ph_value d))
                            + Electrical.penalty (Qltb 1 (Water.turbidity d'))
                            + Electrical.penalty (Qltb 4 (Water.turbidity d'))
                            + Electrical.penalty (Qltb 10 (Water.turbidity d'))
                            + Electrical.penalty
                                (Qltb (Water.temperature d) 5
                                 || Qltb 30 (Water.temperature d))));
      lia.
  - match goal with
    | |- (if ?c then _ else _) <= _ => destruct c eqn:E
    end; [lia | apply Z.ltb_ge in E; exact E].
  - assert (S : forall g, 0 <= g -> ((if 5 <? g then 5 else g) = 0 <-> g = 0)).
    { intros g G. destruct (Z.ltb_spec 5 g); lia. }
    rewrite S by lia.
    split.
    + intros Z0.
      assert (A1 : Electrical.penalty (Qltb (Water.ph_value d) 6.8
                                       || Qltb 8.2 (Water.ph_value d)) = 0)
        by lia.
      assert (A3 : Electrical.penalty (Qltb 1 (Water.turbidity d)) = 0) by lia.
      assert (A6 : Electrical.penalty (Qltb (Water.temperature d) 5
                                       || Qltb 30 (Water.temperature d)) = 0)
        by lia.
      apply penalty_zero in A1, A3, A6.
      apply orb_false_iff in A1, A6.
      destruct A1 as [A1 A1'], A6 as [A6 A6'].
      rewrite Qltb_ge in A1, A1', A3, A6, A6'.
      repeat split; assumption.
    + intros (A1 & A1' & A3 & A6 & A6').
      assert (B1 : Qltb (Water.ph_value d) 6.8 = false) by (apply Qltb_ge; exact A1).
      assert (B1' : Qltb 8.2 (Water.ph_value d) = false) by (apply Qltb_ge; exact A1').
      assert (B2 : Qltb (Water.ph_value d) 6.5 = false) by (apply Qltb_ge; Lqa.lra).
      assert (B2' : Qltb 8.5 (Water.ph_value d) = false) by (apply Qltb_ge; Lqa.lra).
      assert (B3 : Qltb 1 (Water.turbidity d) = false) by (apply Qltb_ge; exact A3).
      assert (B4 : Qltb 4 (Water.turbidity d) = false) by (apply Qltb_ge; Lqa.lra).
      assert (B5 : Qltb 10 (Water.turbidity d) = false) by (apply Qltb_ge; Lqa.lra).
      assert (B6 : Qltb (Water.temperature d) 5 = false) by (apply Qltb_ge; exact A6).
      assert (B6' : Qltb 30 (Water.temperature d) = false) by (apply Qltb_ge; exact A6').
      rewrite B1, B1', B2, B2', B3, B4, B5, B6, B6'. reflexivity.
Qed.

Lemma water_grade_range_and_turbidity_witness :
  (Water.turbidity example_measurement
   <= Water.turbidity (Water.mk_water_data 120 3.217 12.5 7.2 20 12 1 0 70000.6 0))%Q /\
  Water.calculate_water_quality_grade example_measurement = 0 /\
  Water.calculate_water_quality_grade example_measurement
  <= Water.calculate_water_quality_grade
       (Water.mk_water_data 120 3.217 12.5 7.2 20 12 1 0 70000.6 0).
Proof.
  assert (U : (Water.turbidity example_measurement
               <= Water.turbidity
                    (Water.mk_water_data 120 3.217 12.5 7.2 20 12 1 0 70000.6 0))%Q)
    by (vm_compute; discriminate).
  split; [exact U | split; [reflexivity | ]].
  destruct (water_grade_range_and_turbidity
              example_measurement
              (Water.mk_water_data 120 3.217 12.5 7.2 20 12 1 0 70000.6 0)
              eq_refl eq_refl U) as [[_ M] _].
  exact M.
Defined.

Lemma water_checks_bits cfg d :
  exists lp hp nf hf lph hph : bool,
    lp = Qltb (Water.pressure d) 1 /\
    hp = Qltb (Water.pressure_range cfg * 0.9) (Water.pressure d) /\
    nf = (Qltb (Water.flow_rate d) 0.1 && Qltb 2 (Water.pressure d)) /\
    hf = Qltb (Water.flow_range cfg * 0.8) (Water.flow_rate d) /\
    lph = Qltb (Water.ph_value d) (Water.ph_min cfg) /\
    hph = Qltb (Water.ph_max cfg) (Water.ph_value d) /\
    Water.water_checks cfg d
    = (if lp then 1 else 0) + (if hp then 2 else 0) + (if nf then 4 else 0)
      + (if hf then 8 else 0) + (if lph then 16 else 0)
      + (if hph then 32 else 0).
Proof.
  do 6 eexists. do 6 (split; [reflexivity | ]).
  unfold Water.water_checks.
  destruct (Qltb (Water.pressure d) 1),
    (Qltb (Water.pressure_range cfg * 0.9) (Water.pressure d)),
    (Qltb (Water.flow_rate d) 0.1 && Qltb 2 (Water.pressure d)),
    (Qltb (Water.flow_range cfg * 0.8) (Water.flow_rate d)),
    (Qltb (Water.ph_value d) (Water.ph_min cfg)),
    (Qltb (Water.ph_max cfg) (Water.ph_value d));
    reflexivity.
Qed.

Lemma lor_u8_zero w a :
  is_byte w -> u8 (Z.lor w a) = 0 -> w = 0 /\ u8 a = 0.
Proof.
  unfold is_byte, u8. intros W H.
  change 256 with (2 ^ 8) in H |- *.
  rewrite <- Z.land_ones in H |- * by lia.
  rewrite Z.land_lor_distr_l in H.
  apply Z.lor_eq_0_iff in H. destruct H as [Hw Ha].
  split; [ | exact Ha].
  rewrite Z.land_ones in Hw by lia.
  rewrite Z.mod_small in Hw by (simpl; lia). exact Hw.
Qed.

Lemma lor_u8_keeps_bit w l :
  Z.testbit (u8 (Z.lor w (Z.lor l Water.WATER_ALERT_LEAK_DETECTED))) 6 = true.
Proof.
  unfold u8. change 256 with (2 ^ 8).
  rewrite Z.mod_pow2_bits_low by lia.
  rewrite !Z.lor_spec. change (Z.testbit Water.WATER_ALERT_LEAK_DETECTED 6) with true.
  rewrite !orb_true_r. reflexivity.
Qed.

(** The alerts of a turn of the water task that got the mutex, and what the
    turn leaves behind. *)
Lemma water_step_taken env s :
  Water.water_mutex_taken env = true ->
  exists d0 w,
    Water.pressure d0 = Water.pressure_reading env /\
    Water.flow_rate d0 = Water.flow_reading env /\
    Water.ph_value d0 = Water.ph_reading env /\
    w = Electrical.raise (negb (Water.sensor_health env =? 0))
                         Water.WATER_ALERT_SENSOR_FAULT
                         (Water.water_checks (Water.config (Water.shared s)) d0) /\
    snd (Water.vWaterTask_step env s)
    = match Water.xLeakAlertQueue (Water.shared s) with
      | leak_alert :: _ => u8 (Z.lor w leak_alert)
      | [] => w
      end /\
    interval_after env s
    = Water.adaptive_interval (snd (Water.vWaterTask_step env s))
                              (Water.flow_reading env) /\
    Water.leak_check_interval
      (Water.config (Water.shared (fst (Water.vWaterTask_step env s))))
    = Water.leak_check_interval (Water.config (Water.shared s)) /\
    Water.xLeakAlertQueue (Water.shared (fst (Water.vWaterTask_step env s)))
    = tl (Water.xLeakAlertQueue (Water.shared s)) /\
    exists d,
      Water.xWaterDataQueue (fst (Water.vWaterTask_step env s))
      = Electrical.queue_send 8 (Water.xWaterDataQueue s) d /\
      Water.leak_detected d
      = match Water.xLeakAlertQueue (Water.shared s) with
        | _ :: _ => 1
        | [] => 0
        end /\
      Water.water_quality_grade d = Water.calculate_water_quality_grade d /\
      Water.sensor_status d = Water.sensor_health env.
Proof.
  intros M. unfold interval_after, Water.vWaterTask_step. rewrite M.
  cbn [negb]. cbv iota.
  eexists. eexists.
  split; [ | split; [ | split; [ | split; [reflexivity | ]]]].
  4: destruct (Water.xLeakAlertQueue (Water.shared s)) as [ | a rest];
     cbn [fst snd Water.shared Water.config Water.xWaterDataQueue
          Water.xLeakAlertQueue Water.measurement_interval
          Water.leak_check_interval Water.with_measurement_interval tl];
     (split; [reflexivity | split; [reflexivity | split; [reflexivity | ]]]);
     (split; [reflexivity | ]);
     eexists; (split; [reflexivity | ]); repeat split.
  all: reflexivity.
Qed.

(** X25 (adaptive sampling).  A turn of the water task that gets the mutex
    sets the measurement interval to 30 s, 1 min or 5 min and leaves the
    leak-check interval alone.  The 5 min of an idle pipe are chosen only
    when the flow is below 0.1 L/min with nothing to report: pressure between
    1 and 2 bar and not above 0.9 of the range, pH within its limits, sensors
    healthy, and no leak alert waiting.  An idle pipe above 2 bar counts as
    blocked and is sampled every 30 s. *)
Theorem five_minute_sampling_only_when_idle_and_clean env s :
  Water.water_mutex_taken env = true ->
  (interval_after env s = 30000 \/ interval_after env s = 60000
   \/ interval_after env s = 300000) /\
  Water.leak_check_interval
    (Water.config (Water.shared (fst (Water.vWaterTask_step env s))))
  = Water.leak_check_interval (Water.config (Water.shared s)) /\
  (interval_after env s = 300000 ->
   (Water.flow_reading env < 0.1)%Q /\
   (1 <= Water.pressure_reading env)%Q /\
   (Water.pressure_reading env <= 2)%Q /\
   (Water.pressure_reading env
    <= Water.pressure_range (Water.config (Water.shared s)) * 0.9)%Q /\
   (Water.ph_min (Water.config (Water.shared s)) <= Water.ph_reading env)%Q /\
   (Water.ph_reading env <= Water.ph_max (Water.config (Water.shared s)))%Q /\
   Water.sensor_health env = 0 /\
   forall a rest,
     Water.xLeakAlertQueue (Water.shared s) = a :: rest -> u8 a = 0) /\
  ((Water.flow_reading env < 0.1)%Q -> (2 < Water.pressure_reading env)%Q ->
   interval_after env s = 30000).
Proof.
  intros M.
  destruct (water_step_taken env s M)
    as (d0 & w & Ep & Ef & Eph & Ew & Ea & Ei & El & _).
  destruct (water_checks_bits (Water.config (Water.shared s)) d0)
    as (lp & hp & nf & hf & lph & hph & Elp & Ehp & Enf & Ehf & Elph & Ehph & Ec).
  rewrite Ep in Elp, Ehp, Enf. rewrite Ef in Enf, Ehf. rewrite Eph in Elph, Ehph.
  rewrite Ec in Ew.
  assert (Wb : is_byte w).
  { rewrite Ew. unfold is_byte.
    destruct (negb (Water.sensor_health env =? 0)), lp, hp, nf, hf, lph, hph;
      (vm_compute; split; [discriminate | reflexivity]). }
  rewrite Ei. unfold Water.adaptive_interval.
  split; [ | split; [exact El | split]].
  - destruct (negb (snd (Water.vWaterTask_step env s) =? 0));
      [left; reflexivity | ].
    destruct (Qltb (Water.flow_reading env) 0.1);
      [right; right; reflexivity | right; left; reflexivity].
  - destruct (Z.eqb_spec (snd (Water.vWaterTask_step env s)) 0) as [Z0 | N];
      cbn [negb]; [ | discriminate].
    destruct (Qltb (Water.flow_reading env) 0.1) eqn:F; [ | discriminate].
    intros _.
    assert (W0 : w = 0 /\
                 forall a rest,
                   Water.xLeakAlertQueue (Water.shared s) = a :: rest ->
                   u8 a = 0).
    { rewrite Ea in Z0.
      destruct (Water.xLeakAlertQueue (Water.shared s)) as [ | a rest].
      - split; [exact Z0 | intros a rest H; discriminate H].
      - destruct (lor_u8_zero w a Wb Z0) as [A B].
        split; [exact A | intros a' rest' H; inversion H; subst; exact B]. }
    destruct W0 as [W0 Q0]. rewrite W0 in Ew.
    destruct (Z.eqb_spec (Water.sensor_health env) 0) as [H0 | H0];
      cbn [negb] in Ew;
      destruct lp, hp, nf, hf, lph, hph; try discriminate Ew.
    symmetry in Elp, Ehp, Enf, Elph, Ehph.
    cbn [andb] in Enf.
    rewrite Qltb_ge in Elp, Ehp, Enf, Elph, Ehph.
    apply Qltb_lt in F.
    repeat split; assumption.
  - intros F P.
    assert (Nf : nf = true).
    { rewrite Enf. apply andb_true_iff. split; apply Qltb_lt; assumption. }
    assert (N : snd (Water.vWaterTask_step env s) <> 0).
    { rewrite Ea. intros Z0.
      assert (W0 : w = 0).
      { destruct (Water.xLeakAlertQueue (Water.shared s)) as [ | a rest];
          [exact Z0 | exact (proj1 (lor_u8_zero w a Wb Z0))]. }
      rewrite W0, Nf in Ew.
      destruct (negb (Water.sensor_health env =? 0)), lp, hp, hf, lph, hph;
        discriminate Ew. }
    destruct (Z.eqb_spec (snd (Water.vWaterTask_step env s)) 0);
      [contradiction | reflexivity].
Qed.

Lemma five_minute_sampling_only_when_idle_and_clean_witness :
  Water.water_mutex_taken example_idle_pipe = true /\
  interval_after example_idle_pipe (example_water_start example_three_readings)
    = 300000 /\
  (1 <= Water.pressure_reading example_idle_pipe)%Q /\
  (Water.pressure_reading example_idle_pipe <= 2)%Q.
Proof.
  assert (M : Water.water_mutex_taken example_idle_pipe = true) by reflexivity.
  assert (I : interval_after example_idle_pipe
                             (example_water_start example_three_readings)
              = 300000) by (vm_compute; reflexivity).
  split; [exact M | split; [exact I | ]].
  destruct (five_minute_sampling_only_when_idle_and_clean
              example_idle_pipe (example_water_start example_three_readings) M)
    as (_ & _ & S & _).
  destruct (S I) as (_ & A & B & _).
  split; [exact A | exact B].
Defined.

Lemma leak_step_emergency env l l1 rep r :
  Water.vLeakDetectionTask_step env l = Some (l1, rep) ->
  Water.emergency rep = Some r ->
  Water.config l1 = Water.increase_monitoring (Water.config l) /\
  Water.xLeakAlertQueue l1
  = Water.xQueueSend 3 (Water.xLeakAlertQueue l)
      (Z.lor (Water.leak_alert l) Water.WATER_ALERT_LEAK_DETECTED).
Proof.
  unfold Water.vLeakDetectionTask_step.
  destruct (negb (Water.mutex_taken env));
    [intros H E; inversion H; subst; discriminate E | ].
  destruct (Qltb _ _).
  - destruct (lorawan_send _ _ _ _ _) as [[r' e'] | ]; intros H E;
      inversion H; subst. split; reflexivity.
  - intros H E; inversion H; subst. discriminate E.
Qed.

(** X26 (from the leak task to the measurement).  When the leak-detection
    task takes its emergency branch with an empty alert queue, then whatever
    [lorawan_send] answered to the emergency, the next turn of the water task
    that gets the mutex takes the alert from the queue, publishes its
    measurement with the leak flag set, has the leak bit among its alerts
    and samples every 30 s, while the leak check stays at the 5 s the leak
    task chose. *)
Theorem detected_leak_is_flagged_in_next_measurement lenv wenv s l1 rep r :
  Water.vLeakDetectionTask_step lenv (Water.shared s) = Some (l1, rep) ->
  Water.emergency rep = Some r ->
  Water.xLeakAlertQueue (Water.shared s) = [] ->
  Water.water_mutex_taken wenv = true ->
  (length (Water.xWaterDataQueue s) < 8)%nat ->
  exists d,
    Water.xWaterDataQueue (fst (Water.vWaterTask_step wenv (with_shared l1 s)))
    = Water.xWaterDataQueue s ++ [d] /\
    Water.leak_detected d = 1 /\
    Z.testbit (snd (Water.vWaterTask_step wenv (with_shared l1 s))) 6 = true /\
    interval_after wenv (with_shared l1 s) = 30000 /\
    Water.leak_check_interval
      (Water.config
         (Water.shared (fst (Water.vWaterTask_step wenv (with_shared l1 s)))))
    = 5000 /\
    Water.xLeakAlertQueue
      (Water.shared (fst (Water.vWaterTask_step wenv (with_shared l1 s))))
    = [].
Proof.
  intros L E Q M R.
  destruct (leak_step_emergency _ _ _ _ _ L E) as [C X].
  rewrite Q in X. change (Water.xQueueSend 3 [] ?a) with [a] in X.
  destruct (water_step_taken wenv (with_shared l1 s) M)
    as (d0 & w & _ & _ & _ & _ & Ea & Ei & El & Eq & d & Ed & Ek & _).
  cbn [with_shared Water.shared Water.xWaterDataQueue] in Ea, El, Eq, Ed, Ek.
  rewrite X in Ea, Eq, Ek. rewrite C in El.
  assert (B : Z.testbit (snd (Water.vWaterTask_step wenv (with_shared l1 s))) 6
              = true)
    by (rewrite Ea; apply lor_u8_keeps_bit).
  exists d.
  split; [ | split; [exact Ek | split; [exact B | split; [ | split]]]].
  - rewrite Ed. unfold Electrical.queue_send.
    apply Nat.ltb_lt in R. rewrite R. reflexivity.
  - rewrite Ei. unfold Water.adaptive_interval.
    destruct (Z.eqb_spec (snd (Water.vWaterTask_step wenv (with_shared l1 s))) 0)
      as [Z0 | N]; [ | reflexivity].
    rewrite Z0 in B. discriminate B.
  - rewrite El. reflexivity.
  - rewrite Eq. reflexivity.
Qed.

Lemma detected_leak_is_flagged_in_next_measurement_witness :
  exists l1 rep d,
    Water.vLeakDetectionTask_step (leak_env_reading 7 5000 (env_at 50000))
                                  example_three_readings
    = Some (l1, rep) /\
    Water.emergency rep = Some LORAWAN_ERROR_BUSY /\
    Water.xWaterDataQueue
      (fst (Water.vWaterTask_step
              example_flowing_pipe
              (with_shared l1 (example_water_start example_three_readings))))
    = [d] /\
    Water.leak_detected d = 1.
Proof.
  destruct (Water.vLeakDetectionTask_step
              (leak_env_reading 7 5000 (env_at 50000)) example_three_readings)
    as [[l1 rep] | ] eqn:L; [ | vm_compute in L; discriminate L].
  assert (E : Water.emergency rep = Some LORAWAN_ERROR_BUSY)
    by (vm_compute in L; inversion L; reflexivity).
  assert (Q : Water.xLeakAlertQueue
                (Water.shared (example_water_start example_three_readings)) = [])
    by reflexivity.
  assert (M : Water.water_mutex_taken example_flowing_pipe = true)
    by reflexivity.
  assert (R : (length (Water.xWaterDataQueue
                         (example_water_start example_three_readings)) < 8)%nat)
    by (simpl; lia).
  destruct (detected_leak_is_flagged_in_next_measurement
              (leak_env_reading 7 5000 (env_at 50000)) example_flowing_pipe
              (example_water_start example_three_readings) l1 rep
              LORAWAN_ERROR_BUSY L E Q M R)
    as (d & D & K & _).
  exists l1, rep, d.
  split; [reflexivity | split; [exact E | split; [exact D | exact K]]].
Defined.

Lemma be16_byte_of x :
  0 <= x < 65536 -> be16 (byte_of x 1) (byte_of x 0) = x.
Proof.
  intros H. rewrite <- (le16_byte_of x H) at 3. unfold be16, le16. lia.
Qed.

Lemma tenths_close (x : Q) (v : Z) :
  (-1 < inject_Z v - x * 10)%Q ->
  (inject_Z v - x * 10 < 1)%Q ->
  (- (1 # 10) < inject_Z v / 10 - x /\ inject_Z v / 10 - x < 1 # 10)%Q.
Proof.
  intros A B.
  assert (E : (inject_Z v / 10 - x == (inject_Z v - x * 10) / 10)%Q)
    by field.
  rewrite E. split.
  - apply Qlt_shift_div_l; [reflexivity | ]. Lqa.lra.
  - apply Qlt_shift_div_r; [reflexivity | ]. Lqa.lra.
Qed.

(** X27 (water payload).  The payload of a water measurement has 18 bytes.
    The pressure field is the [float] product of the pressure and 100, the
    flow field that of the flow and 10, each rounded as [float] products are
    and with its fraction dropped.  For a pressure between 0 and 655.35 bar
    and a flow between 0 and 6553.5 L/min a receiver reading the fields
    big-endian gets these integers back, the pressure to within 0.01 bar and
    the flow to within 0.1 L/min; the total flow reads back as its whole
    litres when they fit 32 bits, and byte 3 is the leak flag of the
    measurement. *)
Theorem water_payload_reads_back d battery :
  (0 <= Water.pressure d * 100)%Q -> (Water.pressure d * 100 <= 65535)%Q ->
  (0 <= Water.flow_rate d * 10)%Q -> (Water.flow_rate d * 10 <= 65535)%Q ->
  0 <= Qtrunc (Water.total_flow d) < 4294967296 ->
  length (Water.water_payload d battery) = 18%nat /\
  payload_pressure (Water.water_payload d battery)
    = Qtrunc (f32_round (Water.pressure d * 100)) /\
  (Qabs (inject_Z (payload_pressure (Water.water_payload d battery)) / 100
         - Water.pressure d) < 1 # 100)%Q /\
  payload_flow (Water.water_payload d battery)
    = Qtrunc (f32_round (Water.flow_rate d * 10)) /\
  (Qabs (inject_Z (payload_flow (Water.water_payload d battery)) / 10
         - Water.flow_rate d) < 1 # 10)%Q /\
  payload_total_flow (Water.water_payload d battery)
    = Qtrunc (Water.total_flow d) /\
  nth 3 (Water.water_payload d battery) 0 = Water.leak_detected d.
Proof.
  intros P0 P1 F0 F1 T.
  change 0%Q with (inject_Z 0) in P0, F0.
  change 65535%Q with (inject_Z 65535) in P1, F1.
  destruct (Qtrunc_f32_round (Water.pressure d * 100) 0 65535)
    as (Vp & Ap & Bp); [lia | lia | exact P0 | exact P1 | ].
  destruct (Qtrunc_f32_round (Water.flow_rate d * 10) 0 65535)
    as (Vf & Af & Bf); [lia | lia | exact F0 | exact F1 | ].
  assert (Up : u16 (Qtrunc (f32_round (Water.pressure d * 100)))
               = Qtrunc (f32_round (Water.pressure d * 100)))
    by (unfold u16; apply Z.mod_small; lia).
  assert (Uf : u16 (Qtrunc (f32_round (Water.flow_rate d * 10)))
               = Qtrunc (f32_round (Water.flow_rate d * 10)))
    by (unfold u16; apply Z.mod_small; lia).
  assert (Ut : u32 (Qtrunc (Water.total_flow d)) = Qtrunc (Water.total_flow d))
    by (unfold u32; apply Z.mod_small; exact T).
  assert (Ep : payload_pressure (Water.water_payload d battery)
               = Qtrunc (f32_round (Water.pressure d * 100))).
  { unfold payload_pressure, Water.water_payload. cbn [nth].
    rewrite Up. apply be16_byte_of. lia. }
  assert (Ef : payload_flow (Water.water_payload d battery)
               = Qtrunc (f32_round (Water.flow_rate d * 10))).
  { unfold payload_flow, Water.water_payload. cbn [nth].
    rewrite Uf. apply be16_byte_of. lia. }
  split; [reflexivity | split; [exact Ep | split; [ | split; [exact Ef | ]]]].
  - rewrite Ep. apply Qabs_Qlt_condition.
    apply hundredths_close; assumption.
  - split; [ | split].
    + rewrite Ef. apply Qabs_Qlt_condition.
      apply tenths_close; assumption.
    + unfold payload_total_flow, Water.water_payload. cbn [nth].
      rewrite Ut. apply be32_byte_of. exact T.
    + reflexivity.
Qed.

Lemma water_payload_reads_back_witness :
  (0 <= Water.pressure example_measurement_rounded * 100)%Q /\
  (Water.pressure example_measurement_rounded * 100 <= 65535)%Q /\
  (0 <= Water.flow_rate example_measurement_rounded * 10)%Q /\
  (Water.flow_rate example_measurement_rounded * 10 <= 65535)%Q /\
  (0 <= Qtrunc (Water.total_flow example_measurement_rounded) < 4294967296) /\
  Qtrunc (Water.pressure example_measurement_rounded * 100) = 28 /\
  payload_pressure (Water.water_payload example_measurement_rounded 87) = 29 /\
  Qtrunc (Water.flow_rate example_measurement_rounded * 10) = 6 /\
  payload_flow (Water.water_payload example_measurement_rounded 87) = 7 /\
  nth 8 (Water.water_payload example_measurement_rounded 87) 0 = 21 /\
  payload_total_flow (Water.water_payload example_measurement_rounded 87) = 70000.
Proof.
  assert (P0 : (0 <= Water.pressure example_measurement_rounded * 100)%Q)
    by (vm_compute; discriminate).
  assert (P1 : (Water.pressure example_measurement_rounded * 100 <= 65535)%Q)
    by (vm_compute; discriminate).
  assert (F0 : (0 <= Water.flow_rate example_measurement_rounded * 10)%Q)
    by (vm_compute; discriminate).
  assert (F1 : (Water.flow_rate example_measurement_rounded * 10 <= 65535)%Q)
    by (vm_compute; discriminate).
  assert (T : 0 <= Qtrunc (Water.total_flow example_measurement_rounded)
              < 4294967296)
    by (vm_compute; split; [discriminate | reflexivity]).
  split; [exact P0 | split; [exact P1 | split; [exact F0 | split; [exact F1 | ]]]].
  split; [exact T | ].
  destruct (water_payload_reads_back example_measurement_rounded 87
                                     P0 P1 F0 F1 T)
    as (_ & A & _ & B & _ & C & _).
  rewrite A, B, C.
  repeat split; vm_compute; reflexivity.
Defined.

(** ** Downlinks *)

(** X28 (downlinks).  [lorawan_process] writes nothing but the last signal
    quality: session with both frame counters, protocol state, duty-cycle
    clock and transmit log are as before, so the engine is as ready and as
    joined as it was, and the next [lorawan_send] gives the same result; when
    it goes through it leaves the very same engine behind. *)
Theorem downlink_leaves_the_uplink_alone penv env data length port e :
  session (lorawan_process penv e) = session e /\
  lorawan_state (lorawan_process penv e) = lorawan_state e /\
  last_tx_timestamp (lorawan_process penv e) = last_tx_timestamp e /\
  transmitted (lorawan_process penv e) = transmitted e /\
  lorawan_is_ready (lorawan_process penv e) = lorawan_is_ready e /\
  lorawan_is_joined (lorawan_process penv e) = lorawan_is_joined e /\
  option_map fst (lorawan_send env data length port (lorawan_process penv e))
    = option_map fst (lorawan_send env data length port e) /\
  (forall e1,
     lorawan_send env data length port e = Some (LORAWAN_SUCCESS, e1) ->
     lorawan_send env data length port (lorawan_process penv e)
       = Some (LORAWAN_SUCCESS, e1)) /\
  (downlink_done penv = true -> 0 < downlink_length penv ->
   lorawan_get_rssi (lorawan_process penv e) = downlink_rssi penv /\
   lorawan_get_snr (lorawan_process penv e) = downlink_snr penv).
Proof.
  destruct e as [st s c t r sn rd].
  unfold lorawan_process, lorawan_is_ready, lorawan_is_joined, transmitted,
    lorawan_get_rssi, lorawan_get_snr.
  destruct (downlink_done penv);
    [ | repeat split; try reflexivity; intros; try discriminate; assumption].
  destruct (Z.ltb_spec 0 (downlink_length penv)) as [L | L];
    [ | repeat split; try reflexivity; intros; try lia; assumption].
  cbn [session lorawan_state last_tx_timestamp radio last_rssi last_snr].
  do 6 (split; [reflexivity | ]).
  unfold lorawan_send.
  cbn [session lorawan_state last_tx_timestamp radio credentials
       with_state with_radio].
  destruct (negb (joined s) || negb (state_eqb st LORAWAN_STATE_JOINED)).
  - split; [reflexivity | split; [intros e1 H; discriminate H | ]].
    intros _ _. split; reflexivity.
  - destruct (242 <? length).
    + split; [reflexivity | split; [intros e1 H; discriminate H | ]].
      intros _ _. split; reflexivity.
    + destruct (u32 (lorawan_get_timestamp (send_counter env) - t) <? 99000).
      * split; [reflexivity | split; [intros e1 H; discriminate H | ]].
        intros _ _. split; reflexivity.
      * destruct (Radio.wait_tx_done (tx_done_answers env)).
        -- split; [reflexivity | split; [intros e1 H; exact H | ]].
           intros _ _. split; reflexivity.
        -- split; [reflexivity | split; [intros e1 H; discriminate H | ]].
           intros _ _. split; reflexivity.
Qed.

Lemma downlink_leaves_the_uplink_alone_witness :
  lorawan_send (env_at 200000) [1; 2; 3] 3 10 example_joined
    = Some (LORAWAN_SUCCESS, example_sent_once) /\
  lorawan_send (env_at 200000) [1; 2; 3] 3 10
               (lorawan_process (mk_process_env true 12 (-97) 3) example_joined)
    = Some (LORAWAN_SUCCESS, example_sent_once) /\
  lorawan_get_rssi (lorawan_process (mk_process_env true 12 (-97) 3)
                                    example_joined) = -97.
Proof.
  assert (S : lorawan_send (env_at 200000) [1; 2; 3] 3 10 example_joined
              = Some (LORAWAN_SUCCESS, example_sent_once))
    by (vm_compute; reflexivity).
  destruct (downlink_leaves_the_uplink_alone
              (mk_process_env true 12 (-97) 3) (env_at 200000) [1; 2; 3] 3 10
              example_joined) as (_ & _ & _ & _ & _ & _ & _ & K & R).
  split; [exact S | split; [exact (K _ S) | ]].
  destruct R as [R _]; [reflexivity | reflexivity | exact R].
Defined.
